(** * End-to-end-encrypted folder metadata and local propagation jobs

    A shallow embedding of the parts of the desktop synchronisation client
    that manage the metadata document of an encrypted folder
    (foldermetadata.cpp), the job that adds or removes a folder user
    (updatee2eefolderusersmetadatajob.cpp) and the local remove and rename
    jobs (propagatorjobs.cpp), together with the properties the design
    document states about them.

    Conventions of the embedding.
    - [QByteArray] and [QString] are both [string]: a text is represented by
      its UTF-8 bytes, so [toUtf8], [toLocal8Bit] and [fromUtf8] are the
      identity and are not written.
    - A [QSslCertificate] is represented by its PEM text and a [QSslKey] by
      its PEM text; the null key is the empty text.
    - [Q_ASSERT] is the release build's: it does nothing, and the check the
      source repeats after it decides.
    - Log statements are dropped.
    - Every value obtained from [EncryptionHelper::generateRandom] is an
      explicit argument of the function that draws it. *)

From Stdlib Require Import ZArith String Ascii Lia.
From stdpp Require Import gmap strings list fin_maps sorting.

Local Open Scope Z_scope.

Abbreviation QByteArray := string (only parsing).
Abbreviation QString := string (only parsing).

Definition isEmpty (s : string) : bool := bool_decide (s = "").
Definition size (s : string) : nat := String.length s.
(** [QByteArray(data, n)] and [left(n)]: the first [n] bytes. *)
Definition left (n : nat) (s : string) : string := substring 0 n s.
(** [mid(n)]: everything from position [n] on. *)
Definition mid (n : nat) (s : string) : string := substring n (String.length s - n) s.
Definition startsWith (s p : string) : bool := String.prefix p s.

(** ** JSON values (QJsonValue, QJsonObject, QJsonArray)

    A number is the fraction [num / den].  [Undefined] and [Null] behave
    alike under every conversion the code uses and are both [JNull]. *)

#[warnings="-register-all"]
Inductive QJsonValue :=
| JNull
| JBool (b : bool)
| JDouble (num : Z) (den : positive)
| JString (s : string)
| JArray (l : list QJsonValue)
| JObject (m : gmap string QJsonValue).

Module Json.

Definition toObject (v : QJsonValue) : gmap string QJsonValue :=
  match v with JObject m => m | _ => ∅ end.

Definition toArray (v : QJsonValue) : list QJsonValue :=
  match v with JArray l => l | _ => [] end.

Definition toString (v : QJsonValue) : string :=
  match v with JString s => s | _ => "" end.

(** [QJsonValue::toInt]: the number when it is whole and fits an [int], the
    default [0] otherwise. *)
Definition toInt (v : QJsonValue) : Z :=
  match v with
  | JDouble num den =>
      if bool_decide (num mod Z.pos den = 0)
      then let n := num / Z.pos den in
           if bool_decide (- 2 ^ 31 <= n < 2 ^ 31) then n else 0
      else 0
  | _ => 0
  end.

(** [obj[key]] and [obj.value(key)]. *)
Definition value (key : string) (o : gmap string QJsonValue) : QJsonValue :=
  default JNull (o !! key).

Definition contains (key : string) (o : gmap string QJsonValue) : bool :=
  bool_decide (is_Some (o !! key)).

(** [QJsonValue[key]], [QJsonDocument[key]]. *)
Definition at_ (key : string) (v : QJsonValue) : QJsonValue :=
  value key (toObject v).

(** The greatest key, [keys().last()] of an object walked in key order. *)
Definition lastKey (o : gmap string QJsonValue) : option string :=
  foldr (fun k acc =>
           match acc with
           | Some k' => if String.leb k k' then Some k' else Some k
           | None => Some k
           end) None (map_to_list o).*1.

(** The value of a number as the claims speak of it. *)
Definition below (v : QJsonValue) (bound : Z) : Prop :=
  match v with
  | JDouble num den => num < bound * Z.pos den
  | _ => False
  end.

End Json.

(** ** Collaborators outside the embedded sources

    The cryptographic helpers, Qt's codecs and the certificate parser.  The
    integer behind [RequiredMetadataVersion] is declared in a header that is
    not part of the embedded sources and is a field too. *)

Inductive RequiredMetadataVersion := Version1 | Version1_2 | Version2_0.

Class Platform := {
  (** [static_cast<int>] of the enumeration *)
  versionRank : RequiredMetadataVersion -> Z;
  calcSha256 : QByteArray -> QByteArray;
  (** [QCryptographicHash(Sha256)] over the data added, in hexadecimal *)
  sha256Hex : QByteArray -> QByteArray;
  toBase64 : QByteArray -> QByteArray;
  fromBase64 : QByteArray -> QByteArray;
  (** [QJsonDocument::toJson] and [QJsonDocument::fromJson] *)
  toJson : QJsonValue -> QByteArray;
  fromJson : QByteArray -> QJsonValue;
  (** [QVariant(double).toString()] of the number [num / den] *)
  numberToString : Z -> positive -> QString;
  (** [QSslCertificate(pem).isNull()] and [.publicKey()] *)
  certificateIsNull : QByteArray -> bool;
  certificatePublicKey : QByteArray -> QByteArray;
  (** RSA-OAEP; the empty array on failure *)
  encryptStringAsymmetric : QByteArray -> QByteArray -> QByteArray;
  decryptStringAsymmetric : QByteArray -> QByteArray -> QByteArray;
  (** AES-GCM with a password, used by the legacy format *)
  encryptStringSymmetric : QByteArray -> QByteArray -> QByteArray;
  decryptStringSymmetric : QByteArray -> QByteArray -> QByteArray;
  (** AES-GCM: key, iv, input; the output and the tag, or the output *)
  dataEncryption : QByteArray -> QByteArray -> QByteArray -> QByteArray * QByteArray;
  dataDecryption : QByteArray -> QByteArray -> QByteArray -> option QByteArray;
  (** KCompressionDevice in GZip mode; [None] when the device fails *)
  gZip : QByteArray -> option QByteArray;
  gUnZip : QByteArray -> option QByteArray;
}.

(** ** The account *)

Record Account := {
  davUser : QString;
  e2e_privateKey : QByteArray;
  e2e_publicKey : QByteArray;
  e2e_certificate : QByteArray;
  e2e_mnemonic : QString;
  shouldSkipE2eeMetadataChecksumValidation : bool;
}.

(** ** FolderMetadata (foldermetadata.cpp) *)

Module FolderMetadata.

Record EncryptedFile := {
  encryptedFilename : QString;
  originalFilename : QString;
  encryptionKey : QByteArray;
  mimetype : QByteArray;
  initializationVector : QByteArray;
  authenticationTag : QByteArray;
}.

(** A default-constructed [EncryptedFile]. *)
Definition noFile : EncryptedFile :=
  {| encryptedFilename := ""; originalFilename := ""; encryptionKey := "";
     mimetype := ""; initializationVector := ""; authenticationTag := "" |}.

Record FolderUser := {
  userId : QString;
  certificatePem : QByteArray;
  encryptedMetadataKey : QByteArray;
  encryptedFiledropKey : QByteArray;
}.

Definition set_encryptedMetadataKey (k : QByteArray) (u : FolderUser) : FolderUser :=
  {| userId := userId u; certificatePem := certificatePem u;
     encryptedMetadataKey := k; encryptedFiledropKey := encryptedFiledropKey u |}.

(** The members of the class that the embedded functions read or write. *)
Record t := {
  _account : Account;
  _requiredMetadataVersion : RequiredMetadataVersion;
  _topLevelFolderPath : QString;
  _metadataKeyForEncryption : QByteArray;
  _metadataKeyForDecryption : QByteArray;
  _metadataNonce : QByteArray;
  _keyChecksums : gset QByteArray;
  _folderUsers : gmap QString FolderUser;
  _files : list EncryptedFile;
  _versionFromMetadata : Z;
  _fileDropCipherTextEncryptedAndBase64 : QByteArray;
  _fileDropMetadataAuthenticationTag : QByteArray;
  _fileDropMetadataNonce : QByteArray;
  _fileDropKey : QByteArray;
  _fileDrop : gmap string QJsonValue;
  _fileDropFromServer : gmap string QJsonValue;
  _migrationNeeded : bool;
  _isMetadataSetup : bool;
}.

(** Assignments to one member. *)
Definition set_metadataKeyForEncryption (x : QByteArray) (fm : t) : t :=
  {| _account := _account fm; _requiredMetadataVersion := _requiredMetadataVersion fm; _topLevelFolderPath := _topLevelFolderPath fm; _metadataKeyForEncryption := x; _metadataKeyForDecryption := _metadataKeyForDecryption fm; _metadataNonce := _metadataNonce fm; _keyChecksums := _keyChecksums fm; _folderUsers := _folderUsers fm; _files := _files fm; _versionFromMetadata := _versionFromMetadata fm; _fileDropCipherTextEncryptedAndBase64 := _fileDropCipherTextEncryptedAndBase64 fm; _fileDropMetadataAuthenticationTag := _fileDropMetadataAuthenticationTag fm; _fileDropMetadataNonce := _fileDropMetadataNonce fm; _fileDropKey := _fileDropKey fm; _fileDrop := _fileDrop fm; _fileDropFromServer := _fileDropFromServer fm; _migrationNeeded := _migrationNeeded fm; _isMetadataSetup := _isMetadataSetup fm |}.
Definition set_metadataKeyForDecryption (x : QByteArray) (fm : t) : t :=
  {| _account := _account fm; _requiredMetadataVersion := _requiredMetadataVersion fm; _topLevelFolderPath := _topLevelFolderPath fm; _metadataKeyForEncryption := _metadataKeyForEncryption fm; _metadataKeyForDecryption := x; _metadataNonce := _metadataNonce fm; _keyChecksums := _keyChecksums fm; _folderUsers := _folderUsers fm; _files := _files fm; _versionFromMetadata := _versionFromMetadata fm; _fileDropCipherTextEncryptedAndBase64 := _fileDropCipherTextEncryptedAndBase64 fm; _fileDropMetadataAuthenticationTag := _fileDropMetadataAuthenticationTag fm; _fileDropMetadataNonce := _fileDropMetadataNonce fm; _fileDropKey := _fileDropKey fm; _fileDrop := _fileDrop fm; _fileDropFromServer := _fileDropFromServer fm; _migrationNeeded := _migrationNeeded fm; _isMetadataSetup := _isMetadataSetup fm |}.
Definition set_metadataNonce (x : QByteArray) (fm : t) : t :=
  {| _account := _account fm; _requiredMetadataVersion := _requiredMetadataVersion fm; _topLevelFolderPath := _topLevelFolderPath fm; _metadataKeyForEncryption := _metadataKeyForEncryption fm; _metadataKeyForDecryption := _metadataKeyForDecryption fm; _metadataNonce := x; _keyChecksums := _keyChecksums fm; _folderUsers := _folderUsers fm; _files := _files fm; _versionFromMetadata := _versionFromMetadata fm; _fileDropCipherTextEncryptedAndBase64 := _fileDropCipherTextEncryptedAndBase64 fm; _fileDropMetadataAuthenticationTag := _fileDropMetadataAuthenticationTag fm; _fileDropMetadataNonce := _fileDropMetadataNonce fm; _fileDropKey := _fileDropKey fm; _fileDrop := _fileDrop fm; _fileDropFromServer := _fileDropFromServer fm; _migrationNeeded := _migrationNeeded fm; _isMetadataSetup := _isMetadataSetup fm |}.
Definition set_keyChecksums (x : gset QByteArray) (fm : t) : t :=
  {| _account := _account fm; _requiredMetadataVersion := _requiredMetadataVersion fm; _topLevelFolderPath := _topLevelFolderPath fm; _metadataKeyForEncryption := _metadataKeyForEncryption fm; _metadataKeyForDecryption := _metadataKeyForDecryption fm; _metadataNonce := _metadataNonce fm; _keyChecksums := x; _folderUsers := _folderUsers fm; _files := _files fm; _versionFromMetadata := _versionFromMetadata fm; _fileDropCipherTextEncryptedAndBase64 := _fileDropCipherTextEncryptedAndBase64 fm; _fileDropMetadataAuthenticationTag := _fileDropMetadataAuthenticationTag fm; _fileDropMetadataNonce := _fileDropMetadataNonce fm; _fileDropKey := _fileDropKey fm; _fileDrop := _fileDrop fm; _fileDropFromServer := _fileDropFromServer fm; _migrationNeeded := _migrationNeeded fm; _isMetadataSetup := _isMetadataSetup fm |}.
Definition set_folderUsers (x : gmap QString FolderUser) (fm : t) : t :=
  {| _account := _account fm; _requiredMetadataVersion := _requiredMetadataVersion fm; _topLevelFolderPath := _topLevelFolderPath fm; _metadataKeyForEncryption := _metadataKeyForEncryption fm; _metadataKeyForDecryption := _metadataKeyForDecryption fm; _metadataNonce := _metadataNonce fm; _keyChecksums := _keyChecksums fm; _folderUsers := x; _files := _files fm; _versionFromMetadata := _versionFromMetadata fm; _fileDropCipherTextEncryptedAndBase64 := _fileDropCipherTextEncryptedAndBase64 fm; _fileDropMetadataAuthenticationTag := _fileDropMetadataAuthenticationTag fm; _fileDropMetadataNonce := _fileDropMetadataNonce fm; _fileDropKey := _fileDropKey fm; _fileDrop := _fileDrop fm; _fileDropFromServer := _fileDropFromServer fm; _migrationNeeded := _migrationNeeded fm; _isMetadataSetup := _isMetadataSetup fm |}.
Definition set_files (x : list EncryptedFile) (fm : t) : t :=
  {| _account := _account fm; _requiredMetadataVersion := _requiredMetadataVersion fm; _topLevelFolderPath := _topLevelFolderPath fm; _metadataKeyForEncryption := _metadataKeyForEncryption fm; _metadataKeyForDecryption := _metadataKeyForDecryption fm; _metadataNonce := _metadataNonce fm; _keyChecksums := _keyChecksums fm; _folderUsers := _folderUsers fm; _files := x; _versionFromMetadata := _versionFromMetadata fm; _fileDropCipherTextEncryptedAndBase64 := _fileDropCipherTextEncryptedAndBase64 fm; _fileDropMetadataAuthenticationTag := _fileDropMetadataAuthenticationTag fm; _fileDropMetadataNonce := _fileDropMetadataNonce fm; _fileDropKey := _fileDropKey fm; _fileDrop := _fileDrop fm; _fileDropFromServer := _fileDropFromServer fm; _migrationNeeded := _migrationNeeded fm; _isMetadataSetup := _isMetadataSetup fm |}.
Definition set_versionFromMetadata (x : Z) (fm : t) : t :=
  {| _account := _account fm; _requiredMetadataVersion := _requiredMetadataVersion fm; _topLevelFolderPath := _topLevelFolderPath fm; _metadataKeyForEncryption := _metadataKeyForEncryption fm; _metadataKeyForDecryption := _metadataKeyForDecryption fm; _metadataNonce := _metadataNonce fm; _keyChecksums := _keyChecksums fm; _folderUsers := _folderUsers fm; _files := _files fm; _versionFromMetadata := x; _fileDropCipherTextEncryptedAndBase64 := _fileDropCipherTextEncryptedAndBase64 fm; _fileDropMetadataAuthenticationTag := _fileDropMetadataAuthenticationTag fm; _fileDropMetadataNonce := _fileDropMetadataNonce fm; _fileDropKey := _fileDropKey fm; _fileDrop := _fileDrop fm; _fileDropFromServer := _fileDropFromServer fm; _migrationNeeded := _migrationNeeded fm; _isMetadataSetup := _isMetadataSetup fm |}.
Definition set_fileDropCipherTextEncryptedAndBase64 (x : QByteArray) (fm : t) : t :=
  {| _account := _account fm; _requiredMetadataVersion := _requiredMetadataVersion fm; _topLevelFolderPath := _topLevelFolderPath fm; _metadataKeyForEncryption := _metadataKeyForEncryption fm; _metadataKeyForDecryption := _metadataKeyForDecryption fm; _metadataNonce := _metadataNonce fm; _keyChecksums := _keyChecksums fm; _folderUsers := _folderUsers fm; _files := _files fm; _versionFromMetadata := _versionFromMetadata fm; _fileDropCipherTextEncryptedAndBase64 := x; _fileDropMetadataAuthenticationTag := _fileDropMetadataAuthenticationTag fm; _fileDropMetadataNonce := _fileDropMetadataNonce fm; _fileDropKey := _fileDropKey fm; _fileDrop := _fileDrop fm; _fileDropFromServer := _fileDropFromServer fm; _migrationNeeded := _migrationNeeded fm; _isMetadataSetup := _isMetadataSetup fm |}.
Definition set_fileDropMetadataAuthenticationTag (x : QByteArray) (fm : t) : t :=
  {| _account := _account fm; _requiredMetadataVersion := _requiredMetadataVersion fm; _topLevelFolderPath := _topLevelFolderPath fm; _metadataKeyForEncryption := _metadataKeyForEncryption fm; _metadataKeyForDecryption := _metadataKeyForDecryption fm; _metadataNonce := _metadataNonce fm; _keyChecksums := _keyChecksums fm; _folderUsers := _folderUsers fm; _files := _files fm; _versionFromMetadata := _versionFromMetadata fm; _fileDropCipherTextEncryptedAndBase64 := _fileDropCipherTextEncryptedAndBase64 fm; _fileDropMetadataAuthenticationTag := x; _fileDropMetadataNonce := _fileDropMetadataNonce fm; _fileDropKey := _fileDropKey fm; _fileDrop := _fileDrop fm; _fileDropFromServer := _fileDropFromServer fm; _migrationNeeded := _migrationNeeded fm; _isMetadataSetup := _isMetadataSetup fm |}.
Definition set_fileDropMetadataNonce (x : QByteArray) (fm : t) : t :=
  {| _account := _account fm; _requiredMetadataVersion := _requiredMetadataVersion fm; _topLevelFolderPath := _topLevelFolderPath fm; _metadataKeyForEncryption := _metadataKeyForEncryption fm; _metadataKeyForDecryption := _metadataKeyForDecryption fm; _metadataNonce := _metadataNonce fm; _keyChecksums := _keyChecksums fm; _folderUsers := _folderUsers fm; _files := _files fm; _versionFromMetadata := _versionFromMetadata fm; _fileDropCipherTextEncryptedAndBase64 := _fileDropCipherTextEncryptedAndBase64 fm; _fileDropMetadataAuthenticationTag := _fileDropMetadataAuthenticationTag fm; _fileDropMetadataNonce := x; _fileDropKey := _fileDropKey fm; _fileDrop := _fileDrop fm; _fileDropFromServer := _fileDropFromServer fm; _migrationNeeded := _migrationNeeded fm; _isMetadataSetup := _isMetadataSetup fm |}.
Definition set_fileDropKey (x : QByteArray) (fm : t) : t :=
  {| _account := _account fm; _requiredMetadataVersion := _requiredMetadataVersion fm; _topLevelFolderPath := _topLevelFolderPath fm; _metadataKeyForEncryption := _metadataKeyForEncryption fm; _metadataKeyForDecryption := _metadataKeyForDecryption fm; _metadataNonce := _metadataNonce fm; _keyChecksums := _keyChecksums fm; _folderUsers := _folderUsers fm; _files := _files fm; _versionFromMetadata := _versionFromMetadata fm; _fileDropCipherTextEncryptedAndBase64 := _fileDropCipherTextEncryptedAndBase64 fm; _fileDropMetadataAuthenticationTag := _fileDropMetadataAuthenticationTag fm; _fileDropMetadataNonce := _fileDropMetadataNonce fm; _fileDropKey := x; _fileDrop := _fileDrop fm; _fileDropFromServer := _fileDropFromServer fm; _migrationNeeded := _migrationNeeded fm; _isMetadataSetup := _isMetadataSetup fm |}.
Definition set_fileDrop (x : gmap string QJsonValue) (fm : t) : t :=
  {| _account := _account fm; _requiredMetadataVersion := _requiredMetadataVersion fm; _topLevelFolderPath := _topLevelFolderPath fm; _metadataKeyForEncryption := _metadataKeyForEncryption fm; _metadataKeyForDecryption := _metadataKeyForDecryption fm; _metadataNonce := _metadataNonce fm; _keyChecksums := _keyChecksums fm; _folderUsers := _folderUsers fm; _files := _files fm; _versionFromMetadata := _versionFromMetadata fm; _fileDropCipherTextEncryptedAndBase64 := _fileDropCipherTextEncryptedAndBase64 fm; _fileDropMetadataAuthenticationTag := _fileDropMetadataAuthenticationTag fm; _fileDropMetadataNonce := _fileDropMetadataNonce fm; _fileDropKey := _fileDropKey fm; _fileDrop := x; _fileDropFromServer := _fileDropFromServer fm; _migrationNeeded := _migrationNeeded fm; _isMetadataSetup := _isMetadataSetup fm |}.
Definition set_fileDropFromServer (x : gmap string QJsonValue) (fm : t) : t :=
  {| _account := _account fm; _requiredMetadataVersion := _requiredMetadataVersion fm; _topLevelFolderPath := _topLevelFolderPath fm; _metadataKeyForEncryption := _metadataKeyForEncryption fm; _metadataKeyForDecryption := _metadataKeyForDecryption fm; _metadataNonce := _metadataNonce fm; _keyChecksums := _keyChecksums fm; _folderUsers := _folderUsers fm; _files := _files fm; _versionFromMetadata := _versionFromMetadata fm; _fileDropCipherTextEncryptedAndBase64 := _fileDropCipherTextEncryptedAndBase64 fm; _fileDropMetadataAuthenticationTag := _fileDropMetadataAuthenticationTag fm; _fileDropMetadataNonce := _fileDropMetadataNonce fm; _fileDropKey := _fileDropKey fm; _fileDrop := _fileDrop fm; _fileDropFromServer := x; _migrationNeeded := _migrationNeeded fm; _isMetadataSetup := _isMetadataSetup fm |}.
Definition set_migrationNeeded (x : bool) (fm : t) : t :=
  {| _account := _account fm; _requiredMetadataVersion := _requiredMetadataVersion fm; _topLevelFolderPath := _topLevelFolderPath fm; _metadataKeyForEncryption := _metadataKeyForEncryption fm; _metadataKeyForDecryption := _metadataKeyForDecryption fm; _metadataNonce := _metadataNonce fm; _keyChecksums := _keyChecksums fm; _folderUsers := _folderUsers fm; _files := _files fm; _versionFromMetadata := _versionFromMetadata fm; _fileDropCipherTextEncryptedAndBase64 := _fileDropCipherTextEncryptedAndBase64 fm; _fileDropMetadataAuthenticationTag := _fileDropMetadataAuthenticationTag fm; _fileDropMetadataNonce := _fileDropMetadataNonce fm; _fileDropKey := _fileDropKey fm; _fileDrop := _fileDrop fm; _fileDropFromServer := _fileDropFromServer fm; _migrationNeeded := x; _isMetadataSetup := _isMetadataSetup fm |}.
Definition set_isMetadataSetup (x : bool) (fm : t) : t :=
  {| _account := _account fm; _requiredMetadataVersion := _requiredMetadataVersion fm; _topLevelFolderPath := _topLevelFolderPath fm; _metadataKeyForEncryption := _metadataKeyForEncryption fm; _metadataKeyForDecryption := _metadataKeyForDecryption fm; _metadataNonce := _metadataNonce fm; _keyChecksums := _keyChecksums fm; _folderUsers := _folderUsers fm; _files := _files fm; _versionFromMetadata := _versionFromMetadata fm; _fileDropCipherTextEncryptedAndBase64 := _fileDropCipherTextEncryptedAndBase64 fm; _fileDropMetadataAuthenticationTag := _fileDropMetadataAuthenticationTag fm; _fileDropMetadataNonce := _fileDropMetadataNonce fm; _fileDropKey := _fileDropKey fm; _fileDrop := _fileDrop fm; _fileDropFromServer := _fileDropFromServer fm; _migrationNeeded := _migrationNeeded fm; _isMetadataSetup := x |}.

Section WithPlatform.
Context {platform : Platform}.

Definition authenticationTagKey := "authenticationTag".
Definition cipherTextKey := "ciphertext".
Definition filesKey := "files".
Definition filedropKey := "filedrop".
Definition foldersKey := "folders".
Definition initializationVectorKey := "initializationVector".
Definition keyChecksumsKey := "keyChecksums".
Definition metadataJsonKey := "metadata".
Definition metadataKeyKey := "metadataKey".
Definition metadataKeysKey := "metadataKeys".
Definition nonceKey := "nonce".
Definition usersKey := "users".
Definition usersUserIdKey := "userId".
Definition usersCertificateKey := "certificate".
Definition usersEncryptedMetadataKey := "encryptedMetadataKey".
Definition usersEncryptedFiledropKey := "encryptedFiledropKey".
Definition versionKey := "version".

Definition metadataKeySize : nat := 16.

Definition metadataStringFromOCsDocument (ocsDoc : QJsonValue) : QString :=
  Json.toString (Json.at_ "meta-data" (Json.at_ "data" (Json.at_ "ocs" ocsDoc))).

Definition isTopLevelFolder (fm : t) : bool :=
  bool_decide (_topLevelFolderPath fm = "/").

Definition metadataKeyForEncryption (fm : t) : QByteArray := _metadataKeyForEncryption fm.
Definition metadataKeyForDecryption (fm : t) : QByteArray := _metadataKeyForDecryption fm.
Definition keyChecksums (fm : t) : gset QByteArray := _keyChecksums fm.
Definition files (fm : t) : list EncryptedFile := _files fm.

(** [_versionFromMetadata] is an [int]; it is below [1.2f] exactly when ten
    times it is below twelve. *)
Definition metadataVersion (fm : t) : RequiredMetadataVersion :=
  if bool_decide (10 * _versionFromMetadata fm < 12) then Version1
  else if bool_decide (_versionFromMetadata fm < 2) then Version1_2
  else Version2_0.

(** The [float] constants [1.0f], [1.2f] and [2.0f] as JSON numbers. *)
Definition requiredMetadataVersionNumeric (fm : t) : QJsonValue :=
  match _requiredMetadataVersion fm with
  | Version1 => JDouble 1 1
  | Version1_2 => JDouble 10066330 8388608
  | Version2_0 => JDouble 2 1
  end.

Definition isVersion2AndUp (fm : t) : bool :=
  bool_decide (versionRank Version2_0 <= versionRank (metadataVersion fm)).

Definition isFileDropPresent (fm : t) : bool :=
  negb (isEmpty (_fileDropCipherTextEncryptedAndBase64 fm)).

Definition encryptedMetadataNeedUpdate (fm : t) : bool := _migrationNeeded fm.

(** [encryptData(data, key)]: RSA-OAEP under a public key. *)
Definition encryptData (data key : QByteArray) : QByteArray :=
  encryptStringAsymmetric key data.

(** [decryptData(data)]: under the account's private key. *)
Definition decryptData (fm : t) (data : QByteArray) : QByteArray :=
  let decryptResult := decryptStringAsymmetric (e2e_privateKey (_account fm)) data in
  if isEmpty decryptResult then "" else decryptResult.

Definition decryptJsonObject (encryptedMetadata pass : QByteArray) : QByteArray :=
  decryptStringSymmetric pass encryptedMetadata.

Definition gZipEncryptAndBase64Encode (key inputData iv : QByteArray)
  : QByteArray * QByteArray :=
  match gZip inputData with
  | None => ("", "")
  | Some gZippedAndNotEncrypted =>
      let '(outputData, returnTag) := dataEncryption key iv gZippedAndNotEncrypted in
      (toBase64 outputData, returnTag)
  end.

Definition base64DecodeDecryptAndGzipUnZip (key inputData iv : QByteArray) : QByteArray :=
  match dataDecryption key iv (fromBase64 inputData) with
  | None => ""
  | Some decryptedAndGzipped => default "" (gUnZip decryptedAndGzipped)
  end.

Definition fixDirectoryMimetype (m : QByteArray) : QByteArray :=
  if bool_decide (m = "inode/directory") then "httpd/unix-directory" else m.

Definition parseEncryptedFileFromJson (encryptedFilename : QString) (fileJSON : QJsonValue)
  : EncryptedFile :=
  let fileObj := Json.toObject fileJSON in
  if isEmpty (Json.toString (Json.value "filename" fileObj)) then noFile
  else
    {| encryptedFilename := encryptedFilename;
       authenticationTag := fromBase64 (Json.toString (Json.value authenticationTagKey fileObj));
       initializationVector := fromBase64 (Json.toString (Json.value initializationVectorKey fileObj));
       originalFilename := Json.toString (Json.value "filename" fileObj);
       encryptionKey := fromBase64 (Json.toString (Json.value "key" fileObj));
       mimetype := fixDirectoryMimetype (Json.toString (Json.value "mimetype" fileObj)) |}.

Definition convertFileToJsonObject (encryptedFile : EncryptedFile) (metadataKey : QByteArray)
  : gmap string QJsonValue :=
  <[authenticationTagKey := JString (toBase64 (authenticationTag encryptedFile))]>
  (<[initializationVectorKey := JString (toBase64 (initializationVector encryptedFile))]>
  (<["mimetype" := JString (mimetype encryptedFile)]>
  (<["filename" := JString (originalFilename encryptedFile)]>
  (<["key" := JString (toBase64 (encryptionKey encryptedFile))]> ∅)))).

(** The two loops that read the [files] and the [folders] object of a
    decrypted document.  A [QJsonObject] is walked in key order and a [gmap]
    in the order of [map_to_list]; the files end in [_files] in that order. *)
Definition pushParsedFile (acc : list EncryptedFile) (kv : string * QJsonValue)
  : list EncryptedFile :=
  let parsedEncryptedFile := parseEncryptedFileFromJson kv.1 kv.2 in
  if negb (isEmpty (originalFilename parsedEncryptedFile))
  then acc ++ [parsedEncryptedFile] else acc.

Definition pushParsedFolder (acc : list EncryptedFile) (kv : string * QJsonValue)
  : list EncryptedFile :=
  let folderName := Json.toString kv.2 in
  if negb (isEmpty folderName)
  then acc ++ [ {| encryptedFilename := kv.1; originalFilename := folderName;
                   encryptionKey := ""; mimetype := "";
                   initializationVector := ""; authenticationTag := "" |} ]
  else acc.

(** [verifyMetadataKey] *)
Definition verifyMetadataKey (fm : t) (metadataKey : QByteArray) : bool :=
  if bool_decide (_versionFromMetadata fm < 2) then true
  else if isEmpty metadataKey || bool_decide (size metadataKey < metadataKeySize)%nat then false
  else
    let metadataKeyLimitedLength := left metadataKeySize metadataKey in
    bool_decide (calcSha256 metadataKeyLimitedLength ∈ _keyChecksums fm)
    || bool_decide (_keyChecksums fm = ∅).

(** [createNewMetadataKeyForEncryption]; [random] is what
    [generateRandom(metadataKeySize)] returns. *)
Definition createNewMetadataKeyForEncryption (random : QByteArray) (fm : t) : t :=
  if negb (isTopLevelFolder fm) then fm
  else
    let fm :=
      if negb (isEmpty (_metadataKeyForEncryption fm))
      then set_keyChecksums (_keyChecksums fm ∖ {[calcSha256 (_metadataKeyForEncryption fm)]}) fm
      else fm in
    let fm := set_metadataKeyForEncryption random fm in
    if negb (isEmpty (_metadataKeyForEncryption fm))
    then set_keyChecksums ({[calcSha256 (_metadataKeyForEncryption fm)]} ∪ _keyChecksums fm) fm
    else fm.

(** The body of the loop of [updateUsersEncryptedMetadataKey] for one user. *)
Definition rewrapFolderUser (metadataKey : QByteArray) (folderUser : FolderUser) : FolderUser :=
  let certificatePublicKey := certificatePublicKey (certificatePem folderUser) in
  if certificateIsNull (certificatePem folderUser) || isEmpty certificatePublicKey
  then folderUser
  else
    let encryptedMetadataKey := encryptData metadataKey certificatePublicKey in
    if isEmpty encryptedMetadataKey then folderUser
    else set_encryptedMetadataKey encryptedMetadataKey folderUser.

Definition updateUsersEncryptedMetadataKey (fm : t) : t :=
  if negb (isTopLevelFolder fm) then fm
  else if isEmpty (_metadataKeyForEncryption fm) then fm
  else set_folderUsers (rewrapFolderUser (_metadataKeyForEncryption fm) <$> _folderUsers fm) fm.

Definition addUser (random : QByteArray) (userId : QString) (certificate : QByteArray) (fm : t)
  : bool * t :=
  if negb (isTopLevelFolder fm) then (false, fm)
  else
    let certificatePublicKey := certificatePublicKey certificate in
    if isEmpty userId || certificateIsNull certificate || isEmpty certificatePublicKey
    then (false, fm)
    else
      let fm := createNewMetadataKeyForEncryption random fm in
      let newFolderUser :=
        {| userId := userId; certificatePem := certificate;
           encryptedMetadataKey := encryptData (_metadataKeyForEncryption fm) certificatePublicKey;
           encryptedFiledropKey := "" |} in
      let fm := set_folderUsers (<[userId := newFolderUser]> (_folderUsers fm)) fm in
      (true, updateUsersEncryptedMetadataKey fm).

Definition removeUser (random : QByteArray) (userId : QString) (fm : t) : bool * t :=
  if negb (isTopLevelFolder fm) then (false, fm)
  else if isEmpty userId then (false, fm)
  else
    let fm := createNewMetadataKeyForEncryption random fm in
    let fm := set_folderUsers (delete userId (_folderUsers fm)) fm in
    (true, updateUsersEncryptedMetadataKey fm).

(** [moveFromFileDropToFiles]; its second loop builds a file and drops it. *)
Definition moveFromFileDropToFiles (fm : t) : bool * t :=
  if isEmpty (_fileDropCipherTextEncryptedAndBase64 fm)
     || isEmpty (_metadataKeyForEncryption fm)
     || isEmpty (_metadataNonce fm)
  then (false, fm)
  else
    let cipherTextDecrypted :=
      base64DecodeDecryptAndGzipUnZip (_metadataKeyForEncryption fm)
        (_fileDropCipherTextEncryptedAndBase64 fm) (_metadataNonce fm) in
    let cipherTextDocument := fromJson cipherTextDecrypted in
    let files := Json.toObject (Json.value filesKey (Json.toObject cipherTextDocument)) in
    let fm := set_files (foldl pushParsedFile (_files fm) (map_to_list files)) fm in
    (true, set_fileDropCipherTextEncryptedAndBase64 "" fm).

(** [QJsonValue::toVariant().toString()] *)
Definition variantToString (v : QJsonValue) : QString :=
  match v with
  | JString s => s
  | JBool true => "true"
  | JBool false => "false"
  | JDouble num den => numberToString num den
  | _ => ""
  end.

Definition setupVersionFromExistingMetadata (metadata : QByteArray) (fm : t) : t :=
  let doc := fromJson metadata in
  let metaDataStr := metadataStringFromOCsDocument doc in
  let metaDataDoc := fromJson metaDataStr in
  let metadataObj := Json.toObject (Json.value metadataJsonKey (Json.toObject metaDataDoc)) in
  let fm :=
    if Json.contains versionKey metadataObj
    then set_versionFromMetadata (Json.toInt (Json.value versionKey metadataObj)) fm
    else fm in
  if Json.contains versionKey (Json.toObject metaDataDoc)
  then set_versionFromMetadata (Json.toInt (Json.value versionKey (Json.toObject metaDataDoc))) fm
  else fm.

(** [std::sort] of the files by encrypted name: only the names are read
    afterwards, so the names are sorted. *)
Fixpoint insertSorted (x : string) (l : list string) : list string :=
  match l with
  | [] => [x]
  | y :: l' => if String.leb x y then x :: l else y :: insertSorted x l'
  end.

Definition sortedNames (l : list string) : list string := foldr insertSorted [] l.

(** [QString::remove(' ')] *)
Fixpoint removeSpaces (s : string) : string :=
  match s with
  | EmptyString => EmptyString
  | String c s' => if bool_decide (c = " "%char) then removeSpaces s' else String c (removeSpaces s')
  end.

Definition computeMetadataKeyChecksum (fm : t) (metadataKey : QByteArray) : QByteArray :=
  sha256Hex (removeSpaces (e2e_mnemonic (_account fm))
             +:+ String.concat "" (sortedNames (encryptedFilename <$> _files fm))
             +:+ metadataKey).

Definition checkMetadataKeyChecksum (fm : t) (metadataKey metadataKeyChecksum : QByteArray) : bool :=
  bool_decide (computeMetadataKeyChecksum fm metadataKey = metadataKeyChecksum).

(** One round of the loop over the [files] of a legacy document. *)
Definition pushLegacyFile (metadataKeyForDecryption : QByteArray)
  (acc : list EncryptedFile) (kv : string * QJsonValue) : list EncryptedFile :=
  let fileObj := Json.toObject kv.2 in
  let encryptedFile := Json.toString (Json.value "encrypted" fileObj) in
  let decryptedFile := decryptJsonObject encryptedFile metadataKeyForDecryption in
  let decryptedFileObj := Json.toObject (fromJson decryptedFile) in
  if isEmpty (Json.toString (Json.value "filename" decryptedFileObj)) then acc
  else
    acc ++ [ {| encryptedFilename := kv.1;
                authenticationTag := fromBase64 (Json.toString (Json.value "authenticationTag" fileObj));
                initializationVector := fromBase64 (Json.toString (Json.value "initializationVector" fileObj));
                originalFilename := Json.toString (Json.value "filename" decryptedFileObj);
                encryptionKey := fromBase64 (Json.toString (Json.value "key" decryptedFileObj));
                mimetype := fixDirectoryMimetype (Json.toString (Json.value "mimetype" decryptedFileObj)) |} ].

Definition setupExistingLegacyMetadataForMigration (metadata : QByteArray) (fm : t) : t :=
  let doc := fromJson metadata in
  let metaDataStr := Json.toString (Json.at_ "meta-data" (Json.at_ "data" (Json.at_ "ocs" doc))) in
  let metaDataDoc := fromJson metaDataStr in
  let metadataObj := Json.toObject (Json.value "metadata" (Json.toObject metaDataDoc)) in
  let fm := set_metadataKeyForDecryption "" fm in
  let metadataKeyFromJson := Json.toString (Json.value metadataKeyKey metadataObj) in
  let fm :=
    if negb (isEmpty metadataKeyFromJson) then
      let decryptedMetadataKeyBase64 := decryptData fm (fromBase64 metadataKeyFromJson) in
      if negb (isEmpty decryptedMetadataKeyBase64)
      then set_metadataKeyForDecryption (fromBase64 (fromBase64 decryptedMetadataKeyBase64)) fm
      else fm
    else fm in
  let tryVersion1 :=
    isEmpty (metadataKeyForDecryption fm)
    && bool_decide (versionRank (metadataVersion fm) < versionRank (_requiredMetadataVersion fm)) in
  let metadataKeys := Json.toObject (Json.value "metadataKeys" metadataObj) in
  if tryVersion1 && bool_decide (metadataKeys = ∅) then fm
  else
    let fm :=
      if tryVersion1 then
        let lastMetadataKeyFromJson := default "" (Json.lastKey metadataKeys) in
        if negb (isEmpty lastMetadataKeyFromJson) then
          let lastMetadataKeyValueFromJson :=
            Json.toString (Json.value lastMetadataKeyFromJson metadataKeys) in
          if negb (isEmpty lastMetadataKeyValueFromJson) then
            let lastMetadataKeyValueFromJsonBase64 :=
              decryptData fm (fromBase64 lastMetadataKeyValueFromJson) in
            if negb (isEmpty lastMetadataKeyValueFromJsonBase64)
            then set_metadataKeyForDecryption
                   (fromBase64 (fromBase64 lastMetadataKeyValueFromJsonBase64)) fm
            else fm
          else fm
        else fm
      else fm in
    if isEmpty (metadataKeyForDecryption fm) then fm
    else
      let fm :=
        if isEmpty (metadataKeyForEncryption fm)
        then set_metadataKeyForEncryption (metadataKeyForDecryption fm) fm else fm in
      let files := Json.toObject (Json.value "files" (Json.toObject metaDataDoc)) in
      let metadataKey :=
        Json.toString (Json.value "metadataKey"
          (Json.toObject (Json.value "metadata" (Json.toObject metaDataDoc)))) in
      let metadataKeyChecksum :=
        Json.toString (Json.value "checksum"
          (Json.toObject (Json.value "metadata" (Json.toObject metaDataDoc)))) in
      let fm := set_fileDrop (Json.toObject (Json.value "filedrop" (Json.toObject metaDataDoc))) fm in
      let fm := set_fileDropFromServer
                  (Json.toObject (Json.value "filedrop" (Json.toObject metaDataDoc))) fm in
      let fm := set_files (foldl (pushLegacyFile (metadataKeyForDecryption fm)) (_files fm)
                             (map_to_list files)) fm in
      if negb (checkMetadataKeyChecksum fm metadataKey metadataKeyChecksum)
         && bool_decide (versionRank Version1_2 <= versionRank (metadataVersion fm))
         && negb (shouldSkipE2eeMetadataChecksumValidation (_account fm))
      then fm
      else set_isMetadataSetup true (set_migrationNeeded true fm).

(** One round of the loop over the [users] array. *)
Definition insertFolderUser (users : gmap QString FolderUser) (entry : QJsonValue)
  : gmap QString FolderUser :=
  let folderUserObject := Json.toObject entry in
  let userId := Json.toString (Json.value usersUserIdKey folderUserObject) in
  <[userId :=
      {| userId := userId;
         certificatePem := Json.toString (Json.value usersCertificateKey folderUserObject);
         encryptedMetadataKey :=
           fromBase64 (Json.toString (Json.value usersEncryptedMetadataKey folderUserObject));
         encryptedFiledropKey :=
           fromBase64 (Json.toString (Json.value usersEncryptedFiledropKey folderUserObject)) |}]>
    users.

(** One round of the loop over the [keyChecksums] array. *)
Definition insertKeyChecksum (checksums : gset QByteArray) (entry : QJsonValue)
  : gset QByteArray :=
  let keyChecksum := variantToString entry in
  if negb (isEmpty keyChecksum) then {[keyChecksum]} ∪ checksums else checksums.

Definition setupExistingMetadata (metadata : QByteArray) (fm : t) : t :=
  let doc := fromJson metadata in
  let fm := setupVersionFromExistingMetadata metadata fm in
  if bool_decide (versionRank (metadataVersion fm) < versionRank Version1) then fm
  else if bool_decide (versionRank (metadataVersion fm) < versionRank Version2_0)
  then setupExistingLegacyMetadataForMigration metadata fm
  else
    let metaDataStr := metadataStringFromOCsDocument doc in
    let metaDataDoc := fromJson metaDataStr in
    let fileDropObject := Json.toObject (Json.value filedropKey (Json.toObject metaDataDoc)) in
    let fm := set_fileDropCipherTextEncryptedAndBase64
                (Json.toString (Json.value cipherTextKey fileDropObject)) fm in
    let fm := set_fileDropMetadataAuthenticationTag
                (fromBase64 (Json.toString (Json.value authenticationTagKey fileDropObject))) fm in
    let fm := set_fileDropMetadataNonce
                (fromBase64 (Json.toString (Json.value nonceKey fileDropObject))) fm in
    let folderUsers := Json.toArray (Json.at_ usersKey metaDataDoc) in
    let isUsersArrayValid :=
      (negb (isTopLevelFolder fm) && bool_decide (folderUsers = []))
      || (isTopLevelFolder fm && negb (bool_decide (folderUsers = []))) in
    if negb isUsersArrayValid then fm
    else
      let fm := set_folderUsers (foldl insertFolderUser (_folderUsers fm) folderUsers) fm in
      let fm :=
        match _folderUsers fm !! davUser (_account fm) with
        | Some currentFolderUser =>
            let fm := set_metadataKeyForEncryption
                        (decryptData fm (encryptedMetadataKey currentFolderUser)) fm in
            let fm := set_metadataKeyForDecryption (_metadataKeyForEncryption fm) fm in
            set_fileDropKey (decryptData fm (encryptedFiledropKey currentFolderUser)) fm
        | None => fm
        end in
      if isEmpty (metadataKeyForDecryption fm) || isEmpty (metadataKeyForEncryption fm) then fm
      else
        let metadataObj := Json.toObject (Json.value metadataJsonKey (Json.toObject metaDataDoc)) in
        let fm := set_metadataNonce (fromBase64 (Json.toString (Json.value nonceKey metadataObj))) fm in
        let cipherTextEncrypted := Json.toString (Json.value cipherTextKey metadataObj) in
        let cipherTextDecrypted :=
          base64DecodeDecryptAndGzipUnZip (metadataKeyForDecryption fm) cipherTextEncrypted
            (_metadataNonce fm) in
        if isEmpty cipherTextDecrypted then fm
        else
          let cipherTextDocument := fromJson cipherTextDecrypted in
          let keyCheckSums := Json.toArray (Json.at_ keyChecksumsKey cipherTextDocument) in
          let fm := if negb (bool_decide (keyCheckSums = []))
                    then set_keyChecksums ∅ fm else fm in
          let fm := set_keyChecksums (foldl insertKeyChecksum (_keyChecksums fm) keyCheckSums) fm in
          if negb (verifyMetadataKey fm (metadataKeyForDecryption fm)) then fm
          else
            let files := Json.toObject (Json.value filesKey (Json.toObject cipherTextDocument)) in
            let folders := Json.toObject (Json.value foldersKey (Json.toObject cipherTextDocument)) in
            let fm := set_files (foldl pushParsedFile (_files fm) (map_to_list files)) fm in
            set_files (foldl pushParsedFolder (_files fm) (map_to_list folders)) fm.

Definition isDirectoryMimetype (m : QByteArray) : bool :=
  isEmpty m || bool_decide (m = "inode/directory") || bool_decide (m = "httpd/unix-directory").

(** One round of the loop of [encryptedMetadata] over [_files]; [None] is
    the early return. *)
Definition serializeFile (metadataKey : QByteArray)
  (acc : option (gmap string QJsonValue * gmap string QJsonValue)) (it : EncryptedFile)
  : option (gmap string QJsonValue * gmap string QJsonValue) :=
  match acc with
  | None => None
  | Some (files, folders) =>
      let file := convertFileToJsonObject it metadataKey in
      if bool_decide (file = ∅) then None
      else if isDirectoryMimetype (mimetype it)
      then Some (files, <[encryptedFilename it := JString (originalFilename it)]> folders)
      else Some (<[encryptedFilename it := JObject file]> files, folders)
  end.

Definition folderUserToJson (folderUser : FolderUser) : QJsonValue :=
  JObject (<[usersUserIdKey := JString (userId folderUser)]>
          (<[usersCertificateKey := JString (certificatePem folderUser)]>
          (<[usersEncryptedMetadataKey := JString (toBase64 (encryptedMetadataKey folderUser))]>
          (<[usersEncryptedFiledropKey := JString (toBase64 (encryptedFiledropKey folderUser))]> ∅)))).

(** [encryptedMetadata]; [randomKey] is the draw of
    [createNewMetadataKeyForEncryption] when it is called and [randomIv] the
    initialization vector.  The empty array is the failure. *)
Definition encryptedMetadata (randomKey randomIv : QByteArray) (fm : t) : QByteArray * t :=
  let fm :=
    if isTopLevelFolder fm && bool_decide (_folderUsers fm = ∅)
       && bool_decide (versionRank (metadataVersion fm) < versionRank Version2_0)
    then createNewMetadataKeyForEncryption randomKey fm else fm in
  if isEmpty (metadataKeyForEncryption fm) then ("", fm)
  else
    match foldl (serializeFile (_metadataKeyForEncryption fm)) (Some (∅, ∅)) (_files fm) with
    | None => ("", fm)
    | Some (files, folders) =>
        let keyChecksums : list QJsonValue :=
          if isTopLevelFolder fm then JString <$> elements (_keyChecksums fm) else [] in
        let cipherText : gmap string QJsonValue :=
          <[filesKey := JObject files]> (<[foldersKey := JObject folders]> ∅) in
        let isChecksumsArrayValid :=
          (negb (isTopLevelFolder fm) && bool_decide (keyChecksums = []))
          || (isTopLevelFolder fm && negb (bool_decide (keyChecksums = []))) in
        if negb isChecksumsArrayValid then ("", fm)
        else
          let cipherText :=
            if negb (bool_decide (keyChecksums = []))
            then <[keyChecksumsKey := JArray keyChecksums]> cipherText else cipherText in
          let initializationVector := randomIv in
          let '(encCipherText, authenticationTag) :=
            gZipEncryptAndBase64Encode (metadataKeyForEncryption fm)
              (toJson (JObject cipherText)) initializationVector in
          let metadata : gmap string QJsonValue :=
            <[cipherTextKey := JString encCipherText]>
            (<[nonceKey := JString (toBase64 initializationVector)]>
            (<[authenticationTagKey := JString (toBase64 authenticationTag)]> ∅)) in
          let metaObject : gmap string QJsonValue :=
            <[metadataJsonKey := JObject metadata]>
            (<[versionKey := requiredMetadataVersionNumeric fm]> ∅) in
          let folderUsers : list QJsonValue :=
            if isTopLevelFolder fm
            then (fun kv => folderUserToJson kv.2) <$> map_to_list (_folderUsers fm) else [] in
          let isFolderUsersArrayValid :=
            (negb (isTopLevelFolder fm) && bool_decide (folderUsers = []))
            || (isTopLevelFolder fm && negb (bool_decide (folderUsers = []))) in
          if negb isFolderUsersArrayValid then ("", fm)
          else
            let metaObject :=
              if negb (bool_decide (folderUsers = []))
              then <[usersKey := JArray folderUsers]> metaObject else metaObject in
            let metaObject :=
              if negb (isEmpty (_fileDropCipherTextEncryptedAndBase64 fm)) then
                <[filedropKey :=
                    JObject (<[cipherTextKey := JString (_fileDropCipherTextEncryptedAndBase64 fm)]>
                            (<[nonceKey := JString (toBase64 (_fileDropMetadataNonce fm))]>
                            (<[authenticationTagKey :=
                                 JString (toBase64 (_fileDropMetadataAuthenticationTag fm))]> ∅)))]>
                  metaObject
              else metaObject in
            (toJson (JObject metaObject), fm)
    end.

(** ** Construction *)

Record TopLevelFolderInitializationData := {
  topLevelFolderPath : QString;
  init_metadataKeyForEncryption : QByteArray;
  init_metadataKeyForDecryption : QByteArray;
  init_keyChecksums : gset QByteArray;
}.

Definition makeDefault : TopLevelFolderInitializationData :=
  {| topLevelFolderPath := "/"; init_metadataKeyForEncryption := "";
     init_metadataKeyForDecryption := ""; init_keyChecksums := ∅ |}.

Definition keysSet (d : TopLevelFolderInitializationData) : bool :=
  negb (isEmpty (init_metadataKeyForEncryption d))
  && negb (isEmpty (init_metadataKeyForDecryption d))
  && negb (bool_decide (init_keyChecksums d = ∅)).

(** The member initialisers of the constructor that takes the raw document.
    The in-class initialiser of [_versionFromMetadata] is written in the
    header and is the argument [initialVersion]. *)
Definition create (initialVersion : Z) (account : Account)
  (requiredMetadataVersion : RequiredMetadataVersion)
  (d : TopLevelFolderInitializationData) : t :=
  {| _account := account;
     _requiredMetadataVersion := requiredMetadataVersion;
     _topLevelFolderPath := topLevelFolderPath d;
     _metadataKeyForEncryption := init_metadataKeyForEncryption d;
     _metadataKeyForDecryption := init_metadataKeyForDecryption d;
     _metadataNonce := "";
     _keyChecksums := init_keyChecksums d;
     _folderUsers := ∅;
     _files := [];
     _versionFromMetadata := initialVersion;
     _fileDropCipherTextEncryptedAndBase64 := "";
     _fileDropMetadataAuthenticationTag := "";
     _fileDropMetadataNonce := "";
     _fileDropKey := "";
     _fileDrop := ∅;
     _fileDropFromServer := ∅;
     _migrationNeeded := false;
     _isMetadataSetup := false |}.

Definition setupEmptyMetadata (random : QByteArray) (fm : t) : t :=
  if isTopLevelFolder fm then
    let fm := (addUser random (davUser (_account fm)) (e2e_certificate (_account fm)) fm).2 in
    set_metadataKeyForDecryption (_metadataKeyForEncryption fm) fm
  else fm.

(** [setupMetadata] on the initial document [_initialMetadata]. *)
Definition setupMetadata (random initialMetadata : QByteArray) (fm : t) : t :=
  if isEmpty initialMetadata then setupEmptyMetadata random fm
  else setupExistingMetadata initialMetadata fm.

(** ** The list of files *)

(** The loop of [addEncryptedFile] and [removeEncryptedFile]: the first file
    of the name is removed, and the loop ends. *)
Fixpoint removeFirstNamed (name : QString) (l : list EncryptedFile) : list EncryptedFile :=
  match l with
  | [] => []
  | e :: l' =>
      if bool_decide (originalFilename e = name) then l' else e :: removeFirstNamed name l'
  end.

Definition addEncryptedFile (f : EncryptedFile) (fm : t) : t :=
  set_files (removeFirstNamed (originalFilename f) (_files fm) ++ [f]) fm.

Definition removeEncryptedFile (f : EncryptedFile) (fm : t) : t :=
  set_files (removeFirstNamed (originalFilename f) (_files fm)) fm.

Definition removeAllEncryptedFiles (fm : t) : t := set_files [] fm.

Definition fileDrop (fm : t) : QByteArray := _fileDropCipherTextEncryptedAndBase64 fm.

Definition encryptJsonObject (obj pass : QByteArray) : QByteArray :=
  encryptStringSymmetric pass obj.

(** Modelled from the spec: the server's reply to a metadata request, which
    is not produced by the embedded sources.  The document is JSON wrapped in
    an outer OCS envelope whose [ocs.data.meta-data] string field contains
    the nested JSON document. *)
Definition ocsReply (metaData : QByteArray) : QByteArray :=
  toJson (JObject {[ "ocs" :=
            JObject {[ "data" := JObject {[ "meta-data" := JString metaData ]} ]} ]}).

End WithPlatform.

End FolderMetadata.

(** ** UpdateE2eeFolderUsersMetadataJob (updatee2eefolderusersmetadatajob.cpp)

    The job is an object driven by Qt signals.  A slot is a function on the
    state of the job; the calls it makes to its collaborators and the signals
    it emits are appended to [_log].  A signal that reaches the job is an
    [Event], and [deliver] runs the slot connected to it. *)

Module UpdateE2eeFolderUsersMetadataJob.

Inductive Operation := Invalid | Add | Remove | ReEncrypt.

#[export] Instance Operation_eq_dec : EqDecision Operation.
Proof. solve_decision. Defined.

(** What leaves the job. *)
Inductive Action :=
| FetchCertificateFromKeyChain (userId : QString)
| GetUsersPublicKeyFromServer (userId : QString)
| WriteCertificate (userId : QString) (certificate : QByteArray)
| FetchMetadata
| UploadMetadata (keepLock : bool)
| UnlockFolder (success : bool)
| StartSubJob (job : nat)
| SetItemEncryptionStatus (path : QString)
| EmitFinished (code : Z) (message : QString).

(** What reaches the job; [sender] is the address of the sub-job that
    emitted [finished], if the slot was invoked by a signal. *)
Inductive Event :=
| Start
| CertificateFetchedFromKeychain (certificate : QByteArray)
| CertificatesFetchedFromServer (results : gmap QString QByteArray)
| CertificateWriteComplete
| FetchFinished (random : QByteArray) (statusCode : Z) (message : QString)
| UploadFinished (code : Z) (message : QString)
| FolderUnlocked (folderId : QByteArray) (httpStatus : Z)
| SubJobFinished (sender : option nat) (code : Z) (message : QString).

(** A ReEncrypt job created by [scheduleSubJobs]. *)
Record SubJob := {
  sub_path : QString;
  sub_metadataKeyForEncryption : QByteArray;
  sub_metadataKeyForDecryption : QByteArray;
  sub_keyChecksums : gset QByteArray;
  sub_folderToken : QByteArray;
}.

(** The EncryptedFolderMetadataHandler as the job sees it.  [isValid] and
    [keyChecksumsRemoved] are members of FolderMetadata that the embedded
    foldermetadata.cpp does not define. *)
Record Handler := {
  folderMetadata : option FolderMetadata.t;
  isValid : bool;
  keyChecksumsRemoved : gset QByteArray;
  folderToken : QByteArray;
}.

(** The journal as the job reads it: whether a valid root encrypted folder
    record exists for [_path], and the records below the path, each with
    [isDirectory()] and [_e2eMangledName]. *)
Record Journal := {
  rootE2eFolderRecordValid : bool;
  filesBelowPath : list (bool * QByteArray);
}.

Record t := {
  _journalDb : Journal;
  _operation : Operation;
  _path : QString;
  _folderUserId : QString;
  _folderUserCertificate : QByteArray;
  _folderToken : QByteArray;
  _fetchAndUploadE2eeFolderMetadataJob : Handler;
  (** the addresses of the sub-jobs, and the objects at these addresses *)
  _subJobs : gset nat;
  subJobObjects : gmap nat SubJob;
  _subJobSyncItems : gset QString;
  (** the [certificateReady] connection made by [start] *)
  certificateReadyConnected : bool;
  _log : list Action;
}.

Definition act (a : Action) (j : t) : t :=
  {| _journalDb := _journalDb j; _operation := _operation j; _path := _path j;
     _folderUserId := _folderUserId j; _folderUserCertificate := _folderUserCertificate j;
     _folderToken := _folderToken j;
     _fetchAndUploadE2eeFolderMetadataJob := _fetchAndUploadE2eeFolderMetadataJob j;
     _subJobs := _subJobs j; subJobObjects := subJobObjects j;
     _subJobSyncItems := _subJobSyncItems j;
     certificateReadyConnected := certificateReadyConnected j;
     _log := _log j ++ [a] |}.

Definition set_folderUserCertificate (c : QByteArray) (j : t) : t :=
  {| _journalDb := _journalDb j; _operation := _operation j; _path := _path j;
     _folderUserId := _folderUserId j; _folderUserCertificate := c;
     _folderToken := _folderToken j;
     _fetchAndUploadE2eeFolderMetadataJob := _fetchAndUploadE2eeFolderMetadataJob j;
     _subJobs := _subJobs j; subJobObjects := subJobObjects j;
     _subJobSyncItems := _subJobSyncItems j;
     certificateReadyConnected := certificateReadyConnected j;
     _log := _log j |}.

Definition set_handler (h : Handler) (j : t) : t :=
  {| _journalDb := _journalDb j; _operation := _operation j; _path := _path j;
     _folderUserId := _folderUserId j; _folderUserCertificate := _folderUserCertificate j;
     _folderToken := _folderToken j;
     _fetchAndUploadE2eeFolderMetadataJob := h;
     _subJobs := _subJobs j; subJobObjects := subJobObjects j;
     _subJobSyncItems := _subJobSyncItems j;
     certificateReadyConnected := certificateReadyConnected j;
     _log := _log j |}.

Definition set_subJobs (s : gset nat) (objects : gmap nat SubJob) (j : t) : t :=
  {| _journalDb := _journalDb j; _operation := _operation j; _path := _path j;
     _folderUserId := _folderUserId j; _folderUserCertificate := _folderUserCertificate j;
     _folderToken := _folderToken j;
     _fetchAndUploadE2eeFolderMetadataJob := _fetchAndUploadE2eeFolderMetadataJob j;
     _subJobs := s; subJobObjects := objects;
     _subJobSyncItems := _subJobSyncItems j;
     certificateReadyConnected := certificateReadyConnected j;
     _log := _log j |}.

Definition set_subJobSyncItems (s : gset QString) (j : t) : t :=
  {| _journalDb := _journalDb j; _operation := _operation j; _path := _path j;
     _folderUserId := _folderUserId j; _folderUserCertificate := _folderUserCertificate j;
     _folderToken := _folderToken j;
     _fetchAndUploadE2eeFolderMetadataJob := _fetchAndUploadE2eeFolderMetadataJob j;
     _subJobs := _subJobs j; subJobObjects := subJobObjects j;
     _subJobSyncItems := s;
     certificateReadyConnected := certificateReadyConnected j;
     _log := _log j |}.

Definition set_certificateReadyConnected (b : bool) (j : t) : t :=
  {| _journalDb := _journalDb j; _operation := _operation j; _path := _path j;
     _folderUserId := _folderUserId j; _folderUserCertificate := _folderUserCertificate j;
     _folderToken := _folderToken j;
     _fetchAndUploadE2eeFolderMetadataJob := _fetchAndUploadE2eeFolderMetadataJob j;
     _subJobs := _subJobs j; subJobObjects := subJobObjects j;
     _subJobSyncItems := _subJobSyncItems j;
     certificateReadyConnected := b;
     _log := _log j |}.

Definition set_handler_metadata (fm : FolderMetadata.t) (h : Handler) : Handler :=
  {| folderMetadata := Some fm; isValid := isValid h;
     keyChecksumsRemoved := keyChecksumsRemoved h; folderToken := folderToken h |}.

Definition set_handler_token (token : QByteArray) (h : Handler) : Handler :=
  {| folderMetadata := folderMetadata h; isValid := isValid h;
     keyChecksumsRemoved := keyChecksumsRemoved h; folderToken := token |}.

Section WithPlatform.
Context {platform : Platform}.

Definition errorUpdatingMetadata (j : t) : QString :=
  "Error updating metadata for a folder " +:+ _path j.

(** [folderMetadata() && folderMetadata()->isValid()] *)
Definition isMetadataValid (j : t) : bool :=
  match folderMetadata (_fetchAndUploadE2eeFolderMetadataJob j) with
  | Some _ => isValid (_fetchAndUploadE2eeFolderMetadataJob j)
  | None => false
  end.

Definition slotStartE2eeMetadataJobs (j : t) : t :=
  if bool_decide (_operation j = Add) && certificateIsNull (_folderUserCertificate j)
  then act (EmitFinished 404 ("Could not fetch publicKey for user " +:+ _folderUserId j)) j
  else if negb (rootE2eFolderRecordValid (_journalDb j))
  then act (EmitFinished 404 ("Could not find root encrypted folder for folder " +:+ _path j)) j
  else act FetchMetadata j.

(** [emit certificateReady()] *)
Definition certificateReady (j : t) : t :=
  if certificateReadyConnected j then slotStartE2eeMetadataJobs j else j.

Definition start (j : t) : t :=
  if negb (bool_decide (_operation j = Add)) && negb (bool_decide (_operation j = Remove))
     && negb (bool_decide (_operation j = ReEncrypt))
  then act (EmitFinished (-1) (errorUpdatingMetadata j)) j
  else if bool_decide (_operation j = Add) then
    let j := set_certificateReadyConnected true j in
    if negb (certificateIsNull (_folderUserCertificate j)) then certificateReady j
    else act (FetchCertificateFromKeyChain (_folderUserId j)) j
  else slotStartE2eeMetadataJobs j.

Definition unlockFolder (success : bool) (j : t) : t := act (UnlockFolder success) j.

Definition slotFolderUnlocked (folderId : QByteArray) (httpStatus : Z) (j : t) : t :=
  let message := if bool_decide (httpStatus ≠ 200) then "Failed to unlock a folder." else "" in
  act (EmitFinished httpStatus message) j.

Definition subJobsFinished (success : bool) (j : t) : t := unlockFolder success j.

Definition startUpdate (random : QByteArray) (j : t) : t :=
  if bool_decide (_operation j = Invalid)
  then act (EmitFinished (-1) (errorUpdatingMetadata j)) j
  else
    let updated : option t :=
      if bool_decide (_operation j = Add) || bool_decide (_operation j = Remove) then
        match folderMetadata (_fetchAndUploadE2eeFolderMetadataJob j) with
        | None => None
        | Some fm =>
            let result :=
              if bool_decide (_operation j = Add)
              then FolderMetadata.addUser random (_folderUserId j) (_folderUserCertificate j) fm
              else FolderMetadata.removeUser random (_folderUserId j) fm in
            if negb result.1 then None
            else Some (set_handler
                         (set_handler_metadata result.2 (_fetchAndUploadE2eeFolderMetadataJob j)) j)
        end
      else Some j in
    match updated with
    | None => act (EmitFinished (-1) (errorUpdatingMetadata j)) j
    | Some j =>
        let j := set_handler
                   (set_handler_token (_folderToken j) (_fetchAndUploadE2eeFolderMetadataJob j)) j in
        act (UploadMetadata true) j
    end.

Definition slotFetchMetadataJobFinished (random : QByteArray) (statusCode : Z)
  (message : QString) (j : t) : t :=
  if bool_decide (statusCode ≠ 200)
  then act (EmitFinished (-1) (errorUpdatingMetadata j)) j
  else if negb (isMetadataValid j)
  then act (EmitFinished 403
              ("Could not add or remove a folder user " +:+ _folderUserId j
               +:+ ", for folder " +:+ _path j)) j
  else startUpdate random j.

(** One round of the callback of [scheduleSubJobs]; [address] is where the
    new job is allocated. *)
Definition scheduleSubJob (fm : FolderMetadata.t) (j : t) (entry : nat * (bool * QByteArray)) : t :=
  let '(address, (isDirectory, e2eMangledName)) := entry in
  if isDirectory then
    let subJob :=
      {| sub_path := e2eMangledName;
         sub_metadataKeyForEncryption := FolderMetadata.metadataKeyForEncryption fm;
         sub_metadataKeyForDecryption := FolderMetadata.metadataKeyForDecryption fm;
         sub_keyChecksums :=
           FolderMetadata.keyChecksums fm
           ∪ keyChecksumsRemoved (_fetchAndUploadE2eeFolderMetadataJob j);
         sub_folderToken := folderToken (_fetchAndUploadE2eeFolderMetadataJob j) |} in
    set_subJobs ({[address]} ∪ _subJobs j) (<[address := subJob]> (subJobObjects j)) j
  else j.

(** [scheduleSubJobs]; the new jobs are allocated at addresses that are not
    in use, one per record, counted from [size (subJobObjects j)]. *)
Definition scheduleSubJobs (j : t) : t :=
  match folderMetadata (_fetchAndUploadE2eeFolderMetadataJob j) with
  | Some fm =>
      if negb (isValid (_fetchAndUploadE2eeFolderMetadataJob j)) then
        if bool_decide (_operation j = Add) || bool_decide (_operation j = Remove)
        then unlockFolder false j
        else act (EmitFinished (-1) (errorUpdatingMetadata j)) j
      else
        foldl (scheduleSubJob fm) j
          (zip (seq (base.size (subJobObjects j)) (length (filesBelowPath (_journalDb j))))
               (filesBelowPath (_journalDb j)))
  | None =>
      if bool_decide (_operation j = Add) || bool_decide (_operation j = Remove)
      then unlockFolder false j
      else act (EmitFinished (-1) (errorUpdatingMetadata j)) j
  end.

(** [_subJobs.values().last()->start()] *)
Definition startLastSubJob (j : t) : t :=
  match last (elements (_subJobs j)) with
  | Some job => act (StartSubJob job) j
  | None => j
  end.

Definition slotUpdateMetadataFinished (code : Z) (message : QString) (j : t) : t :=
  if bool_decide (code ≠ 200) then
    if bool_decide (_operation j = Add) || bool_decide (_operation j = Remove)
    then unlockFolder false j
    else act (EmitFinished code (errorUpdatingMetadata j +:+ ":" +:+ message)) j
  else if bool_decide (_operation j = Add) || bool_decide (_operation j = Remove) then
    let j := scheduleSubJobs j in
    if bool_decide (_subJobs j = ∅) then unlockFolder true j
    else startLastSubJob j
  else act (EmitFinished 200 "") j.

Definition slotSubJobFinished (sender : option nat) (code : Z) (message : QString) (j : t) : t :=
  if bool_decide (code ≠ 200) then subJobsFinished false j
  else
    match sender with
    | None =>
        let j := act (EmitFinished (-1) (errorUpdatingMetadata j +:+ ":" +:+ message)) j in
        subJobsFinished false j
    | Some job =>
        let jobPath := default "" (sub_path <$> subJobObjects j !! job) in
        let j :=
          if bool_decide (jobPath ∈ _subJobSyncItems j)
          then set_subJobSyncItems (_subJobSyncItems j ∖ {[jobPath]})
                 (act (SetItemEncryptionStatus jobPath) j)
          else j in
        let j := set_subJobs (_subJobs j ∖ {[job]}) (subJobObjects j) j in
        if bool_decide (_subJobs j = ∅) then subJobsFinished true j
        else startLastSubJob j
    end.

Definition slotCertificateFetchedFromKeychain (certificate : QByteArray) (j : t) : t :=
  if certificateIsNull certificate
  then act (GetUsersPublicKeyFromServer (_folderUserId j)) j
  else certificateReady (set_folderUserCertificate certificate j).

(** A null certificate is the empty PEM text. *)
Definition slotCertificatesFetchedFromServer (results : gmap QString QByteArray) (j : t) : t :=
  let certificate := default "" (results !! _folderUserId j) in
  let j := set_folderUserCertificate certificate j in
  if certificateIsNull certificate then certificateReady j
  else act (WriteCertificate (_folderUserId j) certificate) j.

(** The slot that a signal is connected to. *)
Definition deliver (e : Event) (j : t) : t :=
  match e with
  | Start => start j
  | CertificateFetchedFromKeychain certificate => slotCertificateFetchedFromKeychain certificate j
  | CertificatesFetchedFromServer results => slotCertificatesFetchedFromServer results j
  | CertificateWriteComplete => certificateReady j
  | FetchFinished random statusCode message =>
      slotFetchMetadataJobFinished random statusCode message j
  | UploadFinished code message => slotUpdateMetadataFinished code message j
  | FolderUnlocked folderId httpStatus => slotFolderUnlocked folderId httpStatus j
  | SubJobFinished sender code message => slotSubJobFinished sender code message j
  end.

Definition run (events : list Event) (j : t) : t := foldl (λ j e, deliver e j) j events.

End WithPlatform.

End UpdateE2eeFolderUsersMetadataJob.

(** ** The local remove and rename jobs (propagatorjobs.cpp) *)

Module PropagatorJobs.

Inductive Status := FatalError | NormalError | SoftError | Success | Conflict.

Inductive PinState := Inherited | AlwaysLocal | OnlineOnly | Unspecified.

#[export] Instance PinState_eq_dec : EqDecision PinState.
Proof. solve_decision. Defined.

Inductive ConvertToPlaceholderResult := PlaceholderError (message : QString) | Ok | Locked.

(** The columns of a journal record other than its path. *)
Record Columns := {
  col_isDirectory : bool;
  col_etag : QByteArray;
  col_checksumHeader : QByteArray;
}.

Record SyncJournalFileRecord := {
  rec_path : QByteArray;
  rec_columns : Columns;
}.

Record SyncFileItem := {
  _file : QString;
  _renameTarget : QString;
  _originalFile : QString;
  isDirectory : bool;
  _etag : QByteArray;
  _checksumHeader : QByteArray;
}.

(** An entry of the local disk; [removable] tells whether the file system
    lets the entry go once it can be removed. *)
#[warnings="-register-all"]
Inductive Entry :=
| File (name : QString) (removable : bool)
| Directory (name : QString) (removable : bool) (entries : list Entry).

Definition entryName (e : Entry) : QString :=
  match e with File name _ => name | Directory name _ _ => name end.

(** What the jobs stand on and do not change in the model: the options, the
    file system, the virtual file system, the state of the database
    connection, and the helpers of OwncloudPropagator and PropagateRemoteMove
    that are outside the embedded sources. *)
Record World := {
  localPath : QString;
  _abortRequested : bool;
  _moveFilesToTrash : bool;
  localFileNameClash : QString → bool;
  adjustRenamedPath : gmap QString QString → QString → QString;
  adjustSelectiveSync : QString → QString → bool;
  equalIgnoringCase : QString → QString → bool;
  fileExists : QString → bool;
  entryAt : QString → option Entry;
  moveToTrash : QString → option QString;
  fileSystemRename : QString → QString → option QString;
  convertToPlaceholder : QString → ConvertToPlaceholderResult;
  pinState : QString → option PinState;
  setPinState : QString → PinState → bool;
  journalUsable : bool;
}.

(** What the jobs change: the journal, which is the map of the records by
    path, the map of the renamed directories, and the calls of the running
    job to [done]. *)
Record Propagator := {
  _journal : gmap QByteArray Columns;
  _renamedDirectories : gmap QString QString;
  _done : list (Status * QString);
}.

Definition set_journal (records : gmap QByteArray Columns) (p : Propagator) : Propagator :=
  {| _journal := records; _renamedDirectories := _renamedDirectories p; _done := _done p |}.

Definition set_renamedDirectories (m : gmap QString QString) (p : Propagator) : Propagator :=
  {| _journal := _journal p; _renamedDirectories := m; _done := _done p |}.

(** [done(status, errorString)] *)
Definition done (status : Status) (errorString : QString) (p : Propagator) : Propagator :=
  {| _journal := _journal p; _renamedDirectories := _renamedDirectories p;
     _done := _done p ++ [(status, errorString)] |}.

Definition localFileIdFromFullId (id : QByteArray) : QByteArray := left 8 id.

Section InWorld.
Variable world : World.

(** *** The journal

    Modelled from the spec: SyncJournalDb, which is not part of the embedded
    sources.  The journal holds one record per synced path;
    [getFileRecord(path)] yields the record, [deleteFileRecord(path, isDir)]
    deletes it, and for a directory what lies below it,
    [getFilesBelowPath(prefix, visitor)] visits the records strictly below
    the prefix, and each of them fails when the database cannot be reached. *)

Definition isBelow (directory path : QByteArray) : bool :=
  startsWith path (directory +:+ "/").

Definition getFileRecord (path : QByteArray) (p : Propagator)
  : bool * option SyncJournalFileRecord :=
  if journalUsable world
  then (true, (λ c, {| rec_path := path; rec_columns := c |}) <$> _journal p !! path)
  else (false, None).

Definition deleteFileRecord (path : QByteArray) (recursively : bool) (p : Propagator)
  : bool * Propagator :=
  if journalUsable world then
    let records := delete path (_journal p) in
    let records :=
      if recursively then filter (λ kv, isBelow path kv.1 = false) records else records in
    (true, set_journal records p)
  else (false, p).

Definition setFileRecord (record : SyncJournalFileRecord) (p : Propagator) : bool * Propagator :=
  if journalUsable world
  then (true, set_journal (<[rec_path record := rec_columns record]> (_journal p)) p)
  else (false, p).

(** The records that [getFilesBelowPath] visits, as they are when the query
    is made. *)
Definition filesBelowPath (path : QByteArray) (p : Propagator) : list SyncJournalFileRecord :=
  (λ kv, {| rec_path := kv.1; rec_columns := kv.2 |})
    <$> filter (λ kv, isBelow path kv.1 = true) (map_to_list (_journal p)).

(** [getFilesBelowPath(path, callback)]; the result is what it returns. *)
Definition getFilesBelowPath (path : QByteArray)
  (callback : Propagator → SyncJournalFileRecord → Propagator) (p : Propagator)
  : bool * Propagator :=
  if journalUsable world then (true, foldl callback p (filesBelowPath path p)) else (false, p).

(** *** The propagator

    Modelled from the spec: [fullLocalPath(relativePath)] and
    [updateMetadata(item)] of OwncloudPropagator, which is not part of the
    embedded sources.  The full path is the path below the local directory;
    [updateMetadata] converts the file to a placeholder and writes the
    journal record of the item, filed under the rename target of the item
    when it has one and under its path otherwise; its result is an error or
    a [ConvertToPlaceholderResult], and on an error as on [Locked], the file
    being in use, no record is written. *)

Definition fullLocalPath (relativePath : QString) : QString :=
  localPath world +:+ relativePath.

Definition destination (item : SyncFileItem) : QString :=
  if isEmpty (_renameTarget item) then _file item else _renameTarget item.

Definition toSyncJournalFileRecord (item : SyncFileItem) : SyncJournalFileRecord :=
  {| rec_path := destination item;
     rec_columns := {| col_isDirectory := isDirectory item; col_etag := _etag item;
                       col_checksumHeader := _checksumHeader item |} |}.

Definition fromSyncJournalFileRecord (record : option SyncJournalFileRecord) : SyncFileItem :=
  match record with
  | Some r => {| _file := rec_path r; _renameTarget := ""; _originalFile := rec_path r;
                 isDirectory := col_isDirectory (rec_columns r);
                 _etag := col_etag (rec_columns r);
                 _checksumHeader := col_checksumHeader (rec_columns r) |}
  | None => {| _file := ""; _renameTarget := ""; _originalFile := "";
               isDirectory := false; _etag := ""; _checksumHeader := "" |}
  end.

Definition updateMetadata (item : SyncFileItem) (p : Propagator)
  : (QString + ConvertToPlaceholderResult) * Propagator :=
  match convertToPlaceholder world (fullLocalPath (destination item)) with
  | PlaceholderError message => (inl message, p)
  | Locked => (inr Locked, p)
  | Ok =>
      let '(written, p') := setFileRecord (toSyncJournalFileRecord item) p in
      if written then (inr Ok, p') else (inl "Error writing metadata to the database", p)
  end.

(** *** FileSystem::removeRecursively

    Modelled from the spec: the helper of filesystem.cpp, which is not part
    of the embedded sources.  It deletes a directory recursively and reports
    every deleted path: the entries of a directory are removed first, each
    removal is reported to [onDeleted] when it succeeds and to [errors] when
    it fails, and the directory itself is removed, and reported, only when
    all its entries are gone.  The result is the success, the calls of
    [onDeleted] in their order, and the errors. *)

Fixpoint removeEntry (path : QString) (e : Entry) : bool * list (QString * bool) * list QString :=
  match e with
  | File _ removable =>
      if removable then (true, [(path, false)], [])
      else (false, [], ["Error removing " +:+ path])
  | Directory _ removable entries =>
      let '(allRemoved, deleted, errors) :=
        (fix removeEntries (entries : list Entry) :=
           match entries with
           | [] => (true, [], [])
           | e :: entries =>
               let '(ok, deleted, errors) := removeEntry (path +:+ "/" +:+ entryName e) e in
               let '(ok', deleted', errors') := removeEntries entries in
               (ok && ok', deleted ++ deleted', errors ++ errors')
           end) entries in
      if allRemoved then
        if removable then (true, deleted ++ [(path, true)], errors)
        else (false, deleted, errors ++ ["Could not remove folder " +:+ path])
      else (false, deleted, errors)
  end.

Definition FileSystem_removeRecursively (path : QString)
  : bool * list (QString * bool) * list QString :=
  match entryAt world path with
  | Some e => removeEntry path e
  | None => (true, [], [])
  end.

(** *** PropagateLocalRemove *)

(** One round of the loop of [removeRecursively] over the deleted entries;
    the state is the last deleted directory and the propagator. *)
Definition pruneDeleted (acc : QString * Propagator) (it : QString * bool)
  : QString * Propagator :=
  let '(deletedDir, p) := acc in
  if negb (startsWith it.1 (localPath world)) then acc
  else if negb (isEmpty deletedDir) && startsWith it.1 deletedDir then acc
  else
    let deletedDir := if it.2 then it.1 else deletedDir in
    (deletedDir, (deleteFileRecord (mid (size (localPath world)) it.1) it.2 p).2).

(** [PropagateLocalRemove::removeRecursively]; the result is the success,
    [_error] and the propagator. *)
Definition removeRecursively (item : SyncFileItem) (path : QString) (p : Propagator)
  : bool * QString * Propagator :=
  let absolute := fullLocalPath (_file item +:+ path) in
  let '(success, reported, errors) := FileSystem_removeRecursively absolute in
  (* by prepending, a folder deletion may be followed by content deletions *)
  let deleted := reverse reported in
  if negb success then
    let '(_, p) := foldl pruneDeleted ("", p) deleted in
    (success, String.concat ", " errors, p)
  else (success, "", p).

Definition isDirectoryOnDisk (path : QString) : bool :=
  match entryAt world path with Some (Directory _ _ _) => true | _ => false end.

Definition FileSystem_remove (path : QString) : option QString :=
  match entryAt world path with
  | Some (File _ true) => None
  | _ => Some ("Error removing " +:+ path)
  end.

Definition PropagateLocalRemove_start (item : SyncFileItem) (p : Propagator) : Propagator :=
  if _abortRequested world then p
  else
    let filename := fullLocalPath (_file item) in
    if localFileNameClash world (_file item)
    then done NormalError
           ("Could not remove " +:+ filename +:+ " because of a local file name clash") p
    else
      let finish (p : Propagator) :=
        let p := (deleteFileRecord (_originalFile item) (isDirectory item) p).2 in
        done Success "" p in
      if _moveFilesToTrash world then
        match
          (if isDirectoryOnDisk filename || fileExists world filename
           then moveToTrash world filename else None)
        with
        | Some removeError => done NormalError removeError p
        | None => finish p
        end
      else if isDirectory item then
        if isDirectoryOnDisk filename then
          let '(success, error, p) := removeRecursively item "" p in
          if negb success then done NormalError error p else finish p
        else finish p
      else
        match (if fileExists world filename then FileSystem_remove filename else None) with
        | Some removeError => done NormalError removeError p
        | None => finish p
        end.

(** *** PropagateLocalRename *)

(** [deleteOldDbRecord]; the result is what it returns. *)
Definition deleteOldDbRecord (fileName : QString) (p : Propagator) : bool * Propagator :=
  if negb (getFileRecord fileName p).1
  then (false, done NormalError ("could not get file " +:+ fileName +:+ " from local DB") p)
  else
    let '(deleted, p') := deleteFileRecord fileName false p in
    if negb deleted
    then (false, done NormalError
                   ("Could not delete file record " +:+ fileName +:+ " from local DB") p)
    else (true, p').

Definition set_file (file : QString) (item : SyncFileItem) : SyncFileItem :=
  {| _file := file; _renameTarget := _renameTarget item; _originalFile := _originalFile item;
     isDirectory := isDirectory item; _etag := _etag item;
     _checksumHeader := _checksumHeader item |}.

Definition set_checksumHeader (header : QByteArray) (item : SyncFileItem) : SyncFileItem :=
  {| _file := _file item; _renameTarget := _renameTarget item;
     _originalFile := _originalFile item; isDirectory := isDirectory item;
     _etag := _etag item; _checksumHeader := header |}.

(** [QString::replace(0, n, after)] *)
Definition replaceStart (n : nat) (after s : QString) : QString := after +:+ mid n s.

(** The callback that [start] hands to [getFilesBelowPath], for one record. *)
Definition renameRecord (oldFile renameTarget : QString) (p : Propagator)
  (record : SyncJournalFileRecord) : Propagator :=
  let oldFileName := rec_path record in
  let oldFileNameString := oldFileName in
  let newFileNameString := replaceStart (size oldFile) renameTarget oldFileNameString in
  if bool_decide (oldFileNameString = newFileNameString) then p
  else
    let '(found, oldRecord) := getFileRecord oldFileName p in
    if negb found
    then done NormalError ("could not get file " +:+ oldFileNameString +:+ " from local DB") p
    else
      let '(deleted, p') := deleteFileRecord oldFileName false p in
      if negb deleted
      then done NormalError
             ("Could not delete file record " +:+ oldFileNameString +:+ " from local DB") p
      else
        let newItem := set_file newFileNameString (fromSyncJournalFileRecord oldRecord) in
        match updateMetadata newItem p' with
        | (inl error, p'') => done FatalError ("Error updating metadata: " +:+ error) p''
        | (inr _, p'') => p''
        end.

Definition PropagateLocalRename_start (item : SyncFileItem) (p : Propagator) : Propagator :=
  if _abortRequested world then p
  else
    let previousNameInDb := adjustRenamedPath world (_renamedDirectories p) (_file item) in
    let existingFile :=
      fullLocalPath (adjustRenamedPath world (_renamedDirectories p) (_file item)) in
    let targetFile := fullLocalPath (_renameTarget item) in
    let fileAlreadyMoved := negb (fileExists world (fullLocalPath (_originalFile item))) in
    let moved : Propagator + Propagator :=
      if negb (bool_decide (_file item = _renameTarget item)) then
        if negb (equalIgnoringCase world (_file item) (_renameTarget item))
           && localFileNameClash world (_renameTarget item)
        then inl (done NormalError
                    ("File " +:+ _file item +:+ " cannot be renamed to " +:+ _renameTarget item
                     +:+ " because of a local file name clash") p)
        else
          match fileSystemRename world existingFile targetFile with
          | Some renameError => inl (done NormalError renameError p)
          | None => inr p
          end
      else inr p in
    match moved with
    | inl p => p
    | inr p =>
        let '(found, oldRecord) :=
          getFileRecord (if fileAlreadyMoved then previousNameInDb else _originalFile item) p in
        if negb found
        then done NormalError ("could not get file " +:+ _originalFile item +:+ " from local DB") p
        else
          let '(first, p) :=
            if fileAlreadyMoved then deleteOldDbRecord previousNameInDb p else (true, p) in
          if fileAlreadyMoved && negb first then p
          else
            let '(second, p) := deleteOldDbRecord (_originalFile item) p in
            if negb second then p
            else
              let pinState := pinState world (_originalFile item) in
              let oldFile := _file item in
              let saved : Propagator + Propagator :=
                if negb (isDirectory item) then
                  let newItem :=
                    match oldRecord with
                    | Some r => set_checksumHeader (col_checksumHeader (rec_columns r)) item
                    | None => item
                    end in
                  match updateMetadata newItem p with
                  | (inl error, p) => inl (done FatalError ("Error updating metadata: " +:+ error) p)
                  | (inr Locked, p) =>
                      inl (done SoftError ("The file " +:+ _file newItem +:+ " is currently in use") p)
                  | (inr _, p) => inr p
                  end
                else
                  let '(dbQueryResult, p) :=
                    getFilesBelowPath oldFile (renameRecord oldFile (_renameTarget item)) p in
                  if negb dbQueryResult
                  then inl (done FatalError "Failed to propagate directory rename in hierarchy" p)
                  else
                    let p := set_renamedDirectories
                               (<[oldFile := _renameTarget item]> (_renamedDirectories p)) p in
                    if negb (adjustSelectiveSync world oldFile (_renameTarget item))
                    then inl (done FatalError "Failed to rename file" p)
                    else inr p in
              match saved with
              | inl p => p
              | inr p =>
                  match pinState with
                  | Some state =>
                      if negb (bool_decide (state = Inherited))
                         && negb (setPinState world (_renameTarget item) state)
                      then done NormalError "Error setting pin state" p
                      else done Success "" p
                  | None => done Success "" p
                  end
              end
    end.

(** *** PropagateLocalMkdir *)

(** What [startLocalMkdir] stands on besides the world: [createConflict] of
    OwncloudPropagator, with the error of a failure,
    [Utility::fsCasePreserving] and [QDir::mkpath] in the local directory,
    none of which is part of the embedded sources. *)
Record MkdirHelpers := {
  createConflict : SyncFileItem → option QString;
  fsCasePreserving : bool;
  mkpath : QString → bool;
}.

(** [QFileInfo(path).exists() && isFile()] *)
Definition isFileOnDisk (path : QString) : bool :=
  match entryAt world path with Some (File _ _) => true | _ => false end.

Definition set_etag (etag : QByteArray) (item : SyncFileItem) : SyncFileItem :=
  {| _file := _file item; _renameTarget := _renameTarget item;
     _originalFile := _originalFile item; isDirectory := isDirectory item;
     _etag := etag; _checksumHeader := _checksumHeader item |}.

(** [startLocalMkdir]; [instructionIsConflict] is
    [_item->_instruction == CSYNC_INSTRUCTION_CONFLICT]. *)
Definition startLocalMkdir (helpers : MkdirHelpers)
  (_deleteExistingFile instructionIsConflict : bool) (item : SyncFileItem) (p : Propagator)
  : Propagator :=
  let newDirStr := fullLocalPath (_file item) in
  let cleared : option Propagator :=
    if isFileOnDisk newDirStr then
      if _deleteExistingFile then
        match FileSystem_remove newDirStr with
        | Some removeError =>
            Some (done NormalError
                    ("could not delete file " +:+ newDirStr +:+ ", error: " +:+ removeError) p)
        | None => None
        end
      else if instructionIsConflict then
        match createConflict helpers item with
        | Some error => Some (done SoftError error p)
        | None => None
        end
      else None
    else None in
  match cleared with
  | Some p => p
  | None =>
      if fsCasePreserving helpers && localFileNameClash world (_file item)
      then done NormalError
             ("Attention, possible case sensitivity clash with " +:+ newDirStr) p
      else if negb (mkpath helpers (_file item))
      then done NormalError ("Could not create folder " +:+ newDirStr) p
      else
        let newItem := set_etag "_invalid_" item in
        match updateMetadata newItem p with
        | (inl error, p) => done FatalError ("Error updating metadata: " +:+ error) p
        | (inr Locked, p) =>
            done SoftError ("The file " +:+ _file newItem +:+ " is currently in use") p
        | (inr _, p) => done (if instructionIsConflict then Conflict else Success) "" p
        end
  end.

Definition PropagateLocalMkdir_start (helpers : MkdirHelpers)
  (_deleteExistingFile instructionIsConflict : bool) (item : SyncFileItem) (p : Propagator)
  : Propagator :=
  if _abortRequested world then p
  else startLocalMkdir helpers _deleteExistingFile instructionIsConflict item p.

End InWorld.

End PropagatorJobs.

(** ** UpdateE2eeFolderMetadataJob (updatee2eefoldermetadatajob.cpp)

    The job that moves the file drop of an encrypted folder into its files
    and uploads the metadata.  As for the job of the folder users, a slot is
    a function on the state of the job and what it calls or emits is
    appended to [_log].  The EncryptedFolderMetadataHandler is changed by the
    network behind the back of the job: a signal of the handler brings the
    handler as it is when the slot runs. *)

Module UpdateE2eeFolderMetadataJob.
Import PropagatorJobs.

Inductive JobState := NotYetStarted | Running | Finished.

(** The EncryptedFolderMetadataHandler as the job sees it.  [isValid] and
    [encryptedMetadataEncryptionStatus] are members of FolderMetadata that
    the embedded foldermetadata.cpp does not define. *)
Record Handler := {
  folderMetadata : option FolderMetadata.t;
  isValid : bool;
  encryptedMetadataEncryptionStatus : Z;
  isUnlockRunning : bool;
  isFolderLocked : bool;
}.

Definition set_folderMetadata (fm : FolderMetadata.t) (h : Handler) : Handler :=
  {| folderMetadata := Some fm; isValid := isValid h;
     encryptedMetadataEncryptionStatus := encryptedMetadataEncryptionStatus h;
     isUnlockRunning := isUnlockRunning h; isFolderLocked := isFolderLocked h |}.

(** The fields of the SyncFileItem that the job writes. *)
Record Item := {
  _status : option Status;
  _errorString : QString;
  _e2eEncryptionStatus : Z;
  _e2eEncryptionStatusRemote : Z;
  _e2eEncryptionMaximumAvailableStatus : Z;
}.

Definition set_status (status : Status) (i : Item) : Item :=
  {| _status := Some status; _errorString := _errorString i;
     _e2eEncryptionStatus := _e2eEncryptionStatus i;
     _e2eEncryptionStatusRemote := _e2eEncryptionStatusRemote i;
     _e2eEncryptionMaximumAvailableStatus := _e2eEncryptionMaximumAvailableStatus i |}.

Definition set_errorString (errorString : QString) (i : Item) : Item :=
  {| _status := _status i; _errorString := errorString;
     _e2eEncryptionStatus := _e2eEncryptionStatus i;
     _e2eEncryptionStatusRemote := _e2eEncryptionStatusRemote i;
     _e2eEncryptionMaximumAvailableStatus := _e2eEncryptionMaximumAvailableStatus i |}.

Definition set_e2eEncryptionStatus (status : Z) (i : Item) : Item :=
  {| _status := _status i; _errorString := _errorString i;
     _e2eEncryptionStatus := status;
     _e2eEncryptionStatusRemote := _e2eEncryptionStatusRemote i;
     _e2eEncryptionMaximumAvailableStatus := _e2eEncryptionMaximumAvailableStatus i |}.

Definition set_e2eEncryptionStatusRemote (status : Z) (i : Item) : Item :=
  {| _status := _status i; _errorString := _errorString i;
     _e2eEncryptionStatus := _e2eEncryptionStatus i;
     _e2eEncryptionStatusRemote := status;
     _e2eEncryptionMaximumAvailableStatus := _e2eEncryptionMaximumAvailableStatus i |}.

Definition set_e2eEncryptionMaximumAvailableStatus (status : Z) (i : Item) : Item :=
  {| _status := _status i; _errorString := _errorString i;
     _e2eEncryptionStatus := _e2eEncryptionStatus i;
     _e2eEncryptionStatusRemote := _e2eEncryptionStatusRemote i;
     _e2eEncryptionMaximumAvailableStatus := status |}.

(** What the job stands on: whether the journal has a valid root encrypted
    folder record for [_encryptedRemotePath], [SyncFileItem::isEncrypted] as
    a function of the encryption status, and the status that the
    capabilities of the account allow at most. *)
Record Environment := {
  rootE2eFolderRecordValid : bool;
  isEncryptedStatus : Z → bool;
  maximumAvailableStatus : Z;
}.

Inductive Action :=
| FetchMetadata
| FileDropMetadataParsedAndAdjusted
| UploadMetadata
| UnlockFolder (success : bool)
| EmitFinished (status : Status).

(** What reaches the job: the scheduler, with the handler that [start]
    creates, and the signals of the handler. *)
Inductive Event :=
| Schedule (created : Handler)
| FetchFinished (handler : Handler) (httpReturnCode : Z) (message : QString)
| UploadFinished (handler : Handler) (httpReturnCode : Z) (message : QString)
| FolderUnlocked (handler : Handler) (folderId : QByteArray) (httpStatus : Z).

Record t := {
  _state : JobState;
  _item : Item;
  (** [None] is the null pointer that the member holds before [start] *)
  _fetchAndUploadE2eeFolderMetadataJob : option Handler;
  _log : list Action;
}.

Definition act (a : Action) (j : t) : t :=
  {| _state := _state j; _item := _item j;
     _fetchAndUploadE2eeFolderMetadataJob := _fetchAndUploadE2eeFolderMetadataJob j;
     _log := _log j ++ [a] |}.

Definition set_state (s : JobState) (j : t) : t :=
  {| _state := s; _item := _item j;
     _fetchAndUploadE2eeFolderMetadataJob := _fetchAndUploadE2eeFolderMetadataJob j;
     _log := _log j |}.

Definition set_item (i : Item) (j : t) : t :=
  {| _state := _state j; _item := i;
     _fetchAndUploadE2eeFolderMetadataJob := _fetchAndUploadE2eeFolderMetadataJob j;
     _log := _log j |}.

Definition set_handler (h : option Handler) (j : t) : t :=
  {| _state := _state j; _item := _item j;
     _fetchAndUploadE2eeFolderMetadataJob := h; _log := _log j |}.

Section WithPlatform.
Context {platform : Platform}.
Variable environment : Environment.

(** [unlockFolder]; the result is [None] when the handler is used while the
    member is still null. *)
Definition unlockFolder (success : bool) (j : t) : option t :=
  match _fetchAndUploadE2eeFolderMetadataJob j with
  | None => None
  | Some handler =>
      if isUnlockRunning handler then Some j
      else
        let j :=
          if negb success
          then set_item (set_errorString "Failed to update folder metadata." (_item j)) j
          else j in
        let itemStatus := if success then Success else FatalError in
        if negb (isFolderLocked handler) then
          let j :=
            if success && bool_decide (is_Some (folderMetadata handler)) then
              let j := set_item (set_e2eEncryptionStatus
                                   (encryptedMetadataEncryptionStatus handler) (_item j)) j in
              if isEncryptedStatus environment (_e2eEncryptionStatus (_item j))
              then set_item (set_e2eEncryptionMaximumAvailableStatus
                               (maximumAvailableStatus environment) (_item j)) j
              else j
            else j in
          Some (act (EmitFinished itemStatus) j)
        else Some (act (UnlockFolder success) j)
  end.

(** The function connected to [folderUnlocked] by [unlockFolder]. *)
Definition slotFolderUnlocked (folderId : QByteArray) (httpStatus : Z) (j : t) : option t :=
  match _fetchAndUploadE2eeFolderMetadataJob j with
  | None => None
  | Some handler =>
      if bool_decide (httpStatus ≠ 200) then
        let j := set_item (set_errorString "Failed to unlock encrypted folder." (_item j)) j in
        Some (act (EmitFinished FatalError) j)
      else if negb (bool_decide (is_Some (folderMetadata handler))) || negb (isValid handler)
      then
        let j := set_item (set_errorString "Failed to finalize item." (_item j)) j in
        Some (act (EmitFinished FatalError) j)
      else
        let j := set_item (set_e2eEncryptionStatus
                             (encryptedMetadataEncryptionStatus handler) (_item j)) j in
        let j := set_item (set_e2eEncryptionStatusRemote
                             (encryptedMetadataEncryptionStatus handler) (_item j)) j in
        Some (act (EmitFinished Success) j)
  end.

(** [start]; [created] is the handler it creates. *)
Definition start (created : Handler) (j : t) : option t :=
  if negb (rootE2eFolderRecordValid environment) then unlockFolder false j
  else Some (act FetchMetadata (set_handler (Some created) j)).

(** [scheduleSelfOrChild]; the first component is what it returns. *)
Definition scheduleSelfOrChild (created : Handler) (j : t) : option (bool * t) :=
  match _state j with
  | Finished => Some (false, j)
  | NotYetStarted =>
      match start created (set_state Running j) with
      | Some j => Some (true, j)
      | None => None
      end
  | Running => Some (true, j)
  end.

Definition slotFetchMetadataJobFinished (httpReturnCode : Z) (message : QString) (j : t)
  : option t :=
  if bool_decide (httpReturnCode ≠ 200) then
    let j := set_item (set_errorString message (set_status FatalError (_item j))) j in
    Some (act (EmitFinished FatalError) j)
  else if negb (rootE2eFolderRecordValid environment) then unlockFolder false j
  else
    match _fetchAndUploadE2eeFolderMetadataJob j with
    | None => None
    | Some handler =>
        match folderMetadata handler with
        | None => unlockFolder false j
        | Some fm =>
            if negb (isValid handler) then unlockFolder false j
            else
              let moved := FolderMetadata.moveFromFileDropToFiles fm in
              let j := set_handler (Some (set_folderMetadata moved.2 handler)) j in
              if negb moved.1 && negb (FolderMetadata.encryptedMetadataNeedUpdate moved.2)
              then unlockFolder false j
              else Some (act UploadMetadata (act FileDropMetadataParsedAndAdjusted j))
        end
    end.

Definition slotUpdateMetadataFinished (httpReturnCode : Z) (message : QString) (j : t)
  : option t :=
  let itemStatus := if bool_decide (httpReturnCode ≠ 200) then FatalError else Success in
  let j :=
    if bool_decide (httpReturnCode ≠ 200)
    then set_item (set_errorString message (_item j)) j else j in
  let j := set_item (set_status itemStatus (_item j)) j in
  Some (act (EmitFinished itemStatus) j).

(** The slot that a signal is connected to, run on the handler as the
    signal brings it. *)
Definition deliver (e : Event) (j : t) : option t :=
  match e with
  | Schedule created => snd <$> scheduleSelfOrChild created j
  | FetchFinished handler httpReturnCode message =>
      slotFetchMetadataJobFinished httpReturnCode message (set_handler (Some handler) j)
  | UploadFinished handler httpReturnCode message =>
      slotUpdateMetadataFinished httpReturnCode message (set_handler (Some handler) j)
  | FolderUnlocked handler folderId httpStatus =>
      slotFolderUnlocked folderId httpStatus (set_handler (Some handler) j)
  end.

End WithPlatform.

End UpdateE2eeFolderMetadataJob.

(** ** A small stand-in for the collaborators

    Concrete codecs and ciphers of the simplest kind, on which the
    embedding can be run.  Texts keep the properties the code relies on:
    the Base64 of the empty array is empty, the certificate of an empty PEM
    is null, a cipher text opens only under the key that sealed it. *)

Module Sample.

Fixpoint stripPrefix (p s : string) : option string :=
  match p, s with
  | EmptyString, _ => Some s
  | String a p', String b s' => if bool_decide (a = b) then stripPrefix p' s' else None
  | _, _ => None
  end.

Fixpoint putPos (p : positive) : string :=
  match p with
  | xH => "."
  | xO p => String "0" (putPos p)
  | xI p => String "1" (putPos p)
  end.

Definition putZ (z : Z) : string :=
  match z with
  | Z0 => "z"
  | Zpos p => String "+" (putPos p)
  | Zneg p => String "-" (putPos p)
  end.

Definition putText (s : string) : string :=
  putZ (Z.of_nat (String.length s)) +:+ s.

Fixpoint putJson (v : QJsonValue) : string :=
  match v with
  | JNull => "n"
  | JBool true => "t"
  | JBool false => "f"
  | JDouble num den => "d" +:+ putZ num +:+ putPos den
  | JString s => "s" +:+ putText s
  | JArray l => "[" +:+ foldr (fun v acc => putJson v +:+ acc) "]" l
  | JObject m => "{" +:+ map_fold (fun k v acc => putText k +:+ putJson v +:+ acc) "}" m
  end.

Fixpoint getPos (s : string) : option (positive * string) :=
  match s with
  | String "." r => Some (xH, r)
  | String "0" r => match getPos r with Some (p, r') => Some (xO p, r') | None => None end
  | String "1" r => match getPos r with Some (p, r') => Some (xI p, r') | None => None end
  | _ => None
  end.

Definition getZ (s : string) : option (Z * string) :=
  match s with
  | String "z" r => Some (0, r)
  | String "+" r => match getPos r with Some (p, r') => Some (Zpos p, r') | None => None end
  | String "-" r => match getPos r with Some (p, r') => Some (Zneg p, r') | None => None end
  | _ => None
  end.

Definition getText (s : string) : option (string * string) :=
  match getZ s with
  | Some (n, r) => Some (substring 0 (Z.to_nat n) r, mid (Z.to_nat n) r)
  | None => None
  end.

Fixpoint getJson (fuel : nat) (s : string) : option (QJsonValue * string) :=
  match fuel with
  | O => None
  | S fuel =>
      match s with
      | String "n" r => Some (JNull, r)
      | String "t" r => Some (JBool true, r)
      | String "f" r => Some (JBool false, r)
      | String "d" r =>
          match getZ r with
          | Some (num, r) =>
              match getPos r with Some (den, r) => Some (JDouble num den, r) | None => None end
          | None => None
          end
      | String "s" r =>
          match getText r with Some (t, r) => Some (JString t, r) | None => None end
      | String "[" r =>
          match getArray fuel r with Some (l, r) => Some (JArray l, r) | None => None end
      | String "{" r =>
          match getFields fuel r with
          | Some (l, r) => Some (JObject (list_to_map l), r)
          | None => None
          end
      | _ => None
      end
  end
with getArray (fuel : nat) (s : string) : option (list QJsonValue * string) :=
  match fuel with
  | O => None
  | S fuel =>
      match s with
      | String "]" r => Some ([], r)
      | _ =>
          match getJson fuel s with
          | Some (v, r) =>
              match getArray fuel r with Some (l, r) => Some (v :: l, r) | None => None end
          | None => None
          end
      end
  end
with getFields (fuel : nat) (s : string) : option (list (string * QJsonValue) * string) :=
  match fuel with
  | O => None
  | S fuel =>
      match s with
      | String "}" r => Some ([], r)
      | _ =>
          match getText s with
          | Some (k, r) =>
              match getJson fuel r with
              | Some (v, r) =>
                  match getFields fuel r with
                  | Some (l, r) => Some ((k, v) :: l, r)
                  | None => None
                  end
              | None => None
              end
          | None => None
          end
      end
  end.

Definition parseJson (s : string) : QJsonValue :=
  match getJson (S (String.length s)) s with
  | Some (v, _) => v
  | None => JNull
  end.

Definition seal (label key data : string) : string :=
  label +:+ "{" +:+ key +:+ "}" +:+ data.

Definition unseal (label key sealed : string) : option string :=
  stripPrefix (label +:+ "{" +:+ key +:+ "}") sealed.

#[export] Instance platform : Platform := {|
  versionRank v := match v with Version1 => 0 | Version1_2 => 1 | Version2_0 => 2 end;
  calcSha256 s := "sha256:" +:+ s;
  sha256Hex s := "hex:" +:+ s;
  toBase64 s := if isEmpty s then "" else String "=" s;
  fromBase64 s := match s with String "=" r => r | _ => "" end;
  toJson := putJson;
  fromJson := parseJson;
  numberToString num den := putZ num +:+ "/" +:+ putPos den;
  certificateIsNull pem := negb (startsWith pem "CERT ");
  certificatePublicKey pem := default "" (stripPrefix "CERT " pem);
  encryptStringAsymmetric key data := if isEmpty key then "" else seal "rsa" key data;
  decryptStringAsymmetric key data := default "" (unseal "rsa" key data);
  encryptStringSymmetric pass data := seal "aes" pass data;
  decryptStringSymmetric pass data := default "" (unseal "aes" pass data);
  dataEncryption key iv input := (seal "gcm" (key +:+ "," +:+ iv) input, "tag");
  dataDecryption key iv input := unseal "gcm" (key +:+ "," +:+ iv) input;
  gZip data := Some ("gz:" +:+ data);
  gUnZip data := stripPrefix "gz:" data;
|}.

End Sample.
(** * The vocabulary of the statements and the examples *)

(** ** FolderMetadata *)

Module FolderMetadataNotions.
Import FolderMetadata.

(** The order in which [computeMetadataKeyChecksum] sorts the encrypted
    names. *)
Definition nameLe (a b : string) : Prop := String.leb a b = true.

Section WithPlatform.
Context {platform : Platform}.

(** The checksum set after a rotation from key [old] to key [new]. *)
Definition rotatedChecksums (old new : QByteArray) (checksums : gset QByteArray)
  : gset QByteArray :=
  let kept := if isEmpty old then checksums else checksums ∖ {[calcSha256 old]} in
  if isEmpty new then kept else {[calcSha256 new]} ∪ kept.

(** What the loop of [updateUsersEncryptedMetadataKey] does to one user. *)
Definition usable (metadataKey : QByteArray) (folderUser : FolderUser) : Prop :=
  certificateIsNull (certificatePem folderUser) = false
  ∧ certificatePublicKey (certificatePem folderUser) ≠ ""
  ∧ encryptData metadataKey (certificatePublicKey (certificatePem folderUser)) ≠ "".

(** A rotation from the state [fm] to the state [fm'] under the generated
    key [random]. *)
Definition rotated (fm : t) (random : QByteArray) (fm' : t) : Prop :=
  _metadataKeyForEncryption fm' = random
  ∧ calcSha256 random ∈ _keyChecksums fm'
  ∧ (_metadataKeyForEncryption fm ≠ "" →
     calcSha256 random ≠ calcSha256 (_metadataKeyForEncryption fm) →
     calcSha256 (_metadataKeyForEncryption fm) ∉ _keyChecksums fm').

(** The user [u] of [fm] carries the key [random] in [fm'] when its
    certificate allows it and its old wrapped key otherwise. *)
Definition rewrapped (fm : t) (random : QByteArray) (fm' : t) (u : QString) : Prop :=
  ∀ folderUser, _folderUsers fm !! u = Some folderUser →
    (usable random folderUser →
     _folderUsers fm' !! u
     = Some (set_encryptedMetadataKey
               (encryptData random (certificatePublicKey (certificatePem folderUser)))
               folderUser))
    ∧ (¬ usable random folderUser → _folderUsers fm' !! u = Some folderUser).

(** The version field that [setupVersionFromExistingMetadata] ends up
    reading: the one of the document, or else the one of its [metadata]
    object. *)
Definition embeddedVersion (metadata : QByteArray) : option QJsonValue :=
  let metaDataDoc := fromJson (metadataStringFromOCsDocument (fromJson metadata)) in
  let metadataObj := Json.toObject (Json.value metadataJsonKey (Json.toObject metaDataDoc)) in
  match Json.toObject metaDataDoc !! versionKey with
  | Some v => Some v
  | None => metadataObj !! versionKey
  end.

(** Repeated [QJsonObject::insert] and [QHash::operator[]] assignments. *)
Definition assign {V} (m : gmap string V) (kv : string * V) : gmap string V :=
  <[kv.1 := kv.2]> m.

(** The [files] and [folders] objects that the loop of [encryptedMetadata]
    builds. *)
Definition fileEntries (metadataKey : QByteArray) (l : list EncryptedFile)
  : list (string * QJsonValue) :=
  (λ f, (encryptedFilename f, JObject (convertFileToJsonObject f metadataKey)))
    <$> filter (λ f, isDirectoryMimetype (mimetype f) = false) l.

Definition folderEntries (l : list EncryptedFile) : list (string * QJsonValue) :=
  (λ f, (encryptedFilename f, JString (originalFilename f)))
    <$> filter (λ f, isDirectoryMimetype (mimetype f) = true) l.

(** The plain text that [encryptedMetadata] encrypts for a top-level folder,
    and the document it returns. *)
Definition payloadOf (fm : t) : QJsonValue :=
  JObject (<[keyChecksumsKey := JArray (JString <$> elements (_keyChecksums fm))]>
          (<[filesKey :=
               JObject (foldl assign ∅ (fileEntries (_metadataKeyForEncryption fm) (_files fm)))]>
          (<[foldersKey := JObject (foldl assign ∅ (folderEntries (_files fm)))]> ∅))).

Definition withFileDrop (fm : t) (metaObject : gmap string QJsonValue)
  : gmap string QJsonValue :=
  if negb (isEmpty (_fileDropCipherTextEncryptedAndBase64 fm)) then
    <[filedropKey :=
        JObject (<[cipherTextKey := JString (_fileDropCipherTextEncryptedAndBase64 fm)]>
                (<[nonceKey := JString (toBase64 (_fileDropMetadataNonce fm))]>
                (<[authenticationTagKey :=
                     JString (toBase64 (_fileDropMetadataAuthenticationTag fm))]> ∅)))]>
      metaObject
  else metaObject.

Definition documentOf (fm : t) (iv : QByteArray) : QJsonValue :=
  let sealed := gZipEncryptAndBase64Encode (_metadataKeyForEncryption fm)
                  (toJson (payloadOf fm)) iv in
  JObject (withFileDrop fm
    (<[usersKey := JArray ((λ kv, folderUserToJson kv.2) <$> map_to_list (_folderUsers fm))]>
    (<[metadataJsonKey :=
         JObject (<[cipherTextKey := JString sealed.1]>
                 (<[nonceKey := JString (toBase64 iv)]>
                 (<[authenticationTagKey := JString (toBase64 sealed.2)]> ∅)))]>
    (<[versionKey := JDouble 2 1]> ∅)))).

(** The reply of the server that stores [metaData]. *)
Definition envelopeOf (metaData : QByteArray) : QJsonValue :=
  JObject {[ "ocs" := JObject {[ "data" := JObject {[ "meta-data" := JString metaData ]} ]} ]}.

(** A top-level FolderMetadata that is fit for upload: it asks for the
    current format, its key has the size of a metadata key and is recorded
    in [keyChecksums], every user is filed under its own id, the account is
    one of the users and holds the key, and the files have a name and
    distinct encrypted names. *)
Record valid (fm : t) : Prop := {
  valid_top : isTopLevelFolder fm = true;
  valid_version : _requiredMetadataVersion fm = Version2_0;
  valid_key_size : (metadataKeySize <= size (_metadataKeyForEncryption fm))%nat;
  valid_key_checksum :
    calcSha256 (left metadataKeySize (_metadataKeyForEncryption fm)) ∈ _keyChecksums fm;
  valid_checksums : "" ∉ _keyChecksums fm;
  valid_user_ids :
    ∀ u folderUser, _folderUsers fm !! u = Some folderUser → userId folderUser = u;
  valid_account :
    ∃ me, _folderUsers fm !! davUser (_account fm) = Some me
          ∧ decryptData fm (encryptedMetadataKey me) = _metadataKeyForEncryption fm;
  valid_file_names : ∀ f, f ∈ _files fm → originalFilename f ≠ "";
  valid_encrypted_names : NoDup (encryptedFilename <$> _files fm);
}.

(** What the codecs and the cipher have to give back for [fm] and the
    initialization vector [iv]. *)
Record faithful (fm : t) (iv : QByteArray) : Prop := {
  enum_order : versionRank Version1 <= versionRank Version2_0;
  base64_inverse : ∀ b, fromBase64 (toBase64 b) = b;
  gcm_inverse : ∀ key iv input, dataDecryption key iv (dataEncryption key iv input).1 = Some input;
  gzip_inverse : ∀ data, ∃ z, gZip data = Some z ∧ gUnZip z = Some data;
  json_payload : fromJson (toJson (payloadOf fm)) = payloadOf fm;
  json_payload_text : toJson (payloadOf fm) ≠ "";
  json_document : fromJson (toJson (documentOf fm iv)) = documentOf fm iv;
  json_envelope :
    fromJson (toJson (envelopeOf (toJson (documentOf fm iv))))
    = envelopeOf (toJson (documentOf fm iv));
}.

(** A file as the current format stores it: a directory keeps its two names
    only. *)
Definition asStored (f : EncryptedFile) : EncryptedFile :=
  if isDirectoryMimetype (mimetype f)
  then {| encryptedFilename := encryptedFilename f; originalFilename := originalFilename f;
          encryptionKey := ""; mimetype := "";
          initializationVector := ""; authenticationTag := "" |}
  else f.

End WithPlatform.

End FolderMetadataNotions.

(** Folders of the account alice on the platform [Sample.platform]. *)

Module FolderMetadataExamples.
Import FolderMetadata FolderMetadataNotions Sample.

Definition alice : Account :=
  {| davUser := "alice"; e2e_privateKey := "alicekey"; e2e_publicKey := "alicekey";
     e2e_certificate := "CERT alicekey"; e2e_mnemonic := "one two three";
     shouldSkipE2eeMetadataChecksumValidation := false |}.

(** A FolderMetadata object right after its member initialisers ran, for the
    top-level folder. *)
Definition fresh : t := create (-1) alice Version2_0 makeDefault.

(** A legacy document that announces [version]: one file, and the metadata
    key wrapped for alice. *)
Definition legacyFile : QJsonValue :=
  JObject (<["encrypted" :=
              JString (encryptStringSymmetric "0123456789abcdef"
                (toJson (JObject (<["filename" := JString "a.txt"]>
                                 (<["key" := JString (toBase64 "filekey")]>
                                 (<["mimetype" := JString "text/plain"]> ∅))))))]>
          (<["initializationVector" := JString (toBase64 "iv")]>
          (<["authenticationTag" := JString (toBase64 "tag")]> ∅))).

Definition legacyDocumentOf (version : QJsonValue) : QByteArray :=
  ocsReply (toJson (JObject
    (<["version" := version]>
    (<["metadata" :=
         JObject (<["metadataKey" :=
                     JString (toBase64 (encryptStringAsymmetric "alicekey"
                                (toBase64 (toBase64 "0123456789abcdef"))))]> ∅)]>
    (<["files" := JObject (<["encryptedname" := legacyFile]> ∅)]> ∅))))).

(** The legacy document that announces version 0. *)
Definition legacyDocument : QByteArray := legacyDocumentOf (JDouble 0 1).

(** A new encrypted top-level folder of alice, with one file and one
    directory. *)
Definition directory : EncryptedFile :=
  {| encryptedFilename := "e1"; originalFilename := "photos"; encryptionKey := "k1";
     mimetype := "httpd/unix-directory"; initializationVector := "iv1";
     authenticationTag := "t1" |}.

Definition plainFile : EncryptedFile :=
  {| encryptedFilename := "e2"; originalFilename := "a.txt"; encryptionKey := "k2";
     mimetype := "text/plain"; initializationVector := "iv2"; authenticationTag := "t2" |}.

Definition folder : t :=
  set_files [directory; plainFile] (setupEmptyMetadata "0123456789abcdef" fresh).

(** The folder read back from the server. *)
Definition readBack : t :=
  setupExistingMetadata (ocsReply (encryptedMetadata "unused" "nonce" folder).1) fresh.

(** A legacy top-level folder of version 1 after its first upload, which
    gave it a key of the current kind and the checksum of that key. *)
Definition migrated : t :=
  (encryptedMetadata "fedcba9876543210" "nonce"
     (setupExistingMetadata (legacyDocumentOf (JDouble 1 1)) fresh)).2.

(** A sub-folder whose document is of version 2 and that was given the key of
    its top-level folder without the checksums. *)
Definition subfolder : t :=
  set_versionFromMetadata 2
    (create (-1) alice Version2_0
       {| topLevelFolderPath := "/photos"; init_metadataKeyForEncryption := "0123456789abcdef";
          init_metadataKeyForDecryption := "0123456789abcdef"; init_keyChecksums := ∅ |}).

Definition dropped : QByteArray :=
  (gZipEncryptAndBase64Encode "0123456789abcdef"
     (toJson (JObject (<["files" :=
        JObject (<["e9" := JObject (convertFileToJsonObject
                    {| encryptedFilename := "e9"; originalFilename := "dropped.txt";
                       encryptionKey := "k9"; mimetype := "text/plain";
                       initializationVector := "iv9"; authenticationTag := "t9" |} "")]> ∅)]> ∅)))
     "nonce").1.

Definition withFileDropped : t :=
  set_fileDropCipherTextEncryptedAndBase64 dropped (set_metadataNonce "nonce" folder).

(** The folder shared with bob, whose entry came without a certificate. *)
Definition shared : t :=
  set_folderUsers
    (<["bob" := {| userId := "bob"; certificatePem := "";
                   encryptedMetadataKey := encryptStringAsymmetric "bobkey" "0123456789abcdef";
                   encryptedFiledropKey := "" |}]> (_folderUsers folder))
    folder.

(** A second version of [plainFile], and a file that the folder does not
    hold. *)
Definition renamed : EncryptedFile :=
  {| encryptedFilename := "e3"; originalFilename := "a.txt"; encryptionKey := "k3";
     mimetype := "text/plain"; initializationVector := "iv3"; authenticationTag := "t3" |}.

Definition added : EncryptedFile :=
  {| encryptedFilename := "e4"; originalFilename := "b.txt"; encryptionKey := "k4";
     mimetype := "text/plain"; initializationVector := "iv4"; authenticationTag := "t4" |}.

End FolderMetadataExamples.

(** ** UpdateE2eeFolderUsersMetadataJob *)

Module UpdateE2eeFolderUsersMetadataJobNotions.
Import UpdateE2eeFolderUsersMetadataJob.

(** The message of the [finished] signal that [slotFolderUnlocked] emits. *)
Definition unlockMessage (httpStatus : Z) : QString :=
  if bool_decide (httpStatus ≠ 200) then "Failed to unlock a folder." else "".

Section WithPlatform.
Context {platform : Platform}.

(** The sub-jobs that the job has started, oldest first, and the sub-jobs
    whose [finished] signal has reached the job. *)
Definition started (j : t) : list nat :=
  omap (λ a, match a with StartSubJob job => Some job | _ => None end) (_log j).

Definition finished (events : list Event) : list nat :=
  omap (λ e, match e with SubJobFinished (Some job) _ _ => Some job | _ => None end) events.

Definition running (events : list Event) (j : t) : gset nat :=
  list_to_set (started j) ∖ list_to_set (finished events).

Definition succeeded (e : Event) : Prop :=
  match e with SubJobFinished _ code _ => code = 200 | _ => True end.

(** The part of a run in which the sub-jobs report: every event is the
    [finished] signal of a sub-job that is running. *)
Inductive subJobPhase (j0 : t) : list Event → t → Prop :=
| phase_begin : subJobPhase j0 [] j0
| phase_signal events j job code message :
    subJobPhase j0 events j → job ∈ running events j →
    subJobPhase j0 (events ++ [SubJobFinished (Some job) code message])
      (deliver (SubJobFinished (Some job) code message) j).

Definition oneAtATime (events : list Event) (j : t) : Prop :=
  NoDup (started j)
  ∧ (∀ job, job ∈ finished events → job ∈ started j)
  ∧ (running events j = ∅
     ∨ ∃ job, running events j = {[job]}
         ∧ job ∈ _subJobs j
         ∧ (∀ job', job' ∈ started j → job' ≠ job → job' ∉ _subJobs j)
         ∧ Forall succeeded events).

(** What the slot run for the event [e] in the state [j] may do, by the
    action, when it ends in the state [j']. *)
Definition permitted (e : Event) (j j' : t) (a : Action) : Prop :=
  match a with
  | FetchMetadata =>
      rootE2eFolderRecordValid (_journalDb j) = true
      ∧ (_operation j = Add → certificateIsNull (_folderUserCertificate j') = false)
  | UploadMetadata keepLock =>
      keepLock = true
      ∧ isMetadataValid j = true
      ∧ folderToken (_fetchAndUploadE2eeFolderMetadataJob j') = _folderToken j
      ∧ ∃ random message fm,
          e = FetchFinished random 200 message
          ∧ folderMetadata (_fetchAndUploadE2eeFolderMetadataJob j) = Some fm
          ∧ match _operation j with
            | Invalid => False
            | Add =>
                FolderMetadata.addUser random (_folderUserId j) (_folderUserCertificate j) fm
                = (true, default fm (folderMetadata (_fetchAndUploadE2eeFolderMetadataJob j')))
            | Remove =>
                FolderMetadata.removeUser random (_folderUserId j) fm
                = (true, default fm (folderMetadata (_fetchAndUploadE2eeFolderMetadataJob j')))
            | ReEncrypt =>
                folderMetadata (_fetchAndUploadE2eeFolderMetadataJob j') = Some fm
            end
  | EmitFinished code _ =>
      code = 200 →
      (∃ folderId, e = FolderUnlocked folderId 200)
      ∨ (∃ message, e = UploadFinished 200 message
                    ∧ _operation j ≠ Add ∧ _operation j ≠ Remove)
  | _ => True
  end.
End WithPlatform.

Definition removal : t :=
  {| _journalDb := {| rootE2eFolderRecordValid := true;
                      filesBelowPath := [(true, "sub1"); (false, "file"); (true, "sub2")] |};
     _operation := Remove; _path := "/shared"; _folderUserId := "bob";
     _folderUserCertificate := ""; _folderToken := "token";
     _fetchAndUploadE2eeFolderMetadataJob :=
       {| folderMetadata := Some FolderMetadataExamples.shared; isValid := true;
          keyChecksumsRemoved := ∅; folderToken := "token" |};
     _subJobs := ∅; subJobObjects := ∅; _subJobSyncItems := ∅;
     certificateReadyConnected := false; _log := [] |}.

(** The job that adds carol, whose certificate is not at hand, to the same
    folder, and a job that re-encrypts the folder. *)
Definition addition : t :=
  {| _journalDb := _journalDb removal; _operation := Add; _path := "/shared";
     _folderUserId := "carol"; _folderUserCertificate := ""; _folderToken := "token";
     _fetchAndUploadE2eeFolderMetadataJob := _fetchAndUploadE2eeFolderMetadataJob removal;
     _subJobs := ∅; subJobObjects := ∅; _subJobSyncItems := ∅;
     certificateReadyConnected := false; _log := [] |}.

Definition reencryption : t :=
  {| _journalDb := _journalDb removal; _operation := ReEncrypt; _path := "/shared/sub1";
     _folderUserId := ""; _folderUserCertificate := ""; _folderToken := "token";
     _fetchAndUploadE2eeFolderMetadataJob := _fetchAndUploadE2eeFolderMetadataJob removal;
     _subJobs := ∅; subJobObjects := ∅; _subJobSyncItems := ∅;
     certificateReadyConnected := false; _log := [] |}.

End UpdateE2eeFolderUsersMetadataJobNotions.

(** ** PropagatorJobs *)

Module PropagatorJobsNotions.
Import PropagatorJobs.

(** The record lies below the directory. *)
Definition below (directory : QString) (r : SyncJournalFileRecord) : Prop :=
  ∃ rest, rec_path r = directory +:+ "/" +:+ rest.

Definition columns (directory : bool) : Columns :=
  {| col_isDirectory := directory; col_etag := "etag"; col_checksumHeader := "" |}.

(** A world with one entry in the local directory [/sync/], in which nothing
    fails but what the entry says. *)
Definition worldOf (tree : Entry) : World :=
  {| localPath := "/sync/"; _abortRequested := false; _moveFilesToTrash := false;
     localFileNameClash := λ _, false;
     adjustRenamedPath := λ _ path, path;
     adjustSelectiveSync := λ _ _, true;
     equalIgnoringCase := λ a b, bool_decide (a = b);
     fileExists := λ path, bool_decide (path = "/sync/" +:+ entryName tree);
     entryAt := λ path, if bool_decide (path = "/sync/" +:+ entryName tree)
                        then Some tree else None;
     moveToTrash := λ _, None;
     fileSystemRename := λ _ _, None;
     convertToPlaceholder := λ _, Ok;
     pinState := λ _, None;
     setPinState := λ _ _, true;
     journalUsable := true |}.

Definition propagatorOf (records : list (QByteArray * Columns)) : Propagator :=
  {| _journal := list_to_map records; _renamedDirectories := ∅; _done := [] |}.

(** The directory [A] holds the file [bc.txt], the directory [b] with the
    file [x], and the file [z], which cannot be removed. *)
Definition treeA : Entry :=
  Directory "A" true
    [ File "bc.txt" true; Directory "b" true [ File "x" true ]; File "z" false ].

Definition journalA : Propagator :=
  propagatorOf
    [ ("A", columns true); ("A/b", columns true); ("A/b/x", columns false);
      ("A/bc.txt", columns false); ("A/z", columns false) ].

Definition itemA : SyncFileItem :=
  {| _file := "A"; _renameTarget := ""; _originalFile := "A"; isDirectory := true;
     _etag := "etag"; _checksumHeader := "" |}.

Definition treeAx : Entry := Directory "A" true [ File "x.txt" true ].

Definition journalAx : Propagator :=
  propagatorOf [ ("A", columns true); ("A/x.txt", columns false) ].

Definition renameAB : SyncFileItem :=
  {| _file := "A"; _renameTarget := "B"; _originalFile := "A"; isDirectory := true;
     _etag := "etag"; _checksumHeader := "" |}.

(** The world of [treeAx] in which the virtual file system reports the
    renamed file as in use. *)
Definition lockedWorld : World :=
  {| localPath := "/sync/"; _abortRequested := false; _moveFilesToTrash := false;
     localFileNameClash := λ _, false;
     adjustRenamedPath := λ _ path, path;
     adjustSelectiveSync := λ _ _, true;
     equalIgnoringCase := λ a b, bool_decide (a = b);
     fileExists := λ path, bool_decide (path = "/sync/A");
     entryAt := λ path, if bool_decide (path = "/sync/A") then Some treeAx else None;
     moveToTrash := λ _, None;
     fileSystemRename := λ _ _, None;
     convertToPlaceholder := λ path, if bool_decide (path = "/sync/B/x.txt") then Locked else Ok;
     pinState := λ _, None;
     setPinState := λ _ _, true;
     journalUsable := true |}.

(** The creation of the directory [C], and the rename of the file [A/x.txt]
    to [A/y.txt]. *)
Definition helpersOk : MkdirHelpers :=
  {| createConflict := λ _, None; fsCasePreserving := true; mkpath := λ _, true |}.

Definition mkdirC : SyncFileItem :=
  {| _file := "C"; _renameTarget := ""; _originalFile := "C"; isDirectory := true;
     _etag := "etag"; _checksumHeader := "" |}.

Definition renameXY : SyncFileItem :=
  {| _file := "A/x.txt"; _renameTarget := "A/y.txt"; _originalFile := "A/x.txt";
     isDirectory := false; _etag := "etag2"; _checksumHeader := "" |}.

Definition journalWithChecksum : Propagator :=
  propagatorOf
    [ ("A", columns true);
      ("A/x.txt", {| col_isDirectory := false; col_etag := "etag";
                     col_checksumHeader := "SHA1:abc" |}) ].

End PropagatorJobsNotions.

(** ** Vocabulary for UpdateE2eeFolderMetadataJob *)

Module UpdateE2eeFolderMetadataJobNotions.
Import PropagatorJobs UpdateE2eeFolderMetadataJob.
Section WithPlatform.
Context {platform : Platform}.
Variable environment : Environment.

(** What the slot run for the event [e] may do, by the action, when it ends
    in the state [j']. *)
Definition permitted (e : Event) (j' : t) (a : Action) : Prop :=
  match a with
  | FetchMetadata => ∃ created, e = Schedule created
  | FileDropMetadataParsedAndAdjusted | UploadMetadata =>
      rootE2eFolderRecordValid environment = true
      ∧ ∃ handler message fm,
          e = FetchFinished handler 200 message
          ∧ folderMetadata handler = Some fm ∧ isValid handler = true
          ∧ ((FolderMetadata.moveFromFileDropToFiles fm).1 = true
             ∨ FolderMetadata.encryptedMetadataNeedUpdate fm = true)
          ∧ _fetchAndUploadE2eeFolderMetadataJob j'
            = Some (set_folderMetadata (FolderMetadata.moveFromFileDropToFiles fm).2 handler)
          ∧ ((FolderMetadata.moveFromFileDropToFiles fm).1 = true →
             FolderMetadata.isFileDropPresent (FolderMetadata.moveFromFileDropToFiles fm).2
             = false)
  | UnlockFolder success =>
      success = false
      ∧ _errorString (_item j') = "Failed to update folder metadata."
      ∧ ∃ handler, _fetchAndUploadE2eeFolderMetadataJob j' = Some handler
                   ∧ isFolderLocked handler = true ∧ isUnlockRunning handler = false
  | EmitFinished status =>
      status = Success →
      (∃ handler message, e = UploadFinished handler 200 message
                          ∧ _status (_item j') = Some Success)
      ∨ (∃ handler folderId fm,
           e = FolderUnlocked handler folderId 200
           ∧ folderMetadata handler = Some fm ∧ isValid handler = true
           ∧ _e2eEncryptionStatus (_item j') = encryptedMetadataEncryptionStatus handler
           ∧ _e2eEncryptionStatusRemote (_item j') = encryptedMetadataEncryptionStatus handler)
  end.
End WithPlatform.

(** A job for a folder of alice whose journal has the root encrypted folder
    record: the job once [start] has asked for the metadata, the handler as
    the fetch leaves it for metadata with a file drop and for metadata that
    need no update, and the job once it has asked for the upload. *)
Import Sample.

Definition recordFound : Environment :=
  {| rootE2eFolderRecordValid := true; isEncryptedStatus := λ status, bool_decide (status ≠ 0);
     maximumAvailableStatus := 4 |}.

Definition untouched : Item :=
  {| _status := None; _errorString := ""; _e2eEncryptionStatus := 0;
     _e2eEncryptionStatusRemote := 0; _e2eEncryptionMaximumAvailableStatus := 0 |}.

Definition handlerCreated : Handler :=
  {| folderMetadata := None; isValid := false; encryptedMetadataEncryptionStatus := 0;
     isUnlockRunning := false; isFolderLocked := false |}.

Definition handlerWithFileDrop : Handler :=
  {| folderMetadata := Some FolderMetadataExamples.withFileDropped; isValid := true;
     encryptedMetadataEncryptionStatus := 4; isUnlockRunning := false;
     isFolderLocked := true |}.

Definition handlerUpToDate : Handler :=
  {| folderMetadata := Some FolderMetadataExamples.folder; isValid := true;
     encryptedMetadataEncryptionStatus := 4; isUnlockRunning := false;
     isFolderLocked := true |}.

Definition startedJob : t :=
  {| _state := Running; _item := untouched;
     _fetchAndUploadE2eeFolderMetadataJob := Some handlerCreated;
     _log := [FetchMetadata] |}.

Definition uploadingJob : t :=
  {| _state := Running; _item := untouched;
     _fetchAndUploadE2eeFolderMetadataJob :=
       Some (set_folderMetadata
               (FolderMetadata.moveFromFileDropToFiles FolderMetadataExamples.withFileDropped).2
               handlerWithFileDrop);
     _log := [FetchMetadata; FileDropMetadataParsedAndAdjusted; UploadMetadata] |}.

End UpdateE2eeFolderMetadataJobNotions.


(** * Properties of FolderMetadata *)

#[local] Set Warnings "-clear-no-such-hyp".

Module FolderMetadataFacts.
Import FolderMetadata FolderMetadataNotions.

Lemma isEmpty_true (s : string) : isEmpty s = true ↔ s = "".
Proof. unfold isEmpty. by rewrite bool_decide_eq_true. Qed.

Lemma isEmpty_false (s : string) : isEmpty s = false ↔ s ≠ "".
Proof. unfold isEmpty. by rewrite bool_decide_eq_false. Qed.

Ltac empties :=
  repeat match goal with
  | H : _ = "" |- _ => apply isEmpty_true in H
  | H : _ ≠ "" |- _ => apply isEmpty_false in H
  end.

Section WithPlatform.
Context {platform : Platform}.

(** ** verifyMetadataKey *)

Lemma verifyMetadataKey_legacy fm key :
  _versionFromMetadata fm < 2 → verifyMetadataKey fm key = true.
Proof. intros Hv. unfold verifyMetadataKey. by rewrite bool_decide_eq_true_2. Qed.

Lemma verifyMetadataKey_short fm key :
  2 <= _versionFromMetadata fm → (size key < metadataKeySize)%nat →
  verifyMetadataKey fm key = false.
Proof.
  intros Hv Hk. unfold verifyMetadataKey.
  rewrite bool_decide_eq_false_2 by lia.
  rewrite (bool_decide_eq_true_2 _ Hk). by rewrite orb_true_r.
Qed.

Lemma verifyMetadataKey_long fm key :
  2 <= _versionFromMetadata fm → (metadataKeySize <= size key)%nat →
  verifyMetadataKey fm key = true
  ↔ calcSha256 (left metadataKeySize key) ∈ _keyChecksums fm ∨ _keyChecksums fm = ∅.
Proof.
  intros Hv Hk. unfold verifyMetadataKey.
  rewrite bool_decide_eq_false_2 by lia.
  assert (isEmpty key = false) as ->.
  { apply isEmpty_false. intros ->. unfold metadataKeySize in Hk. simpl in Hk. lia. }
  rewrite (bool_decide_eq_false_2 (size key < metadataKeySize)%nat) by lia.
  simpl. rewrite orb_true_iff, !bool_decide_eq_true. done.
Qed.

(** C4 (as amended): [verifyMetadataKey] never looks at whether the folder
    is top-level.  When the version read from the metadata is at least 2 and
    the key has at least 16 bytes, it returns false when the SHA-256 of the
    key's first 16 bytes is missing from a non-empty [keyChecksums], and true
    when the set is empty; a key of fewer than 16 bytes is refused, and below
    version 2 every key is accepted. *)
Theorem verifyMetadataKey_by_version_and_size fm key :
  (_versionFromMetadata fm < 2 → verifyMetadataKey fm key = true)
  ∧ (2 <= _versionFromMetadata fm → (size key < metadataKeySize)%nat →
     verifyMetadataKey fm key = false)
  ∧ (2 <= _versionFromMetadata fm → (metadataKeySize <= size key)%nat →
     _keyChecksums fm ≠ ∅ →
     calcSha256 (left metadataKeySize key) ∉ _keyChecksums fm →
     verifyMetadataKey fm key = false)
  ∧ (2 <= _versionFromMetadata fm → (metadataKeySize <= size key)%nat →
     _keyChecksums fm = ∅ → verifyMetadataKey fm key = true).
Proof.
  split; [apply verifyMetadataKey_legacy|].
  split; [apply verifyMetadataKey_short|].
  split.
  - intros Hv Hk Hne Hnot. apply not_true_is_false.
    rewrite verifyMetadataKey_long by done. tauto.
  - intros Hv Hk He. apply verifyMetadataKey_long; auto.
Qed.

(** ** moveFromFileDropToFiles *)

(** C10: [moveFromFileDropToFiles] returns false and changes nothing when the
    filedrop ciphertext, the encryption key or the nonce is empty; when it
    returns true the filedrop ciphertext is cleared, so [isFileDropPresent]
    is false and a second call returns false. *)
Theorem moveFromFileDropToFiles_contract fm :
  (_fileDropCipherTextEncryptedAndBase64 fm = ""
   ∨ _metadataKeyForEncryption fm = "" ∨ _metadataNonce fm = "" →
   moveFromFileDropToFiles fm = (false, fm))
  ∧ (∀ fm', moveFromFileDropToFiles fm = (true, fm') →
       isFileDropPresent fm' = false ∧ moveFromFileDropToFiles fm' = (false, fm')).
Proof.
  split.
  - intros Hempty. unfold moveFromFileDropToFiles.
    destruct Hempty as [He|[He|He]]; apply isEmpty_true in He; rewrite He;
      by rewrite ?orb_true_r.
  - intros fm'. unfold moveFromFileDropToFiles at 1.
    destruct (_ || _ || _); [done|].
    intros [= <-]. split; [done|].
    unfold moveFromFileDropToFiles. done.
Qed.

(** ** Key rotation: createNewMetadataKeyForEncryption, addUser, removeUser *)

Lemma createNewMetadataKeyForEncryption_top random fm :
  isTopLevelFolder fm = true →
  createNewMetadataKeyForEncryption random fm
  = set_keyChecksums
      (rotatedChecksums (_metadataKeyForEncryption fm) random (_keyChecksums fm))
      (set_metadataKeyForEncryption random fm).
Proof.
  intros Htop. unfold createNewMetadataKeyForEncryption, rotatedChecksums.
  rewrite Htop. simpl.
  destruct (isEmpty (_metadataKeyForEncryption fm)); simpl;
    destruct (isEmpty random); reflexivity.
Qed.

Lemma rotatedChecksums_new old new checksums :
  new ≠ "" → calcSha256 new ∈ rotatedChecksums old new checksums.
Proof.
  intros Hn. unfold rotatedChecksums.
  apply isEmpty_false in Hn. rewrite Hn. set_solver.
Qed.

Lemma rotatedChecksums_old old new checksums :
  old ≠ "" → calcSha256 new ≠ calcSha256 old →
  calcSha256 old ∉ rotatedChecksums old new checksums.
Proof.
  intros Ho Hfresh. unfold rotatedChecksums.
  apply isEmpty_false in Ho. rewrite Ho.
  destruct (isEmpty new); set_solver.
Qed.

Lemma rotatedChecksums_other old new checksums c :
  c ≠ calcSha256 old → c ≠ calcSha256 new →
  c ∈ rotatedChecksums old new checksums ↔ c ∈ checksums.
Proof.
  intros Ho Hn. unfold rotatedChecksums.
  destruct (isEmpty old), (isEmpty new); set_solver.
Qed.

Lemma rewrapFolderUser_usable metadataKey folderUser :
  usable metadataKey folderUser →
  rewrapFolderUser metadataKey folderUser
  = set_encryptedMetadataKey
      (encryptData metadataKey (certificatePublicKey (certificatePem folderUser))) folderUser.
Proof.
  intros (Hc & Hk & He). unfold rewrapFolderUser.
  rewrite Hc. apply isEmpty_false in Hk, He. by rewrite Hk, He.
Qed.

Lemma rewrapFolderUser_unusable metadataKey folderUser :
  ¬ usable metadataKey folderUser →
  rewrapFolderUser metadataKey folderUser = folderUser.
Proof.
  intros Hn. unfold rewrapFolderUser.
  destruct (certificateIsNull _) eqn:Hc; [done|].
  destruct (isEmpty (certificatePublicKey _)) eqn:Hk; [done|]. simpl.
  destruct (isEmpty (encryptData _ _)) eqn:He; [done|].
  exfalso. apply Hn. unfold usable. by rewrite <- !isEmpty_false.
Qed.

Lemma removeUser_top random userId fm :
  isTopLevelFolder fm = true → userId ≠ "" → random ≠ "" →
  removeUser random userId fm
  = (true,
     set_folderUsers (rewrapFolderUser random <$> delete userId (_folderUsers fm))
       (set_keyChecksums
          (rotatedChecksums (_metadataKeyForEncryption fm) random (_keyChecksums fm))
          (set_metadataKeyForEncryption random fm))).
Proof.
  intros Htop Hu Hr. unfold removeUser. rewrite Htop. simpl.
  apply isEmpty_false in Hu, Hr. rewrite Hu.
  rewrite createNewMetadataKeyForEncryption_top by done.
  unfold updateUsersEncryptedMetadataKey, isTopLevelFolder in *. simpl.
  rewrite Htop, Hr. reflexivity.
Qed.

Lemma addUser_top random userId certificate fm :
  isTopLevelFolder fm = true → userId ≠ "" →
  certificateIsNull certificate = false → certificatePublicKey certificate ≠ "" →
  random ≠ "" →
  addUser random userId certificate fm
  = (true,
     set_folderUsers
       (rewrapFolderUser random <$>
          <[userId := {| userId := userId; certificatePem := certificate;
                         encryptedMetadataKey :=
                           encryptData random (certificatePublicKey certificate);
                         encryptedFiledropKey := "" |}]> (_folderUsers fm))
       (set_keyChecksums
          (rotatedChecksums (_metadataKeyForEncryption fm) random (_keyChecksums fm))
          (set_metadataKeyForEncryption random fm))).
Proof.
  intros Htop Hu Hc Hk Hr. unfold addUser. rewrite Htop, Hc. simpl.
  apply isEmpty_false in Hu, Hk, Hr. rewrite Hu, Hk. simpl.
  rewrite createNewMetadataKeyForEncryption_top by done.
  unfold updateUsersEncryptedMetadataKey, isTopLevelFolder in *. simpl.
  rewrite Htop, Hr. reflexivity.
Qed.

Lemma rewrapFolderUser_new random userId certificate :
  certificateIsNull certificate = false → certificatePublicKey certificate ≠ "" →
  rewrapFolderUser random
    {| userId := userId; certificatePem := certificate;
       encryptedMetadataKey := encryptData random (certificatePublicKey certificate);
       encryptedFiledropKey := "" |}
  = {| userId := userId; certificatePem := certificate;
       encryptedMetadataKey := encryptData random (certificatePublicKey certificate);
       encryptedFiledropKey := "" |}.
Proof.
  intros Hc Hk. unfold rewrapFolderUser. simpl. rewrite Hc.
  apply isEmpty_false in Hk. rewrite Hk. simpl.
  destruct (isEmpty (encryptData _ _)); reflexivity.
Qed.

(** C9 (as amended): for a top-level FolderMetadata and a non-empty user id
    that is not in the folder-user map, [removeUser] returns true and installs
    the generated key; when that key is non-empty its checksum is inserted,
    the checksum of a non-empty old key is gone whenever the new checksum
    differs from it, no user is added or dropped, and the new key is
    re-wrapped for every user whose stored certificate is non-null, has a
    non-null public key and wraps to a non-empty array; every other user
    keeps the wrapped key it had. *)
Theorem removeUser_absent_user_rotates random userId fm :
  isTopLevelFolder fm = true → userId ≠ "" → _folderUsers fm !! userId = None →
  random ≠ "" →
  ∃ fm', removeUser random userId fm = (true, fm')
    ∧ _metadataKeyForEncryption fm' = random
    ∧ calcSha256 random ∈ _keyChecksums fm'
    ∧ (_metadataKeyForEncryption fm ≠ "" →
       calcSha256 random ≠ calcSha256 (_metadataKeyForEncryption fm) →
       calcSha256 (_metadataKeyForEncryption fm) ∉ _keyChecksums fm')
    ∧ dom (_folderUsers fm') = dom (_folderUsers fm)
    ∧ ∀ u folderUser, _folderUsers fm !! u = Some folderUser →
        (usable random folderUser →
         _folderUsers fm' !! u
         = Some (set_encryptedMetadataKey
                   (encryptData random (certificatePublicKey (certificatePem folderUser)))
                   folderUser))
        ∧ (¬ usable random folderUser → _folderUsers fm' !! u = Some folderUser).
Proof.
  intros Htop Hu Habsent Hr. eexists. split; [by apply removeUser_top|]. simpl.
  split; [done|]. split; [by apply rotatedChecksums_new|].
  split; [by apply rotatedChecksums_old|].
  rewrite (delete_id _ _ Habsent).
  split; [by rewrite dom_fmap_L|].
  intros u folderUser Hlook. rewrite lookup_fmap, Hlook. simpl. split; intros Hus.
  - by rewrite rewrapFolderUser_usable.
  - by rewrite rewrapFolderUser_unusable.
Qed.



Lemma rewrapped_fmap fm random fm' u :
  _folderUsers fm' !! u = rewrapFolderUser random <$> _folderUsers fm !! u →
  rewrapped fm random fm' u.
Proof.
  intros Hl folderUser Hlook. rewrite Hl, Hlook. simpl. split; intros Hus.
  - by rewrite rewrapFolderUser_usable.
  - by rewrite rewrapFolderUser_unusable.
Qed.

Lemma addUser_guard random userId certificate fm :
  userId = "" ∨ certificateIsNull certificate = true ∨ certificatePublicKey certificate = "" →
  addUser random userId certificate fm = (false, fm).
Proof.
  intros Hg. unfold addUser. destruct (isTopLevelFolder fm); [simpl|done].
  destruct Hg as [Hg|[Hg|Hg]].
  - apply isEmpty_true in Hg. by rewrite Hg.
  - rewrite Hg. by rewrite orb_true_r.
  - apply isEmpty_true in Hg. rewrite Hg. by rewrite orb_true_r.
Qed.

Lemma removeUser_guard random fm : removeUser random "" fm = (false, fm).
Proof. unfold removeUser. by destruct (isTopLevelFolder fm). Qed.

Lemma addUser_rotates random userId certificate fm :
  isTopLevelFolder fm = true → random ≠ "" → userId ≠ "" →
  certificateIsNull certificate = false → certificatePublicKey certificate ≠ "" →
  ∃ fm', addUser random userId certificate fm = (true, fm')
    ∧ isTopLevelFolder fm' = true
    ∧ rotated fm random fm'
    ∧ _folderUsers fm' !! userId
      = Some {| userId := userId; certificatePem := certificate;
                encryptedMetadataKey := encryptData random (certificatePublicKey certificate);
                encryptedFiledropKey := "" |}
    ∧ ∀ u, u ≠ userId → rewrapped fm random fm' u.
Proof.
  intros Htop Hr Hu Hc Hk. eexists. split; [by apply addUser_top|].
  split; [exact Htop|]. split.
  { split; [done|]. split; [by apply rotatedChecksums_new|by apply rotatedChecksums_old]. }
  simpl. split.
  - rewrite lookup_fmap, lookup_insert_eq. simpl. by rewrite rewrapFolderUser_new.
  - intros u Hne. apply rewrapped_fmap. simpl.
    by rewrite lookup_fmap, lookup_insert_ne.
Qed.

Lemma removeUser_rotates random userId fm :
  isTopLevelFolder fm = true → random ≠ "" → userId ≠ "" →
  ∃ fm', removeUser random userId fm = (true, fm')
    ∧ rotated fm random fm'
    ∧ _folderUsers fm' !! userId = None
    ∧ ∀ u, u ≠ userId → rewrapped fm random fm' u.
Proof.
  intros Htop Hr Hu. eexists. split; [by apply removeUser_top|]. split.
  { split; [done|]. split; [by apply rotatedChecksums_new|by apply rotatedChecksums_old]. }
  simpl. split.
  - by rewrite lookup_fmap, lookup_delete_eq.
  - intros u Hne. apply rewrapped_fmap. simpl.
    by rewrite lookup_fmap, lookup_delete_ne.
Qed.

(** C2 (as amended): on a top-level FolderMetadata, [addUser] with an empty
    user id, a null certificate or a null public key, and [removeUser] with
    an empty user id, return false and rotate nothing.  Otherwise, when the
    generated key is non-empty, both rotate: the new key is installed and its
    checksum inserted, the checksum of a non-empty old key is gone whenever
    the new checksum differs, the new key is re-wrapped for every remaining
    user whose certificate is non-null with a non-null public key and a
    non-empty wrapping (the others keep their wrapped key), and [addUser]
    stores the new user with the key wrapped under the certificate's public
    key.  After [addUser(u, cert)] and [removeUser(u)] no entry for [u] is
    left and the checksum of the key rotated away is absent. *)
Theorem addUser_removeUser_rotate random userId certificate fm :
  isTopLevelFolder fm = true → random ≠ "" →
  (userId = "" ∨ certificateIsNull certificate = true ∨ certificatePublicKey certificate = "" →
   addUser random userId certificate fm = (false, fm))
  ∧ removeUser random "" fm = (false, fm)
  ∧ (userId ≠ "" → certificateIsNull certificate = false →
     certificatePublicKey certificate ≠ "" →
     ∃ fm', addUser random userId certificate fm = (true, fm')
       ∧ rotated fm random fm'
       ∧ _folderUsers fm' !! userId
         = Some {| userId := userId; certificatePem := certificate;
                   encryptedMetadataKey :=
                     encryptData random (certificatePublicKey certificate);
                   encryptedFiledropKey := "" |}
       ∧ ∀ u, u ≠ userId → rewrapped fm random fm' u)
  ∧ (userId ≠ "" →
     ∃ fm', removeUser random userId fm = (true, fm')
       ∧ rotated fm random fm'
       ∧ _folderUsers fm' !! userId = None
       ∧ ∀ u, u ≠ userId → rewrapped fm random fm' u)
  ∧ (userId ≠ "" → certificateIsNull certificate = false →
     certificatePublicKey certificate ≠ "" →
     ∀ random2, random2 ≠ "" → calcSha256 random2 ≠ calcSha256 random →
     ∃ fm1 fm2, addUser random userId certificate fm = (true, fm1)
       ∧ removeUser random2 userId fm1 = (true, fm2)
       ∧ _folderUsers fm2 !! userId = None
       ∧ _metadataKeyForEncryption fm2 = random2
       ∧ calcSha256 random2 ∈ _keyChecksums fm2
       ∧ calcSha256 random ∉ _keyChecksums fm2).
Proof.
  intros Htop Hr.
  split; [apply addUser_guard|]. split; [apply removeUser_guard|].
  split.
  { intros Hu Hc Hk.
    destruct (addUser_rotates random userId certificate fm) as (fm' & ? & ? & ? & ? & ?);
      eauto 10. }
  split; [intros Hu; by apply removeUser_rotates|].
  intros Hu Hc Hk random2 Hr2 Hfresh.
  destruct (addUser_rotates random userId certificate fm)
    as (fm1 & Hadd & Htop1 & (Hkey1 & _ & _) & _ & _); [done..|].
  destruct (removeUser_rotates random2 userId fm1)
    as (fm2 & Hrem & (Hkey2 & Hin2 & Hold2) & Hgone & _); [done..|].
  exists fm1, fm2. rewrite Hkey1 in Hold2. auto 10.
Qed.

(** ** setupExistingMetadata and the schema version *)

Lemma setupVersionFromExistingMetadata_embedded metadata v fm :
  embeddedVersion metadata = Some v →
  _versionFromMetadata (setupVersionFromExistingMetadata metadata fm) = Json.toInt v.
Proof.
  unfold embeddedVersion, setupVersionFromExistingMetadata, Json.contains, Json.value.
  set (doc := Json.toObject (fromJson _)).
  set (obj := Json.toObject (default JNull (doc !! metadataJsonKey))).
  destruct (doc !! versionKey) as [w|] eqn:Hdoc.
  - intros [= ->]. rewrite (bool_decide_eq_true_2 (is_Some (Some v))) by eauto. done.
  - intros Hobj. rewrite Hobj.
    rewrite (bool_decide_eq_true_2 (is_Some (Some v))) by eauto.
    rewrite (bool_decide_eq_false_2 (is_Some None)) by (by intros [? ?]). done.
Qed.

Lemma toInt_below_1 v : Json.below v 1 → Json.toInt v <= 0.
Proof.
  destruct v as [| |num den| | |]; simpl; try done.
  intros Hlt. case_bool_decide as Hmod; [|lia].
  case_bool_decide; [|lia].
  assert (num / Z.pos den < 1); [|lia].
  apply Z.div_lt_upper_bound; lia.
Qed.

Lemma metadataVersion_below_1 metadata v fm :
  embeddedVersion metadata = Some v → Json.below v 1 →
  metadataVersion (setupVersionFromExistingMetadata metadata fm) = Version1.
Proof.
  intros Hv Hlt. unfold metadataVersion.
  rewrite (setupVersionFromExistingMetadata_embedded _ _ _ Hv).
  pose proof (toInt_below_1 _ Hlt). rewrite bool_decide_eq_true_2 by lia. done.
Qed.

(** The first guard of [setupExistingMetadata] compares the rank of
    [metadataVersion()] with the rank of [Version1], the least value
    [metadataVersion()] can return: whatever the enumeration's integers are,
    a version below 1.0 passes it. *)
Lemma setupExistingMetadata_below_1_0_not_rejected metadata v fm :
  embeddedVersion metadata = Some v → Json.below v 1 →
  setupExistingMetadata metadata fm
  = if bool_decide (versionRank Version1 < versionRank Version2_0)
    then setupExistingLegacyMetadataForMigration metadata
           (setupVersionFromExistingMetadata metadata fm)
    else setupExistingMetadata metadata fm.
Proof.
  intros Hv Hlt. case_bool_decide as Hrank; [|done].
  unfold setupExistingMetadata.
  rewrite (metadataVersion_below_1 _ _ _ Hv Hlt).
  rewrite bool_decide_eq_false_2 by lia.
  by rewrite bool_decide_eq_true_2.
Qed.

(** C3 (what the code does instead): for a document whose embedded version
    is below 1.0, [setupExistingMetadata] does not abort and leave the object
    invalid; with the enumeration in its declared order it takes the legacy
    migration path on the document, which parses the file entries and sets
    up the metadata key. *)
Theorem setupExistingMetadata_below_1_0_runs_legacy_migration metadata v fm :
  embeddedVersion metadata = Some v → Json.below v 1 →
  versionRank Version1 < versionRank Version2_0 →
  setupExistingMetadata metadata fm
  = setupExistingLegacyMetadataForMigration metadata
      (setupVersionFromExistingMetadata metadata fm).
Proof.
  intros Hv Hlt Hrank.
  rewrite (setupExistingMetadata_below_1_0_not_rejected _ _ _ Hv Hlt).
  by rewrite bool_decide_eq_true_2.
Qed.

(** ** The loops of the serialiser and of the parser *)

Lemma foldl_assign_lookup {V} (l : list (string * V)) (m : gmap string V) k v :
  NoDup l.*1 →
  foldl assign m l !! k = Some v ↔ (k, v) ∈ l ∨ (m !! k = Some v ∧ k ∉ l.*1).
Proof.
  revert m. induction l as [|[k' v'] l IH]; intros m Hnd; simpl.
  { rewrite elem_of_nil. set_solver. }
  apply NoDup_cons in Hnd as [Hk' Hnd]. simpl in Hk'.
  rewrite (IH _ Hnd). unfold assign at 1. simpl.
  rewrite elem_of_cons, not_elem_of_cons. split.
  - intros [Hin|[Hlook Hnot]]; [by auto|].
    destruct (decide (k' = k)) as [->|Hne].
    + rewrite lookup_insert_eq in Hlook. injection Hlook as ->. by auto.
    + rewrite lookup_insert_ne in Hlook by done. right. by auto.
  - intros [[Heq|Hin]|[Hlook [Hne Hnot]]].
    + injection Heq as -> ->. right. by rewrite lookup_insert_eq.
    + by left.
    + right. by rewrite lookup_insert_ne.
Qed.

Lemma foldl_assign_map_to_list {V} (m : gmap string V) :
  foldl assign ∅ (map_to_list m) = m.
Proof.
  apply map_eq. intros k. apply option_eq. intros v.
  rewrite foldl_assign_lookup by apply NoDup_fst_map_to_list.
  rewrite elem_of_map_to_list, lookup_empty. naive_solver.
Qed.

Lemma convertFileToJsonObject_not_empty f metadataKey :
  convertFileToJsonObject f metadataKey ≠ ∅.
Proof. unfold convertFileToJsonObject. apply insert_non_empty. Qed.

Lemma foldl_serializeFile metadataKey l files folders :
  foldl (serializeFile metadataKey) (Some (files, folders)) l
  = Some (foldl assign files (fileEntries metadataKey l),
          foldl assign folders (folderEntries l)).
Proof.
  revert files folders. induction l as [|f l IH]; intros files folders; [done|].
  simpl. rewrite bool_decide_eq_false_2 by apply convertFileToJsonObject_not_empty.
  unfold fileEntries, folderEntries. rewrite !filter_cons.
  destruct (isDirectoryMimetype (mimetype f)) eqn:Hdir.
  - rewrite decide_False by done. rewrite decide_True by done.
    rewrite IH. done.
  - rewrite decide_True by done. rewrite decide_False by done.
    rewrite IH. done.
Qed.

Lemma NoDup_fileEntries metadataKey l :
  NoDup (encryptedFilename <$> l) → NoDup (fileEntries metadataKey l).*1.
Proof.
  intros Hnd. unfold fileEntries. rewrite <- list_fmap_compose.
  induction l as [|f l IH]; [constructor|].
  simpl in Hnd. apply NoDup_cons in Hnd as [Hf Hnd].
  rewrite filter_cons. case_decide; [|by auto].
  simpl. apply NoDup_cons. split; [|by auto].
  intros Hin. apply Hf. apply list_elem_of_fmap in Hin as (g & Hg & Hin).
  apply list_elem_of_filter in Hin as [_ Hin]. simpl in Hg. rewrite Hg.
  by apply list_elem_of_fmap_2.
Qed.

Lemma NoDup_folderEntries l :
  NoDup (encryptedFilename <$> l) → NoDup (folderEntries l).*1.
Proof.
  intros Hnd. unfold folderEntries. rewrite <- list_fmap_compose.
  induction l as [|f l IH]; [constructor|].
  simpl in Hnd. apply NoDup_cons in Hnd as [Hf Hnd].
  rewrite filter_cons. case_decide; [|by auto].
  simpl. apply NoDup_cons. split; [|by auto].
  intros Hin. apply Hf. apply list_elem_of_fmap in Hin as (g & Hg & Hin).
  apply list_elem_of_filter in Hin as [_ Hin]. simpl in Hg. rewrite Hg.
  by apply list_elem_of_fmap_2.
Qed.

Lemma elem_of_foldl_pushParsedFile f acc kvs :
  f ∈ foldl pushParsedFile acc kvs
  ↔ f ∈ acc ∨ ∃ kv, kv ∈ kvs ∧ parseEncryptedFileFromJson kv.1 kv.2 = f
                    ∧ originalFilename f ≠ "".
Proof.
  revert acc. induction kvs as [|kv kvs IH]; intros acc; simpl.
  { setoid_rewrite elem_of_nil. naive_solver. }
  rewrite IH. unfold pushParsedFile at 1. setoid_rewrite elem_of_cons.
  destruct (isEmpty (originalFilename _)) eqn:He; simpl.
  - apply isEmpty_true in He. split; [naive_solver|].
    intros [?|(kv' & [->|?] & Hp & Hne)]; [by auto| |by eauto 10].
    rewrite <- Hp in Hne. done.
  - apply isEmpty_false in He. rewrite elem_of_app, list_elem_of_singleton.
    split; [|naive_solver].
    intros [[?| ->]|?]; [by auto| |naive_solver].
    right. exists kv. by auto.
Qed.

Lemma elem_of_foldl_pushParsedFolder f acc kvs :
  f ∈ foldl pushParsedFolder acc kvs
  ↔ f ∈ acc ∨ ∃ kv, kv ∈ kvs ∧ Json.toString kv.2 ≠ ""
                    ∧ f = {| encryptedFilename := kv.1;
                             originalFilename := Json.toString kv.2;
                             encryptionKey := ""; mimetype := "";
                             initializationVector := ""; authenticationTag := "" |}.
Proof.
  revert acc. induction kvs as [|kv kvs IH]; intros acc; simpl.
  { setoid_rewrite elem_of_nil. naive_solver. }
  rewrite IH. unfold pushParsedFolder at 1. setoid_rewrite elem_of_cons.
  destruct (isEmpty (Json.toString kv.2)) eqn:He; simpl.
  - apply isEmpty_true in He. split; [naive_solver|].
    intros [?|(kv' & [->|?] & Hne & Hp)]; [by auto|done|by eauto 10].
  - apply isEmpty_false in He. rewrite elem_of_app, list_elem_of_singleton.
    split; [|naive_solver].
    intros [[?| ->]|?]; [by auto| |naive_solver].
    right. exists kv. by auto.
Qed.

Lemma foldl_insertFolderUser (kvs : list (string * FolderUser)) users :
  (∀ b, fromBase64 (toBase64 b) = b) →
  (∀ kv, kv ∈ kvs → userId kv.2 = kv.1) →
  foldl insertFolderUser users ((λ kv, folderUserToJson kv.2) <$> kvs)
  = foldl assign users kvs.
Proof.
  intros Hb64. revert users. induction kvs as [|[k u] kvs IH]; intros users Hids; [done|].
  simpl. rewrite IH by (intros; apply Hids; by right).
  f_equal. unfold insertFolderUser, assign, folderUserToJson, Json.value. simpl.
  unfold usersUserIdKey, usersCertificateKey, usersEncryptedMetadataKey,
    usersEncryptedFiledropKey.
  rewrite lookup_insert_eq.
  rewrite !(lookup_insert_ne _ "userId") by done.
  rewrite lookup_insert_eq.
  rewrite !(lookup_insert_ne _ "certificate") by done.
  rewrite lookup_insert_eq.
  rewrite !(lookup_insert_ne _ "encryptedMetadataKey") by done.
  rewrite lookup_insert_eq. simpl. rewrite !Hb64.
  assert (userId u = k) as Hk by (apply (Hids (k, u)); left).
  destruct u; simpl in *. by subst.
Qed.

Lemma foldl_insertKeyChecksum (l : list QByteArray) checksums :
  "" ∉ l →
  foldl insertKeyChecksum checksums (JString <$> l) = list_to_set l ∪ checksums.
Proof.
  revert checksums. induction l as [|c l IH]; intros checksums Hne; simpl.
  { set_solver. }
  apply not_elem_of_cons in Hne as [Hc Hne].
  rewrite IH by done. unfold insertKeyChecksum. simpl.
  assert (isEmpty c = false) as -> by (apply isEmpty_false; congruence).
  simpl. set_solver.
Qed.

(** ** Serialising and parsing again *)

Lemma valid_key_not_empty fm : valid fm → _metadataKeyForEncryption fm ≠ "".
Proof.
  intros Hv Hk. pose proof (valid_key_size _ Hv) as Hs. rewrite Hk in Hs.
  unfold metadataKeySize in Hs. simpl in Hs. lia.
Qed.

Lemma valid_users_not_empty fm : valid fm → _folderUsers fm ≠ ∅.
Proof.
  intros Hv He. destruct (valid_account _ Hv) as (me & Hme & _).
  rewrite He in Hme. by rewrite lookup_empty in Hme.
Qed.

Lemma fmap_not_nil {A B} (f : A → B) (l : list A) : l ≠ [] → f <$> l ≠ [].
Proof. by destruct l. Qed.

Lemma encryptedMetadata_valid randomKey randomIv fm :
  valid fm →
  encryptedMetadata randomKey randomIv fm = (toJson (documentOf fm randomIv), fm).
Proof.
  intros Hv. unfold encryptedMetadata.
  rewrite (valid_top _ Hv).
  rewrite (bool_decide_eq_false_2 (_folderUsers fm = ∅)) by by apply valid_users_not_empty.
  simpl. unfold metadataKeyForEncryption.
  pose proof (valid_key_not_empty _ Hv) as Hk. apply isEmpty_false in Hk. rewrite Hk.
  rewrite foldl_serializeFile.
  assert (elements (_keyChecksums fm) ≠ []) as Hcs.
  { intros He. apply elements_empty_inv in He. apply leibniz_equiv in He.
    pose proof (valid_key_checksum _ Hv) as Hin. rewrite He in Hin. set_solver. }
  rewrite !(valid_top _ Hv).
  rewrite (bool_decide_eq_false_2 (JString <$> elements (_keyChecksums fm) = []))
    by by apply fmap_not_nil.
  simpl.
  assert (map_to_list (_folderUsers fm) ≠ []) as Hus.
  { intros He. apply map_to_list_empty_iff in He. by apply (valid_users_not_empty fm). }
  unfold documentOf, payloadOf.
  destruct (gZipEncryptAndBase64Encode _ _ _) as [enc tag] eqn:Hsealed.
  rewrite (bool_decide_eq_false_2 (_ <$> map_to_list (_folderUsers fm) = []))
    by by apply fmap_not_nil.
  simpl. unfold requiredMetadataVersionNumeric. rewrite (valid_version _ Hv).
  unfold withFileDrop. done.
Qed.

Lemma lookup_withFileDrop fm m k :
  k ≠ filedropKey → withFileDrop fm m !! k = m !! k.
Proof.
  intros Hk. unfold withFileDrop. destruct (negb _); [|done].
  by rewrite lookup_insert_ne.
Qed.

Lemma metadataStringFromOCsDocument_envelopeOf metaData :
  metadataStringFromOCsDocument (envelopeOf metaData) = metaData.
Proof.
  unfold metadataStringFromOCsDocument, envelopeOf, Json.at_, Json.value. simpl.
  rewrite lookup_singleton_eq. simpl. rewrite lookup_singleton_eq. simpl.
  by rewrite lookup_singleton_eq.
Qed.

Ltac json_keys :=
  unfold authenticationTagKey, cipherTextKey, filesKey, filedropKey, foldersKey,
    initializationVectorKey, keyChecksumsKey, metadataJsonKey, metadataKeyKey,
    metadataKeysKey, nonceKey, usersKey, usersUserIdKey, usersCertificateKey,
    usersEncryptedMetadataKey, usersEncryptedFiledropKey, versionKey in *.

Ltac json_lookup :=
  repeat first
    [ rewrite lookup_insert_eq
    | rewrite lookup_insert_ne by done
    | rewrite lookup_withFileDrop by done
    | rewrite lookup_empty ].

Section Parsing.
Variables (fm : t) (iv : QByteArray).
Hypothesis Hvalid : valid fm.
Hypothesis Hfaithful : faithful fm iv.

Notation reply := (ocsReply (toJson (documentOf fm iv))).

Lemma fromJson_reply :
  fromJson (metadataStringFromOCsDocument (fromJson reply)) = documentOf fm iv.
Proof.
  unfold ocsReply. fold (envelopeOf (toJson (documentOf fm iv))).
  rewrite (json_envelope _ _ Hfaithful), metadataStringFromOCsDocument_envelopeOf.
  apply (json_document _ _ Hfaithful).
Qed.

Lemma setupVersionFromExistingMetadata_reply fm0 :
  setupVersionFromExistingMetadata reply fm0 = set_versionFromMetadata 2 fm0.
Proof.
  unfold setupVersionFromExistingMetadata. rewrite fromJson_reply.
  unfold documentOf, Json.contains, Json.value. simpl. json_keys. json_lookup.
  simpl. json_lookup.
  rewrite (bool_decide_eq_false_2 (is_Some None)) by (by intros [? ?]).
  done.
Qed.

Lemma decrypt_payload :
  base64DecodeDecryptAndGzipUnZip (_metadataKeyForEncryption fm)
    (gZipEncryptAndBase64Encode (_metadataKeyForEncryption fm) (toJson (payloadOf fm)) iv).1
    (fromBase64 (toBase64 iv))
  = toJson (payloadOf fm).
Proof.
  unfold base64DecodeDecryptAndGzipUnZip, gZipEncryptAndBase64Encode.
  destruct (gzip_inverse _ _ Hfaithful (toJson (payloadOf fm))) as (z & Hz & Hunz).
  rewrite Hz. rewrite !(base64_inverse _ _ Hfaithful).
  pose proof (gcm_inverse _ _ Hfaithful (_metadataKeyForEncryption fm) iv z) as Hgcm.
  destruct (dataEncryption _ _ _) as [out tag]. simpl in *.
  rewrite (base64_inverse _ _ Hfaithful), Hgcm, Hunz. done.
Qed.

Lemma parse_users :
  foldl insertFolderUser ∅
    ((λ kv, folderUserToJson kv.2) <$> map_to_list (_folderUsers fm))
  = _folderUsers fm.
Proof.
  rewrite foldl_insertFolderUser.
  - apply foldl_assign_map_to_list.
  - apply (base64_inverse _ _ Hfaithful).
  - intros [k u] Hin. apply elem_of_map_to_list in Hin. simpl.
    by apply (valid_user_ids _ Hvalid).
Qed.

Lemma parse_checksums :
  foldl insertKeyChecksum ∅ (JString <$> elements (_keyChecksums fm)) = _keyChecksums fm.
Proof.
  rewrite foldl_insertKeyChecksum.
  - rewrite list_to_set_elements_L. set_solver.
  - rewrite elem_of_elements. apply (valid_checksums _ Hvalid).
Qed.

Lemma parse_file g :
  g ∈ _files fm → isDirectoryMimetype (mimetype g) = false →
  parseEncryptedFileFromJson (encryptedFilename g)
    (JObject (convertFileToJsonObject g (_metadataKeyForEncryption fm))) = g.
Proof.
  intros Hin Hdir. unfold parseEncryptedFileFromJson, convertFileToJsonObject, Json.value.
  simpl. json_keys. json_lookup. simpl.
  pose proof (valid_file_names _ Hvalid g Hin) as Hname.
  apply isEmpty_false in Hname. rewrite Hname.
  rewrite !(base64_inverse _ _ Hfaithful).
  unfold isDirectoryMimetype in Hdir. apply orb_false_elim in Hdir as [Hdir _].
  apply orb_false_elim in Hdir as [_ Hdir].
  unfold fixDirectoryMimetype. rewrite Hdir. by destruct g.
Qed.

Lemma parse_files f :
  f ∈ foldl pushParsedFolder
        (foldl pushParsedFile []
           (map_to_list (foldl assign ∅
              (fileEntries (_metadataKeyForEncryption fm) (_files fm)))))
        (map_to_list (foldl assign ∅ (folderEntries (_files fm))))
  ↔ ∃ g, g ∈ _files fm ∧ f = asStored g.
Proof.
  rewrite elem_of_foldl_pushParsedFolder, elem_of_foldl_pushParsedFile.
  pose proof (valid_encrypted_names _ Hvalid) as Hnd.
  split.
  - intros [[Hnil|(kv & Hkv & Hparse & _)]|(kv & Hkv & _ & ->)].
    + by apply elem_of_nil in Hnil.
    + destruct kv as [k v]. apply elem_of_map_to_list in Hkv.
      apply foldl_assign_lookup in Hkv; [|by apply NoDup_fileEntries].
      destruct Hkv as [Hkv|[Hkv _]]; [|by rewrite lookup_empty in Hkv].
      unfold fileEntries in Hkv. apply list_elem_of_fmap in Hkv as (g & [= -> ->] & Hg).
      apply list_elem_of_filter in Hg as [Hdir Hg].
      exists g. split; [done|]. simpl in Hparse. rewrite parse_file in Hparse by done.
      unfold asStored. by rewrite Hdir.
    + destruct kv as [k v]. apply elem_of_map_to_list in Hkv.
      apply foldl_assign_lookup in Hkv; [|by apply NoDup_folderEntries].
      destruct Hkv as [Hkv|[Hkv _]]; [|by rewrite lookup_empty in Hkv].
      unfold folderEntries in Hkv. apply list_elem_of_fmap in Hkv as (g & [= -> ->] & Hg).
      apply list_elem_of_filter in Hg as [Hdir Hg].
      exists g. split; [done|]. unfold asStored. by rewrite Hdir.
  - intros (g & Hg & ->). unfold asStored.
    destruct (isDirectoryMimetype (mimetype g)) eqn:Hdir.
    + right. exists (encryptedFilename g, JString (originalFilename g)). simpl.
      split; [|split; [by apply (valid_file_names _ Hvalid)|done]].
      apply elem_of_map_to_list, foldl_assign_lookup; [by apply NoDup_folderEntries|].
      left. unfold folderEntries.
      apply (list_elem_of_fmap_2' _ _ g); [|done]. by apply list_elem_of_filter.
    + left. right.
      exists (encryptedFilename g,
              JObject (convertFileToJsonObject g (_metadataKeyForEncryption fm))).
      simpl. split; [|split; [by apply parse_file|by apply (valid_file_names _ Hvalid)]].
      apply elem_of_map_to_list, foldl_assign_lookup; [by apply NoDup_fileEntries|].
      left. unfold fileEntries.
      apply (list_elem_of_fmap_2' _ _ g); [|done]. by apply list_elem_of_filter.
Qed.

End Parsing.

Lemma document_users fm iv :
  Json.toArray (Json.at_ usersKey (documentOf fm iv))
  = (λ kv, folderUserToJson kv.2) <$> map_to_list (_folderUsers fm).
Proof.
  unfold documentOf, Json.at_, Json.value. simpl. json_keys. json_lookup. done.
Qed.

Lemma document_nonce fm iv :
  Json.toString (Json.value nonceKey
    (Json.toObject (Json.value metadataJsonKey (Json.toObject (documentOf fm iv)))))
  = toBase64 iv.
Proof.
  unfold documentOf, Json.value. simpl. json_keys. json_lookup. simpl. json_lookup. done.
Qed.

Lemma document_ciphertext fm iv :
  Json.toString (Json.value cipherTextKey
    (Json.toObject (Json.value metadataJsonKey (Json.toObject (documentOf fm iv)))))
  = (gZipEncryptAndBase64Encode (_metadataKeyForEncryption fm) (toJson (payloadOf fm)) iv).1.
Proof.
  unfold documentOf, Json.value. simpl. json_keys. json_lookup. simpl. json_lookup. done.
Qed.

Lemma payload_checksums fm :
  Json.toArray (Json.at_ keyChecksumsKey (payloadOf fm))
  = JString <$> elements (_keyChecksums fm).
Proof. unfold payloadOf, Json.at_, Json.value. simpl. json_keys. json_lookup. done. Qed.

Lemma payload_files fm :
  Json.toObject (Json.value filesKey (Json.toObject (payloadOf fm)))
  = foldl assign ∅ (fileEntries (_metadataKeyForEncryption fm) (_files fm)).
Proof. unfold payloadOf, Json.value. simpl. json_keys. json_lookup. done. Qed.

Lemma payload_folders fm :
  Json.toObject (Json.value foldersKey (Json.toObject (payloadOf fm)))
  = foldl assign ∅ (folderEntries (_files fm)).
Proof. unfold payloadOf, Json.value. simpl. json_keys. json_lookup. done. Qed.

(** C1 (as amended): for every valid top-level FolderMetadata, serialising
    with [encryptedMetadata], wrapping the result as the server does and
    parsing it into a new top-level object with [setupExistingMetadata]
    gives back the same folder-user map and the same [keyChecksums] set, and
    a file list that holds exactly the files as the format stores them: a
    file that is not a directory comes back whole, a directory comes back
    with its encrypted and original name and every other field empty. *)
Theorem encryptedMetadata_setupExistingMetadata_roundtrip
  randomKey randomIv initialVersion requiredVersion fm :
  valid fm → faithful fm randomIv →
  let fm' := setupExistingMetadata
               (ocsReply (encryptedMetadata randomKey randomIv fm).1)
               (create initialVersion (_account fm) requiredVersion makeDefault) in
  _folderUsers fm' = _folderUsers fm
  ∧ _keyChecksums fm' = _keyChecksums fm
  ∧ ∀ f, f ∈ _files fm' ↔ ∃ g, g ∈ _files fm ∧ f = asStored g.
Proof.
  intros Hv Hf. cbv zeta. rewrite encryptedMetadata_valid by done. simpl fst.
  unfold setupExistingMetadata.
  rewrite setupVersionFromExistingMetadata_reply by done.
  assert (metadataVersion
            (set_versionFromMetadata 2
               (create initialVersion (_account fm) requiredVersion makeDefault))
          = Version2_0) as -> by done.
  pose proof (enum_order _ _ Hf) as Horder.
  rewrite !bool_decide_eq_false_2 by lia.
  rewrite fromJson_reply by done.
  assert (isTopLevelFolder
            (set_versionFromMetadata 2
               (create initialVersion (_account fm) requiredVersion makeDefault))
          = true) as Htop by done.
  set (a := Json.toString (Json.value cipherTextKey _)).
  set (b := fromBase64 (Json.toString (Json.value authenticationTagKey _))).
  set (c := fromBase64 (Json.toString (Json.value nonceKey _))).
  rewrite document_users, document_nonce, document_ciphertext.
  unfold isTopLevelFolder, metadataKeyForDecryption, metadataKeyForEncryption.
  simpl.
  rewrite (bool_decide_eq_false_2 (_ <$> map_to_list (_folderUsers fm) = [])).
  2:{ apply fmap_not_nil. intros He. apply map_to_list_empty_iff in He.
      by apply (valid_users_not_empty fm). }
  simpl. rewrite (parse_users fm randomIv) by done.
  destruct (valid_account _ Hv) as (me & Hme & Hkey). rewrite Hme.
  unfold decryptData in *. simpl. rewrite Hkey.
  pose proof (valid_key_not_empty _ Hv) as Hk. apply isEmpty_false in Hk. rewrite Hk.
  simpl. rewrite (decrypt_payload fm randomIv) by done.
  pose proof (json_payload_text _ _ Hf) as Htext. apply isEmpty_false in Htext.
  rewrite Htext. rewrite (json_payload _ _ Hf).
  rewrite payload_checksums, payload_files, payload_folders.
  rewrite (bool_decide_eq_false_2 (JString <$> elements (_keyChecksums fm) = [])).
  2:{ apply fmap_not_nil. intros He. apply elements_empty_inv in He.
      apply leibniz_equiv in He. pose proof (valid_key_checksum _ Hv) as Hin.
      rewrite He in Hin. set_solver. }
  simpl. rewrite (parse_checksums fm randomIv) by done.
  unfold verifyMetadataKey. simpl. rewrite Hk.
  rewrite (bool_decide_eq_false_2 (size _ < metadataKeySize)%nat)
    by (pose proof (valid_key_size _ Hv); lia).
  rewrite (bool_decide_eq_true_2 (_ ∈ _keyChecksums fm)) by apply (valid_key_checksum _ Hv).
  simpl. split; [done|]. split; [done|].
  intros f. by apply (parse_files fm randomIv).
Qed.


End WithPlatform.

End FolderMetadataFacts.

(** * FolderMetadata on concrete documents *)

Module FolderMetadataSamples.
Import FolderMetadata FolderMetadataNotions FolderMetadataExamples FolderMetadataFacts Sample.

Lemma stripPrefix_append p s : stripPrefix p (p +:+ s) = Some s.
Proof.
  induction p as [|a p IH]; simpl; [done|].
  by rewrite bool_decide_eq_true_2.
Qed.

Lemma sample_base64 b : fromBase64 (toBase64 b) = b.
Proof. by destruct b. Qed.

Lemma stripPrefix_common p q s : stripPrefix (p +:+ q) (p +:+ s) = stripPrefix q s.
Proof.
  induction p as [|a p IH]; simpl; [done|].
  by rewrite bool_decide_eq_true_2.
Qed.

Lemma unseal_seal label key data : unseal label key (seal label key data) = Some data.
Proof.
  unfold unseal, seal. rewrite !stripPrefix_common.
  apply (stripPrefix_append "}").
Qed.

Lemma sample_gcm key iv input :
  dataDecryption key iv (dataEncryption key iv input).1 = Some input.
Proof. apply unseal_seal. Qed.

Lemma sample_gzip data : ∃ z, gZip data = Some z ∧ gUnZip z = Some data.
Proof. eexists. split; [reflexivity|]. apply (stripPrefix_append "gz:"). Qed.

Ltac by_compute :=
  match goal with
  | |- ?P => apply (@bool_decide_unpack P _); vm_compute; exact I
  end.

(** The failing input of C3: the document of version 0 is parsed by the
    legacy migration, its file is read and the metadata key is set up. *)
Lemma setupExistingMetadata_version_0_is_parsed :
  let fm := setupExistingMetadata legacyDocument fresh in
  _files fm = [ {| encryptedFilename := "encryptedname"; originalFilename := "a.txt";
                   encryptionKey := "filekey"; mimetype := "text/plain";
                   initializationVector := "iv"; authenticationTag := "tag" |} ]
  ∧ _metadataKeyForDecryption fm = "0123456789abcdef"
  ∧ _metadataKeyForEncryption fm = "0123456789abcdef"
  ∧ _migrationNeeded fm = true
  ∧ _isMetadataSetup fm = true.
Proof.
  cbv zeta.
  rewrite (setupExistingMetadata_below_1_0_runs_legacy_migration
             legacyDocument (JDouble 0 1) fresh);
    [ vm_compute; auto | reflexivity | reflexivity | reflexivity ].
Defined.

Lemma folder_valid : valid folder.
Proof.
  split.
  - reflexivity.
  - reflexivity.
  - vm_compute. lia.
  - by_compute.
  - by_compute.
  - apply map_Forall_lookup. by_compute.
  - eexists. split; vm_compute; reflexivity.
  - apply Forall_forall. by_compute.
  - by_compute.
Defined.

Lemma folder_faithful : faithful folder "nonce".
Proof.
  split.
  - vm_compute. discriminate.
  - apply sample_base64.
  - apply sample_gcm.
  - apply sample_gzip.
  - vm_compute. reflexivity.
  - vm_compute. discriminate.
  - vm_compute. reflexivity.
  - vm_compute. reflexivity.
Defined.

Lemma readBack_roundtrip :
  _folderUsers readBack = _folderUsers folder
  ∧ _keyChecksums readBack = _keyChecksums folder
  ∧ ∀ f, f ∈ _files readBack ↔ ∃ g, g ∈ _files folder ∧ f = asStored g.
Proof.
  exact (encryptedMetadata_setupExistingMetadata_roundtrip
           "unused" "nonce" (-1) Version2_0 folder folder_valid folder_faithful).
Defined.

(** The counterexample of C1: the folder is valid and the collaborators give
    back what they are given, yet the directory does not come back as it
    was: its mimetype, key, initialization vector and tag are empty. *)
Lemma readBack_directory_differs :
  valid folder ∧ faithful folder "nonce"
  ∧ directory ∈ _files folder
  ∧ _files readBack
    = [ plainFile;
        {| encryptedFilename := "e1"; originalFilename := "photos"; encryptionKey := "";
           mimetype := ""; initializationVector := ""; authenticationTag := "" |} ]
  ∧ ¬ (∀ f, f ∈ _files readBack ↔ f ∈ _files folder).
Proof.
  split; [exact folder_valid|]. split; [exact folder_faithful|].
  split; [by left|].
  assert (_files readBack
          = [ plainFile;
              {| encryptedFilename := "e1"; originalFilename := "photos";
                 encryptionKey := ""; mimetype := ""; initializationVector := "";
                 authenticationTag := "" |} ]) as Hfiles by (vm_compute; reflexivity).
  split; [exact Hfiles|].
  intros Hsame. specialize (Hsame directory). rewrite Hfiles in Hsame.
  destruct Hsame as [_ Hback]. specialize (Hback ltac:(by left)).
  apply elem_of_cons in Hback as [Hd|Hback]; [discriminate Hd|].
  apply list_elem_of_singleton in Hback. discriminate Hback.
Qed.

(** *** verifyMetadataKey *)

Lemma verifyMetadataKey_on_samples :
  verifyMetadataKey folder "short" = true
  ∧ verifyMetadataKey readBack "short" = false
  ∧ verifyMetadataKey readBack "ffffffffffffffff" = false
  ∧ verifyMetadataKey (set_keyChecksums ∅ readBack) "ffffffffffffffff" = true.
Proof.
  split; [|split; [|split]].
  - apply (proj1 (verifyMetadataKey_by_version_and_size folder "short")).
    vm_compute. reflexivity.
  - apply (proj1 (proj2 (verifyMetadataKey_by_version_and_size readBack "short"))).
    + vm_compute. discriminate.
    + vm_compute. lia.
  - apply (proj1 (proj2 (proj2
             (verifyMetadataKey_by_version_and_size readBack "ffffffffffffffff")))).
    + vm_compute. discriminate.
    + vm_compute. lia.
    + by_compute.
    + by_compute.
  - apply (proj2 (proj2 (proj2
             (verifyMetadataKey_by_version_and_size
                (set_keyChecksums ∅ readBack) "ffffffffffffffff")))).
    + vm_compute. discriminate.
    + vm_compute. lia.
    + reflexivity.
Defined.

(** The counterexample of C4: a top-level folder with a non-empty checksum
    set accepts a key whose checksum is not in the set, and a sub-folder with
    an empty checksum set refuses a key. *)
Lemma verifyMetadataKey_accepts_unknown_and_refuses_short :
  (isTopLevelFolder migrated = true
   ∧ _keyChecksums migrated ≠ ∅
   ∧ calcSha256 "ffffffffffffffff" ∉ _keyChecksums migrated
   ∧ verifyMetadataKey migrated "ffffffffffffffff" = true)
  ∧ (isTopLevelFolder subfolder = false
     ∧ _keyChecksums subfolder = ∅
     ∧ verifyMetadataKey subfolder "short" = false).
Proof.
  split.
  - split; [reflexivity|]. split; [by_compute|]. split; [by_compute|].
    vm_compute. reflexivity.
  - split; [reflexivity|]. split; [reflexivity|]. vm_compute. reflexivity.
Qed.

(** *** moveFromFileDropToFiles *)

Lemma moveFromFileDropToFiles_on_samples :
  moveFromFileDropToFiles folder = (false, folder)
  ∧ ∃ fm', moveFromFileDropToFiles withFileDropped = (true, fm')
      ∧ length (_files fm') = 3%nat
      ∧ isFileDropPresent fm' = false
      ∧ moveFromFileDropToFiles fm' = (false, fm').
Proof.
  split.
  - apply (proj1 (moveFromFileDropToFiles_contract folder)). left. reflexivity.
  - eexists. split; [vm_compute; reflexivity|]. split; [reflexivity|].
    apply (proj2 (moveFromFileDropToFiles_contract withFileDropped)).
    vm_compute. reflexivity.
Defined.

(** *** addUser and removeUser *)

Lemma removeUser_on_samples :
  ∃ fm', removeUser "fedcba9876543210" "carol" shared = (true, fm')
    ∧ _metadataKeyForEncryption fm' = "fedcba9876543210"
    ∧ calcSha256 "fedcba9876543210" ∈ _keyChecksums fm'
    ∧ calcSha256 "0123456789abcdef" ∉ _keyChecksums fm'
    ∧ dom (_folderUsers fm') = dom (_folderUsers shared).
Proof.
  destruct (removeUser_absent_user_rotates "fedcba9876543210" "carol" shared)
    as (fm' & Hrun & Hkey & Hnew & Hold & Hdom & _).
  - reflexivity.
  - discriminate.
  - reflexivity.
  - discriminate.
  - exists fm'. split; [exact Hrun|]. split; [exact Hkey|]. split; [exact Hnew|].
    split; [|exact Hdom]. apply Hold; vm_compute; discriminate.
Defined.

(** The counterexample of C9: carol is not a user of the folder; removing
    her rotates the key, and bob, whose certificate is null, keeps the old
    key wrapped and is not given the new one. *)
Lemma removeUser_skips_user_without_certificate :
  isTopLevelFolder shared = true
  ∧ _folderUsers shared !! "carol" = None
  ∧ ∃ fm', removeUser "fedcba9876543210" "carol" shared = (true, fm')
      ∧ _metadataKeyForEncryption shared = "0123456789abcdef"
      ∧ _metadataKeyForEncryption fm' = "fedcba9876543210"
      ∧ (encryptedMetadataKey <$> _folderUsers fm' !! "bob")
        = Some (encryptStringAsymmetric "bobkey" "0123456789abcdef")
      ∧ (encryptedMetadataKey <$> _folderUsers fm' !! "alice")
        = Some (encryptStringAsymmetric "alicekey" "fedcba9876543210").
Proof.
  split; [reflexivity|]. split; [reflexivity|].
  eexists. split; [vm_compute; reflexivity|]. repeat split.
Qed.

Lemma addUser_removeUser_on_samples :
  ∃ fm1 fm2, addUser "fedcba9876543210" "dave" "CERT davekey" folder = (true, fm1)
    ∧ removeUser "00001111222233334444" "dave" fm1 = (true, fm2)
    ∧ _folderUsers fm2 !! "dave" = None
    ∧ _metadataKeyForEncryption fm2 = "00001111222233334444"
    ∧ calcSha256 "00001111222233334444" ∈ _keyChecksums fm2
    ∧ calcSha256 "fedcba9876543210" ∉ _keyChecksums fm2.
Proof.
  destruct (addUser_removeUser_rotate "fedcba9876543210" "dave" "CERT davekey" folder)
    as (_ & _ & _ & _ & Hboth).
  - reflexivity.
  - discriminate.
  - apply (Hboth ltac:(discriminate) ltac:(reflexivity) ltac:(vm_compute; discriminate)
             "00001111222233334444" ltac:(discriminate) ltac:(vm_compute; discriminate)).
Defined.

(** The counterexample of C2: [addUser] with an empty user id returns false
    and leaves the key as it was; and when dave is added, bob, whose
    certificate is null, is not given the new key. *)
Lemma addUser_refuses_empty_id_and_skips_user_without_certificate :
  isTopLevelFolder shared = true
  ∧ addUser "fedcba9876543210" "" "CERT davekey" shared = (false, shared)
  ∧ ∃ fm', addUser "fedcba9876543210" "dave" "CERT davekey" shared = (true, fm')
      ∧ _metadataKeyForEncryption shared = "0123456789abcdef"
      ∧ _metadataKeyForEncryption fm' = "fedcba9876543210"
      ∧ (encryptedMetadataKey <$> _folderUsers fm' !! "bob")
        = Some (encryptStringAsymmetric "bobkey" "0123456789abcdef")
      ∧ (encryptedMetadataKey <$> _folderUsers fm' !! "dave")
        = Some (encryptStringAsymmetric "davekey" "fedcba9876543210").
Proof.
  split; [reflexivity|]. split; [reflexivity|].
  eexists. split; [vm_compute; reflexivity|]. repeat split.
Qed.

End FolderMetadataSamples.

(** * Properties of UpdateE2eeFolderUsersMetadataJob *)

Module UpdateE2eeFolderUsersMetadataJobFacts.
Import UpdateE2eeFolderUsersMetadataJob UpdateE2eeFolderUsersMetadataJobNotions.

Section WithPlatform.
Context {platform : Platform}.

Lemma addOrRemove_true j :
  _operation j = Add ∨ _operation j = Remove →
  bool_decide (_operation j = Add) || bool_decide (_operation j = Remove) = true.
Proof. intros [->| ->]; reflexivity. Qed.

(** C5 (what the code does instead): when the upload of an Add or Remove
    operation ends with a code other than 200 the job calls
    [unlockFolder(false)] and schedules no sub-job; the [finished] signal it
    then emits does not carry an error status of its own but the status of
    the unlock request, whatever it is, and nothing of the failed upload. *)
Theorem upload_failure_reports_unlock_status j code message folderId httpStatus :
  _operation j = Add ∨ _operation j = Remove → code ≠ 200 →
  let j1 := deliver (UploadFinished code message) j in
  let j2 := deliver (FolderUnlocked folderId httpStatus) j1 in
  _log j1 = _log j ++ [UnlockFolder false]
  ∧ _subJobs j1 = _subJobs j
  ∧ subJobObjects j1 = subJobObjects j
  ∧ _log j2 = _log j ++ [UnlockFolder false; EmitFinished httpStatus (unlockMessage httpStatus)].
Proof.
  intros Hop Hcode. simpl. unfold slotUpdateMetadataFinished.
  rewrite (bool_decide_eq_true_2 _ Hcode), (addOrRemove_true _ Hop).
  unfold slotFolderUnlocked, unlockFolder. simpl.
  rewrite <- app_assoc. done.
Qed.

(** C6 (what the code does instead): when a sub-job reports a code other
    than 200 the job starts no further sub-job and calls
    [unlockFolder(false)]; the [finished] signal that the parent job then
    emits does not carry an error status of its own but the status of the
    unlock request, whatever it is. *)
Theorem subjob_failure_reports_unlock_status j sender code message folderId httpStatus :
  code ≠ 200 →
  let j1 := deliver (SubJobFinished sender code message) j in
  let j2 := deliver (FolderUnlocked folderId httpStatus) j1 in
  _log j1 = _log j ++ [UnlockFolder false]
  ∧ _subJobs j1 = _subJobs j
  ∧ _log j2 = _log j ++ [UnlockFolder false; EmitFinished httpStatus (unlockMessage httpStatus)].
Proof.
  intros Hcode. simpl. unfold slotSubJobFinished.
  rewrite (bool_decide_eq_true_2 _ Hcode).
  unfold slotFolderUnlocked, subJobsFinished, unlockFolder. simpl.
  rewrite <- app_assoc. done.
Qed.

(** ** The sub-jobs run one at a time *)

Lemma started_act a j :
  started (act a j) = started j ++ match a with StartSubJob job => [job] | _ => [] end.
Proof. unfold started, act. simpl. rewrite omap_app. by destruct a. Qed.

Lemma subJobs_act a j : _subJobs (act a j) = _subJobs j.
Proof. reflexivity. Qed.

Lemma started_scheduleSubJobs j : started (scheduleSubJobs j) = started j.
Proof.
  unfold scheduleSubJobs, unlockFolder.
  destruct (folderMetadata _) as [fm|].
  - destruct (isValid _); simpl.
    + generalize (zip (seq (base.size (subJobObjects j)) (length (filesBelowPath (_journalDb j))))
                    (filesBelowPath (_journalDb j))).
      intros l. revert j. induction l as [|[address [dir name]] l IH]; intros j; [done|].
      simpl. rewrite IH. by destruct dir.
    + destruct (_ || _); rewrite started_act; by rewrite app_nil_r.
  - destruct (_ || _); rewrite started_act; by rewrite app_nil_r.
Qed.

Lemma startLastSubJob_cases j :
  (_subJobs j = ∅ ∧ startLastSubJob j = j)
  ∨ ∃ job, job ∈ _subJobs j ∧ startLastSubJob j = act (StartSubJob job) j.
Proof.
  unfold startLastSubJob. destruct (last (elements (_subJobs j))) as [job|] eqn:Hlast.
  - right. exists job. split; [|done].
    apply elem_of_elements. apply last_Some in Hlast as [l ->]. set_solver.
  - left. split; [|done]. apply last_None in Hlast.
    apply elements_empty_inv in Hlast. by apply leibniz_equiv.
Qed.

Lemma oneAtATime_begin j code message :
  _operation j = Add ∨ _operation j = Remove → started j = [] →
  oneAtATime [] (deliver (UploadFinished code message) j).
Proof.
  intros Hop Hnone. simpl. unfold slotUpdateMetadataFinished, oneAtATime, running.
  rewrite (addOrRemove_true _ Hop).
  assert (∀ j', started j' = [] →
            NoDup (started j')
            ∧ (∀ job, job ∈ finished [] → job ∈ started j')
            ∧ (list_to_set (started j') ∖ list_to_set (finished []) = (∅ : gset nat)
               ∨ ∃ job, list_to_set (started j') ∖ list_to_set (finished [])
                        = ({[job]} : gset nat)
                   ∧ job ∈ _subJobs j'
                   ∧ (∀ job', job' ∈ started j' → job' ≠ job → job' ∉ _subJobs j')
                   ∧ Forall succeeded [])) as Hidle.
  { intros j' ->. split; [constructor|]. split; [by intros ? ?%elem_of_nil|].
    left. set_solver. }
  case_bool_decide as Hcode.
  { apply Hidle. unfold unlockFolder. by rewrite started_act, Hnone. }
  case_bool_decide as Hempty.
  { apply Hidle. unfold unlockFolder. by rewrite started_act, started_scheduleSubJobs, Hnone. }
  destruct (startLastSubJob_cases (scheduleSubJobs j)) as [[_ ->]|(job & Hjob & ->)].
  { apply Hidle. by rewrite started_scheduleSubJobs. }
  rewrite started_act, started_scheduleSubJobs, Hnone. simpl.
  split; [apply NoDup_singleton|]. split; [by intros ? ?%elem_of_nil|].
  right. exists job. split; [set_solver|]. split; [done|].
  split; [|constructor]. intros job' Hin Hne. apply list_elem_of_singleton in Hin. done.
Qed.

Lemma oneAtATime_signal events j job code message :
  oneAtATime events j → job ∈ running events j →
  oneAtATime (events ++ [SubJobFinished (Some job) code message])
    (deliver (SubJobFinished (Some job) code message) j).
Proof.
  intros (Hnodup & Hfin & Hrun) Hjob.
  destruct Hrun as [Hrun|(job0 & Hrun & Hin & Hothers & Hok)]; [set_solver|].
  assert (job = job0) as -> by set_solver.
  assert (job0 ∈ started j) as Hstarted by (unfold running in Hrun; set_solver).
  assert (finished (events ++ [SubJobFinished (Some job0) code message])
          = finished events ++ [job0]) as Hfinished.
  { unfold finished. by rewrite omap_app. }
  unfold oneAtATime, running. rewrite Hfinished. simpl. unfold slotSubJobFinished.
  assert (∀ job', job' ∈ finished events ++ [job0] → job' ∈ started j) as Hfin'.
  { intros job' [?| ->%list_elem_of_singleton]%elem_of_app; auto. }
  case_bool_decide as Hcode.
  { (* the sub-job failed *)
    unfold subJobsFinished, unlockFolder. rewrite started_act, app_nil_r.
    split; [done|]. split; [done|]. left. unfold running in Hrun. set_solver. }
  set (j1 := if bool_decide _ then _ else j).
  assert (started j1 = started j ∧ _subJobs j1 = _subJobs j) as [Hs1 Hsub1].
  { unfold j1. case_bool_decide; [|done]. simpl. unfold started. simpl.
    rewrite omap_app. simpl. by rewrite app_nil_r. }
  set (j2 := set_subJobs _ _ j1).
  assert (started j2 = started j ∧ _subJobs j2 = _subJobs j ∖ {[job0]}) as [Hs2 Hsub2].
  { unfold j2. simpl. by rewrite Hsub1. }
  case_bool_decide as Hempty.
  { unfold subJobsFinished, unlockFolder. rewrite started_act, app_nil_r, Hs2.
    split; [done|]. split; [done|]. left. unfold running in Hrun. set_solver. }
  destruct (startLastSubJob_cases j2) as [[He _]|(next & Hnext & ->)]; [done|].
  rewrite Hsub2 in Hnext.
  assert (next ∉ started j) as Hfresh.
  { intros Hold. apply (Hothers next Hold); set_solver. }
  rewrite started_act, Hs2. simpl.
  split. { apply NoDup_app. split; [done|]. split; [|apply NoDup_singleton].
           intros x Hx ->%list_elem_of_singleton. done. }
  split. { intros job' Hj. apply elem_of_app. left. by apply Hfin'. }
  right. exists next.
  split. { unfold running in Hrun. rewrite !list_to_set_app_L. simpl.
           assert (next ∉ finished events) by (intros ?; apply Hfresh; auto).
           set_solver. }
  rewrite !Hsub1.
  split. { done. }
  split. { intros job' [Hj| ->%list_elem_of_singleton]%elem_of_app Hne; [|done]. destruct (decide (job' = job0)) as [->|Hne0]; [set_solver|].
           specialize (Hothers job' Hj Hne0). set_solver. }
  apply Forall_app. split; [done|]. constructor; [|constructor]. exact Hcode.
Qed.

(** X22: after a successful upload of an Add or Remove operation, as long
    as the [finished] signals come from running sub-jobs, no sub-job is
    started twice, at most one sub-job is running, and once a sub-job has
    reported an error none is running and none is started any more. *)
Theorem subJobs_run_one_at_a_time j code message events j' :
  _operation j = Add ∨ _operation j = Remove → started j = [] →
  subJobPhase (deliver (UploadFinished code message) j) events j' →
  NoDup (started j')
  ∧ (base.size (running events j') ≤ 1)%nat
  ∧ (¬ Forall succeeded events → running events j' = ∅).
Proof.
  intros Hop Hnone Hphase.
  assert (oneAtATime events j') as (Hnodup & _ & Hrun).
  { induction Hphase; [by apply oneAtATime_begin|by apply oneAtATime_signal]. }
  split; [done|].
  destruct Hrun as [->|(job & -> & _ & _ & Hok)].
  - split; [|done]. rewrite size_empty. lia.
  - split; [|done]. rewrite size_singleton. lia.
Qed.

End WithPlatform.

(** ** On a concrete job *)

(** The failing input of C5: the upload of a removal fails with 500 and the
    unlock request succeeds; the job reports [finished(200)], which its
    listeners take for success. *)
Lemma removal_upload_500_unlock_200 :
  _log (run (platform := Sample.platform)
          [UploadFinished 500 "Internal Server Error"; FolderUnlocked "id" 200] removal)
  = [UnlockFolder false; EmitFinished 200 ""].
Proof.
  exact (proj2 (proj2 (proj2
    (upload_failure_reports_unlock_status (platform := Sample.platform)
       removal 500 "Internal Server Error" "id" 200
       (or_intror eq_refl) ltac:(discriminate))))).
Defined.

(** The failing input of C6: the upload succeeds, the first sub-job fails and
    the unlock request succeeds; no second sub-job is started and the job
    reports [finished(200)]. *)
Lemma removal_subjob_failure_unlock_200 :
  _log (run (platform := Sample.platform)
          [UploadFinished 200 ""; SubJobFinished (Some 0%nat) 500 "failed";
           FolderUnlocked "id" 200] removal)
  = [StartSubJob 0; UnlockFolder false; EmitFinished 200 ""].
Proof.
  refine (eq_trans (proj2 (proj2
    (subjob_failure_reports_unlock_status (platform := Sample.platform)
       (deliver (platform := Sample.platform) (UploadFinished 200 "") removal)
       (Some 0%nat) 500 "failed" "id" 200 ltac:(discriminate)))) _).
  vm_compute. reflexivity.
Defined.

End UpdateE2eeFolderUsersMetadataJobFacts.

(** * Properties of the local remove and rename jobs *)

Module PropagatorJobsFacts.
Import PropagatorJobs PropagatorJobsNotions.

(** ** Texts *)


Lemma startsWith_inv s p : startsWith s p = true → ∃ r, s = p +:+ r.
Proof.
  unfold startsWith. revert s. induction p as [|a p IH]; intros s; simpl.
  - intros _. by exists s.
  - destruct s as [|b s]; simpl; [done|].
    destruct (ascii_dec a b) as [->|]; [|done].
    intros [r ->]%IH. by exists r.
Qed.

Lemma substring_all s : substring 0 (String.length s) s = s.
Proof. induction s as [|a s IH]; simpl; [done|]. by rewrite IH. Qed.

Lemma length_append p r : String.length (p +:+ r) = (String.length p + String.length r)%nat.
Proof. induction p as [|a p IH]; simpl; [done|]. by rewrite IH. Qed.

Lemma mid_append p r : mid (size p) (p +:+ r) = r.
Proof.
  unfold mid, size. rewrite length_append.
  replace (String.length p + String.length r - String.length p)%nat
    with (String.length r) by lia.
  induction p as [|a p IH]; simpl; [apply substring_all|done].
Qed.

Lemma append_assoc p q r : (p +:+ q) +:+ r = p +:+ (q +:+ r).
Proof.
  induction p as [|a p IH]; [done|].
  change (String a ((p +:+ q) +:+ r) = String a (p +:+ (q +:+ r))).
  by rewrite IH.
Qed.



(** ** PropagateLocalRename: the walk over the records below a directory *)

Section Rename.
Variables (world : World) (oldFile renameTarget : QString).

(** Neither directory is the other or lies in it. *)
Hypothesis apart : ∀ s t, oldFile +:+ "/" +:+ s ≠ renameTarget +:+ "/" +:+ t.
Hypothesis usable : journalUsable world = true.

Notation walk := (foldl (renameRecord world oldFile renameTarget)).

Lemma done_renameRecord p r :
  ∃ extra, _done (renameRecord world oldFile renameTarget p r) = _done p ++ extra.
Proof.
  unfold renameRecord, getFileRecord, deleteFileRecord, updateMetadata, setFileRecord.
  rewrite usable. simpl.
  case_bool_decide; [exists []; by rewrite app_nil_r|].
  destruct (convertToPlaceholder _ _); simpl; eauto.
  all: exists []; by rewrite app_nil_r.
Qed.

Lemma done_walk l p : ∃ extra, _done (walk p l) = _done p ++ extra.
Proof.
  revert p. induction l as [|r l IH]; intros p; simpl.
  - exists []. by rewrite app_nil_r.
  - destruct (IH (renameRecord world oldFile renameTarget p r)) as [e2 ->].
    destruct (done_renameRecord p r) as [e1 ->]. exists (e1 ++ e2). by rewrite app_assoc.
Qed.

Lemma quiet_walk_cons r l p :
  _done (walk p (r :: l)) = _done p →
  _done (renameRecord world oldFile renameTarget p r) = _done p
  ∧ _done (walk (renameRecord world oldFile renameTarget p r) l)
    = _done (renameRecord world oldFile renameTarget p r).
Proof.
  simpl. intros Hquiet.
  destruct (done_walk l (renameRecord world oldFile renameTarget p r)) as [e2 He2].
  destruct (done_renameRecord p r) as [e1 He1].
  rewrite He2, He1, <- app_assoc in Hquiet.
  rewrite <- (app_nil_r (_done p)) in Hquiet at 2.
  apply app_inv_head in Hquiet. apply app_eq_nil in Hquiet as [-> ->].
  rewrite He2, He1. by rewrite !app_nil_r.
Qed.

Lemma renamedDirectories_renameRecord p r :
  _renamedDirectories (renameRecord world oldFile renameTarget p r) = _renamedDirectories p.
Proof.
  unfold renameRecord, getFileRecord, deleteFileRecord, updateMetadata, setFileRecord.
  rewrite usable. simpl. case_bool_decide; [done|].
  by destruct (convertToPlaceholder _ _).
Qed.

Lemma renamedDirectories_walk l p : _renamedDirectories (walk p l) = _renamedDirectories p.
Proof.
  revert p. induction l as [|r l IH]; intros p; simpl; [done|].
  by rewrite IH, renamedDirectories_renameRecord.
Qed.

(** A round of the walk that raises no error deletes the record and, unless
    the file is in use, writes it under the new name. *)
Lemma journal_renameRecord p r rest :
  rec_path r = oldFile +:+ "/" +:+ rest →
  _done (renameRecord world oldFile renameTarget p r) = _done p →
  (convertToPlaceholder world (fullLocalPath world (renameTarget +:+ "/" +:+ rest)) = Locked
   ∧ _journal (renameRecord world oldFile renameTarget p r)
     = delete (oldFile +:+ "/" +:+ rest) (_journal p))
  ∨ (convertToPlaceholder world (fullLocalPath world (renameTarget +:+ "/" +:+ rest)) = Ok
     ∧ ∃ c, _journal (renameRecord world oldFile renameTarget p r)
            = <[renameTarget +:+ "/" +:+ rest := c]>
                (delete (oldFile +:+ "/" +:+ rest) (_journal p))).
Proof.
  intros Hpath. unfold renameRecord, replaceStart. rewrite Hpath, mid_append.
  rewrite bool_decide_eq_false_2 by apply apart.
  unfold getFileRecord, deleteFileRecord, updateMetadata, setFileRecord.
  rewrite usable. simpl.
  match goal with
  | |- context [destination ?item] =>
      assert (destination item = renameTarget +:+ "/" +:+ rest) as Hdest
        by (unfold destination; by destruct (_journal p !! _))
  end.
  rewrite Hdest.
  destruct (convertToPlaceholder _ _) eqn:Hconv; simpl.
  - intros Hquiet. exfalso. rewrite <- (app_nil_r (_done p)) in Hquiet at 2.
    by apply app_inv_head in Hquiet.
  - intros _. right. split; [done|]. eauto.
  - intros _. left. done.
Qed.




End Rename.

(** ** PropagateLocalRename of a directory *)

Lemma done_success status errorString p :
  _done (done status errorString p) = [(Success, "")] → status = Success ∧ _done p = [].
Proof.
  simpl. intros Heq. change [(Success, "")] with ([] ++ [(Success, "")]) in Heq.
  apply app_inj_tail in Heq as [-> [= -> _]]. done.
Qed.

Lemma deleteOldDbRecord_usable world fileName p :
  journalUsable world = true →
  deleteOldDbRecord world fileName p = (true, set_journal (delete fileName (_journal p)) p).
Proof.
  intros Husable. unfold deleteOldDbRecord, getFileRecord, deleteFileRecord.
  by rewrite Husable.
Qed.

Lemma filesBelowPath_below directory p :
  Forall (below directory) (filesBelowPath directory p).
Proof.
  unfold filesBelowPath. apply Forall_fmap, Forall_forall. intros [k c] Hin.
  apply list_elem_of_filter in Hin as [Hbelow _]. simpl in Hbelow.
  unfold isBelow in Hbelow. apply startsWith_inv in Hbelow as [rest ->].
  exists rest. simpl. apply append_assoc.
Qed.



(** ** PropagateLocalRemove: the records that the pruning keeps *)

Section Remove.
Variable world : World.

Lemma journal_deleteFileRecord path recursively p k :
  k ≠ path → (recursively = true → isBelow path k = false) →
  _journal (deleteFileRecord world path recursively p).2 !! k = _journal p !! k.
Proof.
  intros Hne Hbelow. unfold deleteFileRecord.
  destruct (journalUsable world); [|done]. simpl.
  destruct recursively; [|by rewrite lookup_delete_ne].
  specialize (Hbelow eq_refl). apply option_eq. intros c.
  rewrite map_lookup_filter_Some. simpl. rewrite lookup_delete_ne by done. naive_solver.
Qed.

(** The loop of [removeRecursively] leaves the record of [k] alone when no
    reported path is the path of [k] and no reported directory holds it. *)
Lemma journal_pruneDeleted deleted acc k :
  Forall (λ it : QString * bool,
            k ≠ mid (size (localPath world)) it.1
            ∧ (it.2 = true → isBelow (mid (size (localPath world)) it.1) k = false))
         deleted →
  _journal (foldl (pruneDeleted world) acc deleted).2 !! k = _journal acc.2 !! k.
Proof.
  revert acc. induction deleted as [|it l IH]; intros acc Hall; [done|].
  apply Forall_cons in Hall as [[Hne Hbelow] Hall]. simpl. rewrite IH by done.
  unfold pruneDeleted. destruct acc as [deletedDir p].
  destruct (negb _); [done|]. destruct (_ && _); [done|]. simpl.
  by apply journal_deleteFileRecord.
Qed.

(** X24: [removeRecursively] deletes no record but those of the paths that
    the file system reported as deleted and, for a reported directory, those
    below it. *)
Theorem removeRecursively_keeps_other_records item path p k :
  Forall (λ it : QString * bool,
            k ≠ mid (size (localPath world)) it.1
            ∧ (it.2 = true → isBelow (mid (size (localPath world)) it.1) k = false))
         (FileSystem_removeRecursively world (fullLocalPath world (_file item +:+ path))).1.2 →
  _journal (removeRecursively world item path p).2 !! k = _journal p !! k.
Proof.
  intros Hall. unfold removeRecursively.
  destruct (FileSystem_removeRecursively _ _) as [[success reported] errors]. simpl in Hall.
  destruct success; simpl; [done|].
  pose proof (journal_pruneDeleted (reverse reported) ("", p) k) as Hkeep.
  destruct (foldl _ _ _) as [deletedDir p']. simpl in *.
  apply Hkeep. by apply Forall_reverse.
Qed.

End Remove.

(** ** PropagateLocalRemove on a concrete directory *)

(** The failing input of C7.  The file system deletes [bc.txt], [b/x] and
    [b] and fails on [z]; the job ends with NormalError and the records of
    [b] and [b/x] are deleted, but the record of [bc.txt] stays: its path
    starts with the path of the deleted directory [b], and the loop skips
    it. *)
Lemma remove_keeps_record_of_deleted_file :
  let p := PropagateLocalRemove_start (worldOf treeA) itemA journalA in
  (FileSystem_removeRecursively (worldOf treeA) "/sync/A").1.2
  = [("/sync/A/bc.txt", false); ("/sync/A/b/x", false); ("/sync/A/b", true)]
  ∧ _done p = [(NormalError, "Error removing /sync/A/z")]
  ∧ _journal p !! "A/b" = None
  ∧ _journal p !! "A/b/x" = None
  ∧ is_Some (_journal p !! "A/z")
  ∧ is_Some (_journal p !! "A/bc.txt").
Proof. vm_compute. repeat split; eauto. Qed.

(** With [bc.txt] listed after [b] the same directory is pruned as the claim
    says. *)
Lemma remove_prunes_in_other_order :
  let tree := Directory "A" true
                [ Directory "b" true [ File "x" true ]; File "bc.txt" true; File "z" false ] in
  let p := PropagateLocalRemove_start (worldOf tree) itemA journalA in
  _done p = [(NormalError, "Error removing /sync/A/z")]
  ∧ dom (_journal p) = {[ "A"; "A/z" ]}.
Proof. vm_compute. split; reflexivity. Qed.

(** ** PropagateLocalRename on a concrete directory *)

Lemma rename_moves_child_record :
  let p := PropagateLocalRename_start (worldOf treeAx) renameAB journalAx in
  _done p = [(Success, "")]
  ∧ is_Some (_journal p !! "B/x.txt")
  ∧ _journal p !! "A/x.txt" = None
  ∧ _renamedDirectories p !! "A" = Some "B".
Proof. vm_compute. repeat split; eauto. Qed.


(** The failing input of C8.  The file [x.txt] is in use: [updateMetadata]
    answers Locked for it, the callback of the walk only looks for an error,
    and the job ends with Success after it deleted the record of [A/x.txt]
    and wrote none for [B/x.txt]. *)
Lemma rename_loses_record_of_locked_child :
  let p := PropagateLocalRename_start lockedWorld renameAB journalAx in
  is_Some (_journal journalAx !! "A/x.txt")
  ∧ _done p = [(Success, "")]
  ∧ _journal p !! "A/x.txt" = None
  ∧ _journal p !! "B/x.txt" = None
  ∧ _renamedDirectories p !! "A" = Some "B".
Proof. vm_compute. repeat split; eauto. Qed.

End PropagatorJobsFacts.

(** * Further properties of FolderMetadata *)

Module FolderMetadataMoreFacts.
Import FolderMetadata FolderMetadataNotions FolderMetadataFacts.

(** ** The order of the encrypted names *)

Lemma compare_not_Gt_trans (a b c : string) :
  (a ?= b)%string ≠ Gt → (b ?= c)%string ≠ Gt → (a ?= c)%string ≠ Gt.
Proof.
  revert b c. induction a as [|x a IH]; intros [|y b] [|z c]; simpl; try done.
  unfold Ascii.compare.
  destruct (N.compare_spec (N_of_ascii x) (N_of_ascii y)) as [Hxy|Hxy|Hxy]; [| |done].
  - rewrite Hxy. destruct (N.compare_spec (N_of_ascii y) (N_of_ascii z)); [|done..].
    apply IH.
  - destruct (N.compare_spec (N_of_ascii y) (N_of_ascii z)) as [Hyz|Hyz|Hyz]; [| |done].
    + rewrite <- Hyz. intros _ _. by rewrite (proj2 (N.compare_lt_iff _ _) Hxy).
    + intros _ _. rewrite (proj2 (N.compare_lt_iff _ _)); [done|lia].
Qed.

Lemma nameLe_compare a b : nameLe a b ↔ (a ?= b)%string ≠ Gt.
Proof. unfold nameLe, String.leb. by destruct (a ?= b)%string. Qed.

Lemma nameLe_trans : Transitive nameLe.
Proof. intros a b c. rewrite !nameLe_compare. apply compare_not_Gt_trans. Qed.

Lemma nameLe_antisym : AntiSymm eq nameLe.
Proof. intros a b. apply String.leb_antisym. Qed.

Lemma insertSorted_perm x l : insertSorted x l ≡ₚ x :: l.
Proof.
  induction l as [|y l IH]; simpl; [done|].
  destruct (String.leb x y); [done|]. by rewrite IH, Permutation_swap.
Qed.

Lemma sortedNames_perm l : sortedNames l ≡ₚ l.
Proof.
  induction l as [|x l IH]; simpl; [done|]. by rewrite insertSorted_perm, IH.
Qed.

Lemma insertSorted_sorted x l :
  StronglySorted nameLe l → StronglySorted nameLe (insertSorted x l).
Proof.
  induction 1 as [|y l Hsorted IH Hall]; simpl.
  - repeat constructor.
  - destruct (String.leb x y) eqn:Hxy.
    + constructor; [by constructor|]. constructor; [done|].
      eapply Forall_impl; [exact Hall|]. intros z Hz. by apply (nameLe_trans x y z).
    + constructor; [done|]. rewrite insertSorted_perm. constructor; [|done].
      destruct (String.leb_total x y) as [Hle|Hle]; [congruence|done].
Qed.

Lemma sortedNames_sorted l : StronglySorted nameLe (sortedNames l).
Proof.
  induction l as [|x l IH]; simpl; [constructor|]. by apply insertSorted_sorted.
Qed.

Lemma sortedNames_Permutation l1 l2 : l1 ≡ₚ l2 → sortedNames l1 = sortedNames l2.
Proof.
  intros Hperm. apply (@StronglySorted_unique _ nameLe nameLe_antisym); [apply sortedNames_sorted..|].
  by rewrite !sortedNames_perm.
Qed.

Ltac keys :=
  unfold authenticationTagKey, cipherTextKey, filesKey, filedropKey, foldersKey,
    initializationVectorKey, keyChecksumsKey, metadataJsonKey, metadataKeyKey,
    metadataKeysKey, nonceKey, usersKey, usersUserIdKey, usersCertificateKey,
    usersEncryptedMetadataKey, usersEncryptedFiledropKey, versionKey in *.

Ltac lookups :=
  repeat first
    [ rewrite lookup_insert_eq
    | rewrite lookup_insert_ne by done
    | rewrite lookup_empty ].

Section WithPlatform.
Context {platform : Platform}.

(** X1: the checksum of the legacy format does not depend on the order in
    which the files are held: the encrypted names are sorted before they are
    hashed. *)
Theorem computeMetadataKeyChecksum_any_order fm files metadataKey :
  _files fm ≡ₚ files →
  computeMetadataKeyChecksum (set_files files fm) metadataKey
  = computeMetadataKeyChecksum fm metadataKey.
Proof.
  intros Hperm. unfold computeMetadataKeyChecksum. simpl.
  by rewrite (sortedNames_Permutation (encryptedFilename <$> files)
                (encryptedFilename <$> _files fm)) by (by rewrite Hperm).
Qed.

(** ** The list of files *)

Lemma removeFirstNamed_absent name (l : list EncryptedFile) :
  name ∉ originalFilename <$> l → removeFirstNamed name l = l.
Proof.
  induction l as [|e l IH]; simpl; [done|]. intros Hnot.
  apply not_elem_of_cons in Hnot as [Hne Hnot].
  rewrite bool_decide_eq_false_2 by done. by rewrite IH.
Qed.

Lemma filter_other_names name (l : list EncryptedFile) :
  name ∉ originalFilename <$> l → filter (λ g, originalFilename g ≠ name) l = l.
Proof.
  induction l as [|e l IH]; simpl; [done|]. intros Hnot.
  apply not_elem_of_cons in Hnot as [Hne Hnot].
  rewrite filter_cons_True by done. by rewrite IH.
Qed.

Lemma removeFirstNamed_filter name (l : list EncryptedFile) :
  NoDup (originalFilename <$> l) →
  removeFirstNamed name l = filter (λ g, originalFilename g ≠ name) l.
Proof.
  induction l as [|e l IH]; simpl; [done|]. intros [Hnot Hnodup]%NoDup_cons.
  case_bool_decide as Hname.
  - subst name. rewrite filter_cons_False by (by intros ?).
    by rewrite filter_other_names.
  - rewrite filter_cons_True by done. by rewrite IH.
Qed.

(** X2: in a list whose files have distinct names, [addEncryptedFile]
    replaces the file of the same name, if there is one, and puts the new
    file last; the other files stay as they are, in their order, and the
    names stay distinct. *)
Theorem addEncryptedFile_replaces_by_name f fm :
  NoDup (originalFilename <$> _files fm) →
  _files (addEncryptedFile f fm)
  = filter (λ g, originalFilename g ≠ originalFilename f) (_files fm) ++ [f]
  ∧ NoDup (originalFilename <$> _files (addEncryptedFile f fm)).
Proof.
  intros Hnodup. simpl. rewrite removeFirstNamed_filter by done. split; [done|].
  rewrite fmap_app. apply NoDup_app. split; [|split].
  - clear -Hnodup. induction (_files fm) as [|e l IH]; simpl; [constructor|].
    apply NoDup_cons in Hnodup as [Hnot Hnodup].
    rewrite filter_cons. destruct (decide _); [|by apply IH].
    simpl. apply NoDup_cons. split; [|by apply IH].
    intros (g & Hg & [_ Hin]%list_elem_of_filter)%list_elem_of_fmap.
    apply Hnot, list_elem_of_fmap. eauto.
  - intros name (g & Hg & [Hne _]%list_elem_of_filter)%list_elem_of_fmap.
    simpl. intros Hf%list_elem_of_singleton. congruence.
  - simpl. apply NoDup_singleton.
Qed.

(** X3: [removeEncryptedFile] undoes [addEncryptedFile] when no file of the
    name was there before; it goes by the name of the file alone. *)
Theorem removeEncryptedFile_addEncryptedFile f g fm :
  originalFilename g = originalFilename f →
  originalFilename f ∉ originalFilename <$> _files fm →
  removeEncryptedFile g (addEncryptedFile f fm) = fm.
Proof.
  intros Hname Habsent. unfold removeEncryptedFile, addEncryptedFile. simpl.
  rewrite Hname, (removeFirstNamed_absent _ (_files fm)) by done.
  assert (removeFirstNamed (originalFilename f) (_files fm ++ [f]) = _files fm) as ->.
  { induction (_files fm) as [|e l IH]; simpl.
    - by rewrite bool_decide_eq_true_2.
    - apply not_elem_of_cons in Habsent as [Hne Habsent].
      rewrite bool_decide_eq_false_2 by done. by rewrite IH. }
  by destruct fm.
Qed.

(** ** Files as JSON objects *)

(** X4: [parseEncryptedFileFromJson] reads back what
    [convertFileToJsonObject] wrote for a file with a name, but for the
    mimetype inode/directory, which it turns into httpd/unix-directory; for a
    file without a name it yields the null file. *)
Theorem parseEncryptedFileFromJson_convertFileToJsonObject f metadataKey :
  (∀ b, fromBase64 (toBase64 b) = b) →
  parseEncryptedFileFromJson (encryptedFilename f)
    (JObject (convertFileToJsonObject f metadataKey))
  = if isEmpty (originalFilename f) then noFile
    else {| encryptedFilename := encryptedFilename f;
            originalFilename := originalFilename f;
            encryptionKey := encryptionKey f;
            mimetype := fixDirectoryMimetype (mimetype f);
            initializationVector := initializationVector f;
            authenticationTag := authenticationTag f |}.
Proof.
  intros Hbase64. unfold parseEncryptedFileFromJson, convertFileToJsonObject, Json.value.
  simpl. keys. lookups. simpl.
  destruct (isEmpty (originalFilename f)); [done|].
  by rewrite !Hbase64.
Qed.

(** ** The sealed part of the document *)

(** X5: [base64DecodeDecryptAndGzipUnZip] gives back what
    [gZipEncryptAndBase64Encode] was given, under the same key and
    initialization vector, when the compression, the cipher and the base64
    codec give back what they are given. *)
Theorem base64DecodeDecryptAndGzipUnZip_gZipEncryptAndBase64Encode key inputData iv zipped :
  (∀ b, fromBase64 (toBase64 b) = b) →
  gZip inputData = Some zipped → gUnZip zipped = Some inputData →
  dataDecryption key iv (dataEncryption key iv zipped).1 = Some zipped →
  base64DecodeDecryptAndGzipUnZip key (gZipEncryptAndBase64Encode key inputData iv).1 iv
  = inputData.
Proof.
  intros Hbase64 Hzip Hunzip Hgcm.
  unfold base64DecodeDecryptAndGzipUnZip, gZipEncryptAndBase64Encode.
  rewrite Hzip. destruct (dataEncryption key iv zipped) as [outputData returnTag] eqn:Henc.
  simpl in *. by rewrite Hbase64, Hgcm, Hunzip.
Qed.

(** ** The version of a document *)

Lemma metadataVersion_whole fm :
  metadataVersion fm
  = if bool_decide (2 <= _versionFromMetadata fm) then Version2_0 else Version1.
Proof. unfold metadataVersion. repeat case_bool_decide; try done; lia. Qed.

Lemma toInt_fraction num den :
  num mod Z.pos den ≠ 0 → Json.toInt (JDouble num den) = 0.
Proof. intros Hmod. simpl. by rewrite bool_decide_eq_false_2. Qed.

(** X6: the version that a document announces is read as a whole number,
    so [metadataVersion] never answers Version1_2: it is Version2_0 when the
    number read is at least 2 and Version1 otherwise, and a version that is
    not a whole number, such as 1.2, or not a number at all, is read as 0. *)
Theorem metadataVersion_of_document metadata v fm :
  embeddedVersion metadata = Some v →
  let fm' := setupVersionFromExistingMetadata metadata fm in
  metadataVersion fm'
  = (if bool_decide (2 <= Json.toInt v) then Version2_0 else Version1)
  ∧ ((∀ num den, v = JDouble num den → num mod Z.pos den ≠ 0) →
     _versionFromMetadata fm' = 0 ∧ metadataVersion fm' = Version1).
Proof.
  intros Hv fm'. unfold fm'.
  rewrite metadataVersion_whole, (setupVersionFromExistingMetadata_embedded _ _ _ Hv).
  split; [done|]. intros Hfraction.
  assert (Json.toInt v = 0) as ->; [|done].
  destruct v as [| |num den| | |]; try done.
  apply toInt_fraction. by apply Hfraction.
Qed.

(** ** The legacy format *)

(** X7: for a document of a version below 2, the only ones that
    [setupExistingMetadata] hands to the legacy parser, the checksum of the
    metadata key decides nothing: once a metadata key could be decrypted,
    the folder is marked as set up and in need of migration whatever the
    checksum says. *)
Theorem legacy_checksum_decides_nothing metadata fm :
  versionRank Version1 < versionRank Version1_2 →
  _versionFromMetadata fm < 2 →
  let fm' := setupExistingLegacyMetadataForMigration metadata fm in
  _metadataKeyForDecryption fm' ≠ "" →
  _migrationNeeded fm' = true ∧ _isMetadataSetup fm' = true.
Proof.
  intros Hrank Hversion fm'. unfold fm', setupExistingLegacyMetadataForMigration.
  clear fm'.
  generalize (fromJson (Json.toString (Json.at_ "meta-data" (Json.at_ "data"
                (Json.at_ "ocs" (fromJson metadata)))))).
  intros metaDataDoc.
  match goal with
  | |- context [isEmpty (metadataKeyForDecryption ?x) && _] => set (fm1 := x)
  end.
  assert (_versionFromMetadata fm1 = _versionFromMetadata fm) as Hv1.
  { unfold fm1. by repeat case_match. }
  clearbody fm1.
  destruct (isEmpty (metadataKeyForDecryption fm1) && _ && bool_decide (_ = ∅)) eqn:Hstop.
  { apply andb_true_iff in Hstop as [[Hempty%isEmpty_true _]%andb_true_iff _]. done. }
  match goal with
  | |- context [isEmpty (metadataKeyForDecryption ?x)] => set (fm2 := x)
  end.
  assert (_versionFromMetadata fm2 = _versionFromMetadata fm) as Hv2.
  { unfold fm2. by repeat case_match. }
  clearbody fm2.
  destruct (isEmpty (metadataKeyForDecryption fm2)) eqn:Hkey.
  { apply isEmpty_true in Hkey. intros Hne. by destruct Hne. }
  match goal with
  | |- context [if ?b then _ else set_isMetadataSetup true _] =>
      assert (b = false) as ->; [|by simpl]
  end.
  apply andb_false_iff. left. apply andb_false_iff. right.
  apply bool_decide_eq_false_2.
  rewrite metadataVersion_whole. simpl.
  assert (_versionFromMetadata
            (if isEmpty (metadataKeyForEncryption fm2)
             then set_metadataKeyForEncryption (metadataKeyForDecryption fm2) fm2
             else fm2) = _versionFromMetadata fm) as ->
    by (destruct (isEmpty (metadataKeyForEncryption fm2)); simpl; exact Hv2).
  rewrite bool_decide_eq_false_2 by lia. lia.
Qed.

(** ** The current format *)

Lemma foldl_pushParsedFile_prefix acc kvs :
  ∃ more, foldl pushParsedFile acc kvs = acc ++ more.
Proof.
  revert acc. induction kvs as [|kv kvs IH]; intros acc; simpl.
  - exists []. by rewrite app_nil_r.
  - destruct (IH (pushParsedFile acc kv)) as [more ->]. unfold pushParsedFile.
    destruct (negb _); [|by eauto]. rewrite <- app_assoc. eauto.
Qed.

Lemma foldl_pushParsedFolder_prefix acc kvs :
  ∃ more, foldl pushParsedFolder acc kvs = acc ++ more.
Proof.
  revert acc. induction kvs as [|kv kvs IH]; intros acc; simpl.
  - exists []. by rewrite app_nil_r.
  - destruct (IH (pushParsedFolder acc kv)) as [more ->]. unfold pushParsedFolder.
    destruct (negb _); [|by eauto]. rewrite <- app_assoc. eauto.
Qed.

(** X8: [setupExistingMetadata] on a document of the current format only
    ever appends to the files, and it appends nothing unless the metadata
    keys it ends with are not empty and [verifyMetadataKey] accepts the key
    for decryption against the checksums it ends with. *)
Theorem setupExistingMetadata_files_need_verified_key metadata fm :
  versionRank Version1 <= versionRank Version2_0 →
  2 <= _versionFromMetadata (setupVersionFromExistingMetadata metadata fm) →
  let fm' := setupExistingMetadata metadata fm in
  ∃ more, _files fm' = _files fm ++ more
    ∧ (more ≠ [] →
       _metadataKeyForDecryption fm' ≠ "" ∧ _metadataKeyForEncryption fm' ≠ ""
       ∧ verifyMetadataKey fm' (_metadataKeyForDecryption fm') = true).
Proof.
  intros Hrank Hversion fm'. unfold fm', setupExistingMetadata. clear fm'.
  rewrite metadataVersion_whole, (bool_decide_eq_true_2 _ Hversion).
  rewrite !bool_decide_eq_false_2 by lia.
  assert (_files (setupVersionFromExistingMetadata metadata fm) = _files fm) as Hfiles.
  { unfold setupVersionFromExistingMetadata. by repeat case_match. }
  revert Hfiles. clear Hversion.
  generalize (setupVersionFromExistingMetadata metadata fm). intros fm0 Hfiles.
  generalize (fromJson (metadataStringFromOCsDocument (fromJson metadata))).
  intros metaDataDoc.
  match goal with
  | |- context [isTopLevelFolder ?x] => set (fm1 := x)
  end.
  assert (_files fm1 = _files fm) as Hfiles1 by done.
  clearbody fm1. clear fm0 Hfiles.
  match goal with
  | |- context [isEmpty (metadataKeyForDecryption ?x)] => set (fm3 := x)
  end.
  assert (_files fm3 = _files fm) as Hfiles3 by (unfold fm3; by case_match).
  clearbody fm3.
  destruct (negb (bool_decide (Json.toArray (Json.at_ keyChecksumsKey _) = []))).
  all: repeat lazymatch goal with
  | |- ∃ more, _files (if ?b then _ else _) = _ ∧ _ =>
      destruct b eqn:?; [exists []; rewrite app_nil_r; split; [by simpl|done]|]
  end.
  all: simpl in *.
  all: match goal with
  | |- context [foldl pushParsedFolder (foldl pushParsedFile ?acc ?kvs) ?kvs2] =>
      destruct (foldl_pushParsedFile_prefix acc kvs) as [more1 Hmore1];
      destruct (foldl_pushParsedFolder_prefix (foldl pushParsedFile acc kvs) kvs2)
        as [more2 Hmore2]
  end.
  all: exists (more1 ++ more2); split;
    [by rewrite Hmore2, Hmore1, <- app_assoc, Hfiles3|intros _].
  all: apply orb_false_iff in Heqb0 as [Hdecryption%isEmpty_false Hencryption%isEmpty_false].
  all: split; [done|split; [done|]].
  all: by apply negb_false_iff.
Qed.

(** X9: [encryptedMetadata] yields a document only for metadata with a
    metadata key and, in a top-level folder, with users and key checksums;
    it then leaves the metadata as they are.  In every other case the
    result is the empty array. *)
Theorem encryptedMetadata_needs_key_users_checksums randomKey randomIv fm :
  (encryptedMetadata randomKey randomIv fm).1 ≠ "" →
  (encryptedMetadata randomKey randomIv fm).2 = fm
  ∧ _metadataKeyForEncryption fm ≠ ""
  ∧ (isTopLevelFolder fm = true → _folderUsers fm ≠ ∅ ∧ _keyChecksums fm ≠ ∅).
Proof.
  unfold encryptedMetadata.
  destruct (isTopLevelFolder fm) eqn:Htop; simpl.
  - destruct (bool_decide (_folderUsers fm = ∅)) eqn:Husers; simpl.
    + apply bool_decide_eq_true in Husers.
      set (fm1 := if bool_decide _ then _ else fm).
      assert (isTopLevelFolder fm1 = true ∧ _folderUsers fm1 = ∅) as [Htop1 Husers1].
      { unfold fm1. case_bool_decide; [|done].
        rewrite createNewMetadataKeyForEncryption_top by done. done. }
      clearbody fm1. rewrite Htop1, Husers1. simpl.
      destruct (isEmpty _); [done|]. destruct (foldl _ _ _) as [[files folders]|]; [|done].
      destruct (negb (negb _)); [done|].
      destruct (gZipEncryptAndBase64Encode _ _ _). rewrite map_to_list_empty. done.
    + apply bool_decide_eq_false in Husers. rewrite Htop.
      destruct (isEmpty (metadataKeyForEncryption fm)) eqn:Hkey; [done|].
      apply isEmpty_false in Hkey.
      destruct (foldl _ _ _) as [[files folders]|]; [|done]. simpl.
      destruct (bool_decide (JString <$> elements (_keyChecksums fm) = [])) eqn:Hsums;
        simpl; [done|].
      apply bool_decide_eq_false in Hsums.
      destruct (gZipEncryptAndBase64Encode _ _ _).
      destruct (negb _); simpl; [done|]. intros _. split; [done|]. split; [done|].
      intros _. split; [done|]. intros Hempty. apply Hsums.
      by rewrite Hempty, elements_empty.
  - destruct (isEmpty (metadataKeyForEncryption fm)) eqn:Hkey; [done|].
    apply isEmpty_false in Hkey. rewrite Htop.
    destruct (foldl _ _ _) as [[files folders]|]; [|done]. simpl.
    destruct (gZipEncryptAndBase64Encode _ _ _). simpl. done.
Qed.

(** ** A new folder *)

Lemma left_size s : left (size s) s = s.
Proof. unfold left, size. induction s as [|a s IH]; simpl; [done|]. by rewrite IH. Qed.

(** X10: [setupEmptyMetadata] makes the metadata of a new top-level folder
    fit for upload.  With a certificate of the account that has a public key
    under which the account reads back what was encrypted for it, and a
    generated key of sixteen bytes, the account is the only user and holds
    the generated key, the key for decryption is the key for encryption, and
    the checksum of the key is recorded. *)
Theorem setupEmptyMetadata_valid random fm :
  isTopLevelFolder fm = true → _requiredMetadataVersion fm = Version2_0 →
  _folderUsers fm = ∅ → _files fm = [] → "" ∉ _keyChecksums fm →
  davUser (_account fm) ≠ "" →
  certificateIsNull (e2e_certificate (_account fm)) = false →
  certificatePublicKey (e2e_certificate (_account fm)) ≠ "" →
  size random = metadataKeySize → calcSha256 random ≠ "" →
  decryptData fm (encryptData random (certificatePublicKey (e2e_certificate (_account fm))))
  = random →
  valid (setupEmptyMetadata random fm)
  ∧ _metadataKeyForDecryption (setupEmptyMetadata random fm) = random
  ∧ _metadataKeyForEncryption (setupEmptyMetadata random fm) = random
  ∧ dom (_folderUsers (setupEmptyMetadata random fm)) = {[davUser (_account fm)]}.
Proof.
  intros Htop Hrequired Husers Hfiles Hsums Hid Hcert Hkey Hsize Hsha Hread.
  assert (random ≠ "") as Hrandom.
  { intros ->. unfold metadataKeySize in Hsize. done. }
  unfold setupEmptyMetadata. rewrite Htop.
  rewrite addUser_top by done. simpl. rewrite Husers, insert_empty, map_fmap_singleton.
  rewrite rewrapFolderUser_new by done.
  split; [|by rewrite dom_singleton_L].
  split; simpl; try done.
  - rewrite Hsize. done.
  - rewrite <- Hsize, left_size. by apply rotatedChecksums_new.
  - unfold rotatedChecksums. apply isEmpty_false in Hrandom. rewrite Hrandom.
    intros [?%elem_of_singleton|Hin]%elem_of_union; [congruence|].
    destruct (isEmpty (_metadataKeyForEncryption fm)); [done|].
    by apply elem_of_difference in Hin as [? _].
  - intros u folderUser [<- <-]%lookup_singleton_Some. done.
  - eexists. rewrite lookup_singleton_eq. split; [done|]. exact Hread.
  - rewrite Hfiles. by intros f ?%elem_of_nil.
  - rewrite Hfiles. constructor.
Qed.

End WithPlatform.
End FolderMetadataMoreFacts.

(** ** On the folders of alice *)

Module FolderMetadataMoreSamples.
Import FolderMetadata FolderMetadataNotions FolderMetadataExamples.
Import FolderMetadataFacts FolderMetadataSamples FolderMetadataMoreFacts Sample.

Lemma computeMetadataKeyChecksum_any_order_on_samples :
  computeMetadataKeyChecksum (set_files [plainFile; directory] folder) "0123456789abcdef"
  = computeMetadataKeyChecksum folder "0123456789abcdef".
Proof.
  apply (computeMetadataKeyChecksum_any_order folder [plainFile; directory]).
  vm_compute. apply Permutation_swap.
Defined.

Lemma addEncryptedFile_on_samples :
  _files (addEncryptedFile renamed folder) = [directory; renamed]
  ∧ NoDup (originalFilename <$> _files (addEncryptedFile renamed folder)).
Proof.
  apply (addEncryptedFile_replaces_by_name renamed folder). by_compute.
Defined.

Lemma removeEncryptedFile_addEncryptedFile_on_samples :
  removeEncryptedFile added (addEncryptedFile added folder) = folder.
Proof.
  apply (removeEncryptedFile_addEncryptedFile added added folder); [reflexivity|].
  by_compute.
Defined.

Lemma parseEncryptedFileFromJson_on_samples :
  parseEncryptedFileFromJson "e2" (JObject (convertFileToJsonObject plainFile "")) = plainFile.
Proof.
  exact (parseEncryptedFileFromJson_convertFileToJsonObject plainFile "" sample_base64).
Defined.

Lemma base64DecodeDecryptAndGzipUnZip_on_samples :
  base64DecodeDecryptAndGzipUnZip "0123456789abcdef"
    (gZipEncryptAndBase64Encode "0123456789abcdef" "payload" "nonce").1 "nonce"
  = "payload".
Proof.
  apply (base64DecodeDecryptAndGzipUnZip_gZipEncryptAndBase64Encode
           "0123456789abcdef" "payload" "nonce" "gz:payload" sample_base64);
    reflexivity.
Defined.

Lemma metadataVersion_of_document_1_2 :
  let fm := setupVersionFromExistingMetadata (legacyDocumentOf (JDouble 6 5)) fresh in
  _versionFromMetadata fm = 0 ∧ metadataVersion fm = Version1.
Proof.
  apply (metadataVersion_of_document (legacyDocumentOf (JDouble 6 5)) (JDouble 6 5) fresh).
  - vm_compute. reflexivity.
  - intros num den [= <- <-]. vm_compute. discriminate.
Defined.

Lemma legacy_checksum_on_samples :
  let fm := setupExistingLegacyMetadataForMigration legacyDocument fresh in
  _migrationNeeded fm = true ∧ _isMetadataSetup fm = true.
Proof.
  apply (legacy_checksum_decides_nothing legacyDocument fresh).
  - vm_compute. reflexivity.
  - vm_compute. reflexivity.
  - vm_compute. discriminate.
Defined.

Lemma setupExistingMetadata_files_on_samples :
  ∃ more, _files readBack = [] ++ more
    ∧ (more ≠ [] →
       _metadataKeyForDecryption readBack ≠ "" ∧ _metadataKeyForEncryption readBack ≠ ""
       ∧ verifyMetadataKey readBack (_metadataKeyForDecryption readBack) = true).
Proof.
  apply (setupExistingMetadata_files_need_verified_key
           (ocsReply (encryptedMetadata "unused" "nonce" folder).1) fresh).
  - vm_compute. discriminate.
  - vm_compute. discriminate.
Defined.

Lemma encryptedMetadata_on_samples :
  (encryptedMetadata "unused" "nonce" folder).2 = folder
  ∧ _metadataKeyForEncryption folder ≠ ""
  ∧ (isTopLevelFolder folder = true → _folderUsers folder ≠ ∅ ∧ _keyChecksums folder ≠ ∅).
Proof.
  apply (encryptedMetadata_needs_key_users_checksums "unused" "nonce" folder).
  vm_compute. discriminate.
Defined.

Lemma setupEmptyMetadata_on_samples :
  valid (setupEmptyMetadata "0123456789abcdef" fresh)
  ∧ _metadataKeyForDecryption (setupEmptyMetadata "0123456789abcdef" fresh)
    = "0123456789abcdef"
  ∧ _metadataKeyForEncryption (setupEmptyMetadata "0123456789abcdef" fresh)
    = "0123456789abcdef"
  ∧ dom (_folderUsers (setupEmptyMetadata "0123456789abcdef" fresh)) = {[ "alice" ]}.
Proof.
  apply (setupEmptyMetadata_valid "0123456789abcdef" fresh); try reflexivity.
  - by_compute.
  - vm_compute. discriminate.
  - vm_compute. discriminate.
  - vm_compute. discriminate.
Defined.

End FolderMetadataMoreSamples.

(** * Further properties of UpdateE2eeFolderUsersMetadataJob *)

Module UpdateE2eeFolderUsersMetadataJobMoreFacts.
Import UpdateE2eeFolderUsersMetadataJob UpdateE2eeFolderUsersMetadataJobNotions.
Import UpdateE2eeFolderUsersMetadataJobFacts.

Section WithPlatform.
Context {platform : Platform}.

(** ** The certificate of a new user *)

(** X11: an Add job without a certificate asks the keychain and then the
    server for one; when neither has a certificate the job ends with 404 and
    the metadata are never fetched. *)
Theorem add_without_certificate_ends_with_404 j certificate results :
  _operation j = Add →
  certificateIsNull (_folderUserCertificate j) = true →
  certificateIsNull certificate = true →
  certificateIsNull (default "" (results !! _folderUserId j)) = true →
  _log (run [Start; CertificateFetchedFromKeychain certificate;
             CertificatesFetchedFromServer results] j)
  = _log j ++ [FetchCertificateFromKeyChain (_folderUserId j);
               GetUsersPublicKeyFromServer (_folderUserId j);
               EmitFinished 404 ("Could not fetch publicKey for user " +:+ _folderUserId j)].
Proof.
  intros Hop Hnone Hkeychain Hserver. unfold run. simpl.
  unfold start. rewrite Hop. simpl. rewrite Hnone. simpl.
  unfold slotCertificateFetchedFromKeychain. rewrite Hkeychain.
  unfold slotCertificatesFetchedFromServer. simpl. rewrite Hserver.
  unfold certificateReady. simpl. unfold slotStartE2eeMetadataJobs. simpl.
  rewrite Hop, Hserver. simpl. by rewrite <- !app_assoc.
Qed.


(** ** What a slot may do *)

Lemma log_foldl_scheduleSubJob fm l j : _log (foldl (scheduleSubJob fm) j l) = _log j.
Proof.
  revert j. induction l as [|[address [dir name]] l IH]; intros j; [done|].
  simpl. rewrite IH. by destruct dir.
Qed.

Lemma scheduleSubJobs_cases j :
  (isMetadataValid j = true ∧ _log (scheduleSubJobs j) = _log j)
  ∨ (isMetadataValid j = false
     ∧ scheduleSubJobs j
       = if bool_decide (_operation j = Add) || bool_decide (_operation j = Remove)
         then unlockFolder false j
         else act (EmitFinished (-1) (errorUpdatingMetadata j)) j).
Proof.
  unfold scheduleSubJobs, isMetadataValid.
  destruct (folderMetadata _) as [fm|]; [|by right].
  destruct (isValid _); [|by right]. left. split; [done|]. simpl.
  apply log_foldl_scheduleSubJob.
Qed.

Lemma log_act a j : _log (act a j) = _log j ++ [a].
Proof. reflexivity. Qed.

Ltac booleans :=
  repeat match goal with
         | H : negb _ = true |- _ => apply negb_true_iff in H
         | H : negb _ = false |- _ => apply negb_false_iff in H
         | H : _ && _ = true |- _ => apply andb_true_iff in H as [? ?]
         | H : _ || _ = false |- _ => apply orb_false_iff in H as [? ?]
         | H : bool_decide _ = true |- _ => apply bool_decide_eq_true in H
         | H : bool_decide _ = false |- _ => apply bool_decide_eq_false in H
         end.

Ltac leaf :=
  simpl; rewrite <- ?app_assoc;
  first [ exists []; split; [by rewrite app_nil_r|constructor]
        | eexists; split; [reflexivity|];
          repeat first [apply Forall_nil_2 | apply Forall_cons_2];
          simpl; booleans; try done; try congruence ].

Lemma deliver_permitted e j :
  ∃ extra, _log (deliver e j) = _log j ++ extra
           ∧ Forall (permitted e j (deliver e j)) extra.
Proof.
  destruct e as [|certificate|results| |random statusCode message|code message
                 |folderId httpStatus|sender code message]; simpl.
  - unfold start, certificateReady, slotStartE2eeMetadataJobs.
    repeat (case_bool_decide || case_match); simplify_eq/=; leaf.
  - unfold slotCertificateFetchedFromKeychain, certificateReady, slotStartE2eeMetadataJobs.
    repeat (case_bool_decide || case_match); simplify_eq/=; leaf.
  - unfold slotCertificatesFetchedFromServer, certificateReady, slotStartE2eeMetadataJobs.
    repeat (case_bool_decide || case_match); simplify_eq/=; leaf.
  - unfold certificateReady, slotStartE2eeMetadataJobs.
    repeat (case_bool_decide || case_match); simplify_eq/=; leaf.
  - unfold slotFetchMetadataJobFinished, startUpdate.
    repeat (case_bool_decide || case_match); simplify_eq/=; leaf.
    all: split; [done|split; [done|split; [done|]]].
    + exists random, message. eexists. split; [done|]. split; [done|].
      match goal with H : _operation j = Add |- _ => rewrite H end.
      by destruct (FolderMetadata.addUser _ _ _ _) as [? ?]; simplify_eq/=.
    + exists random, message. eexists. split; [done|]. split; [done|].
      match goal with H : _operation j = Remove |- _ => rewrite H end.
      by destruct (FolderMetadata.removeUser _ _ _) as [? ?]; simplify_eq/=.
    + match goal with H : isMetadataValid _ = true |- _ => unfold isMetadataValid in H end.
      destruct (folderMetadata _) as [fm|] eqn:Hfm; [|done].
      exists random, message, fm. split; [done|]. split; [done|].
      by destruct (_operation _).
  - unfold slotUpdateMetadataFinished.
    case_bool_decide as Hcode.
    { repeat (case_bool_decide || case_match); simplify_eq/=; leaf. }
    destruct (bool_decide (_operation j = Add) || bool_decide (_operation j = Remove))
      eqn:Hop.
    2: { leaf. intros _. right. exists message. split; [by f_equal; lia|]. done. }
    destruct (scheduleSubJobs_cases j) as [[_ Hlog]|[_ Hinvalid]].
    + destruct (bool_decide (_subJobs (scheduleSubJobs j) = ∅)).
      * unfold unlockFolder. rewrite log_act, Hlog.
        eexists. split; [reflexivity|]. by repeat constructor.
      * destruct (startLastSubJob_cases (scheduleSubJobs j)) as [[_ ->]|(job & _ & ->)].
        -- rewrite Hlog. exists []. split; [by rewrite app_nil_r|constructor].
        -- rewrite log_act, Hlog. eexists. split; [reflexivity|]. by repeat constructor.
    + rewrite Hinvalid, Hop. unfold unlockFolder.
      destruct (bool_decide (_subJobs _ = ∅)).
      * rewrite !log_act, <- app_assoc. eexists. split; [reflexivity|].
        by repeat constructor.
      * destruct (startLastSubJob_cases (act (UnlockFolder false) j))
          as [[_ ->]|(job & _ & ->)]; rewrite !log_act, <- ?app_assoc;
          (eexists; split; [reflexivity|]; by repeat constructor).
  - unfold slotFolderUnlocked. leaf. intros ->. left. eauto.
  - unfold slotSubJobFinished, subJobsFinished, unlockFolder.
    case_bool_decide; [leaf|]. destruct sender as [job|]; [|leaf].
    set (path := default "" _).
    destruct (bool_decide (path ∈ _subJobSyncItems j)); simpl.
    all: destruct (bool_decide (_ = ∅)); [leaf|].
    all: match goal with
         | |- context [startLastSubJob ?x] =>
             destruct (startLastSubJob_cases x) as [[_ ->]|(next & _ & ->)]
         end; leaf.
Qed.

Lemma permitted_in e j extra a :
  _log (deliver e j) = _log j ++ extra → a ∈ extra → permitted e j (deliver e j) a.
Proof.
  intros Hlog Hin. destruct (deliver_permitted e j) as (extra' & Hlog' & Hall).
  rewrite Hlog in Hlog'. apply app_inv_head in Hlog' as <-.
  by apply (proj1 (Forall_forall _ _) Hall).
Qed.

(** X13: whatever the signal, a slot asks for the metadata only when the
    journal has a valid root encrypted folder record for the folder and, in
    an Add job, the certificate of the new user is there. *)
Theorem metadata_fetched_only_with_root_record e j extra :
  _log (deliver e j) = _log j ++ extra → FetchMetadata ∈ extra →
  rootE2eFolderRecordValid (_journalDb j) = true
  ∧ (_operation j = Add →
     certificateIsNull (_folderUserCertificate (deliver e j)) = false).
Proof. intros Hlog Hin. exact (permitted_in _ _ _ _ Hlog Hin). Qed.

(** X14: whatever the signal, the metadata are uploaded only by the slot of
    a successful fetch of valid metadata, with the lock kept and the token of
    the job; in an Add or Remove job the metadata uploaded are those that
    [addUser] or [removeUser] left when it returned true, and in a ReEncrypt
    job they are the metadata that were fetched. *)
Theorem metadata_uploaded_only_after_user_operation e j extra keepLock :
  _log (deliver e j) = _log j ++ extra → UploadMetadata keepLock ∈ extra →
  keepLock = true
  ∧ isMetadataValid j = true
  ∧ folderToken (_fetchAndUploadE2eeFolderMetadataJob (deliver e j)) = _folderToken j
  ∧ ∃ random message fm,
      e = FetchFinished random 200 message
      ∧ folderMetadata (_fetchAndUploadE2eeFolderMetadataJob j) = Some fm
      ∧ match _operation j with
        | Invalid => False
        | Add =>
            FolderMetadata.addUser random (_folderUserId j) (_folderUserCertificate j) fm
            = (true, default fm (folderMetadata
                                   (_fetchAndUploadE2eeFolderMetadataJob (deliver e j))))
        | Remove =>
            FolderMetadata.removeUser random (_folderUserId j) fm
            = (true, default fm (folderMetadata
                                   (_fetchAndUploadE2eeFolderMetadataJob (deliver e j))))
        | ReEncrypt =>
            folderMetadata (_fetchAndUploadE2eeFolderMetadataJob (deliver e j)) = Some fm
        end.
Proof. intros Hlog Hin. exact (permitted_in _ _ _ _ Hlog Hin). Qed.

(** X15: whatever the signal, [finished] is emitted with the code 200 only
    by the slot of an unlock request that ended with 200 and, in a job that
    neither adds nor removes a user, by the slot of an upload that ended
    with 200. *)
Theorem finished_200_only_after_unlock_or_upload e j extra message :
  _log (deliver e j) = _log j ++ extra → EmitFinished 200 message ∈ extra →
  (∃ folderId, e = FolderUnlocked folderId 200)
  ∨ (∃ message', e = UploadFinished 200 message'
                 ∧ _operation j ≠ Add ∧ _operation j ≠ Remove).
Proof. intros Hlog Hin. exact (permitted_in _ _ _ _ Hlog Hin eq_refl). Qed.

(** ** A ReEncrypt job *)

(** X16: a ReEncrypt job for a folder with a root encrypted folder record
    and valid metadata uploads the metadata as they were fetched, passes the
    code of the upload on in [finished], and neither unlocks the folder nor
    schedules a sub-job. *)
Theorem reencrypt_passes_upload_code_on j random message code message' :
  _operation j = ReEncrypt →
  rootE2eFolderRecordValid (_journalDb j) = true → isMetadataValid j = true →
  let j' := run [Start; FetchFinished random 200 message; UploadFinished code message'] j in
  _log j' = _log j ++ [FetchMetadata; UploadMetadata true;
                       EmitFinished code
                         (if bool_decide (code = 200) then ""
                          else errorUpdatingMetadata j +:+ ":" +:+ message')]
  ∧ folderMetadata (_fetchAndUploadE2eeFolderMetadataJob j')
    = folderMetadata (_fetchAndUploadE2eeFolderMetadataJob j)
  ∧ _subJobs j' = _subJobs j.
Proof.
  intros Hop Hroot Hvalid. unfold run. simpl.
  unfold start. rewrite Hop. simpl. unfold slotStartE2eeMetadataJobs. rewrite Hop, Hroot.
  simpl. unfold slotFetchMetadataJobFinished. simpl.
  assert (isMetadataValid (act FetchMetadata j) = true) as -> by done. simpl.
  unfold startUpdate. simpl. rewrite Hop. simpl.
  unfold slotUpdateMetadataFinished. simpl. rewrite Hop. simpl.
  case_bool_decide as Hcode.
  - rewrite bool_decide_eq_false_2 by done. simpl. by rewrite <- !app_assoc.
  - subst code. rewrite bool_decide_eq_true_2 by done. simpl. by rewrite <- !app_assoc.
Qed.

(** ** The sub-jobs *)

Lemma foldl_scheduleSubJob fm l k j :
  let j' := foldl (scheduleSubJob fm) j (zip (seq k (length l)) l) in
  _fetchAndUploadE2eeFolderMetadataJob j' = _fetchAndUploadE2eeFolderMetadataJob j
  ∧ (∀ i, i ∈ _subJobs j'
          ↔ i ∈ _subJobs j ∨ ∃ n name, i = (k + n)%nat ∧ l !! n = Some (true, name))
  ∧ (∀ n name, l !! n = Some (true, name) →
       subJobObjects j' !! (k + n)%nat
       = Some {| sub_path := name;
                 sub_metadataKeyForEncryption := FolderMetadata.metadataKeyForEncryption fm;
                 sub_metadataKeyForDecryption := FolderMetadata.metadataKeyForDecryption fm;
                 sub_keyChecksums :=
                   FolderMetadata.keyChecksums fm
                   ∪ keyChecksumsRemoved (_fetchAndUploadE2eeFolderMetadataJob j);
                 sub_folderToken := folderToken (_fetchAndUploadE2eeFolderMetadataJob j) |})
  ∧ (∀ i, (i < k)%nat → subJobObjects j' !! i = subJobObjects j !! i).
Proof.
  revert k j. induction l as [|[dir name] l IH]; intros k j; simpl.
  { split; [done|]. split; [|done]. intros i. split; [auto|]. by intros [?|(n & ? & _ & ?)]. }
  destruct (IH (S k) (scheduleSubJob fm j (k, (dir, name)))) as (Hh & Hjobs & Hobjects & Hold).
  assert (_fetchAndUploadE2eeFolderMetadataJob (scheduleSubJob fm j (k, (dir, name)))
          = _fetchAndUploadE2eeFolderMetadataJob j) as Hstep by (by destruct dir).
  rewrite Hstep in Hh, Hobjects.
  split; [done|]. split; [|split].
  - intros i. rewrite Hjobs. split.
    + intros [Hin|(n & name' & -> & Hn)].
      * destruct dir; simpl in Hin; [|by left].
        apply elem_of_union in Hin as [->%elem_of_singleton|Hin]; [|by left].
        right. exists 0%nat, name. split; [lia|done].
      * right. exists (S n), name'. split; [lia|done].
    + intros [Hin|(n & name' & -> & Hn)].
      * left. destruct dir; simpl; [|done]. set_solver.
      * destruct n as [|n]; simpl in Hn.
        -- injection Hn as -> ->. left. simpl. rewrite Nat.add_0_r. set_solver.
        -- right. exists n, name'. split; [lia|done].
  - intros [|n] name' Hn; simpl in Hn.
    + injection Hn as -> ->. rewrite Nat.add_0_r, Hold by lia. simpl.
      by rewrite lookup_insert_eq.
    + replace (k + S n)%nat with (S k + n)%nat by lia. by apply Hobjects.
  - intros i Hi. rewrite Hold by lia. destruct dir; simpl; [|done].
    rewrite lookup_insert_ne by lia. done.
Qed.

(** X17: for valid metadata, [scheduleSubJobs] of a job that has no
    sub-job yet makes one sub-job for every directory record below the path
    and none for a file; each sub-job is for the directory's mangled name
    and carries the metadata keys of the folder, its key checksums together
    with the removed ones, and the folder token of the handler.  Nothing is
    started or emitted yet. *)
Theorem scheduleSubJobs_one_job_per_directory j fm :
  folderMetadata (_fetchAndUploadE2eeFolderMetadataJob j) = Some fm →
  isValid (_fetchAndUploadE2eeFolderMetadataJob j) = true →
  _subJobs j = ∅ → subJobObjects j = ∅ →
  let j' := scheduleSubJobs j in
  _log j' = _log j
  ∧ (∀ i, i ∈ _subJobs j'
          ↔ ∃ name, filesBelowPath (_journalDb j) !! i = Some (true, name))
  ∧ (∀ i name, filesBelowPath (_journalDb j) !! i = Some (true, name) →
       subJobObjects j' !! i
       = Some {| sub_path := name;
                 sub_metadataKeyForEncryption := FolderMetadata.metadataKeyForEncryption fm;
                 sub_metadataKeyForDecryption := FolderMetadata.metadataKeyForDecryption fm;
                 sub_keyChecksums :=
                   FolderMetadata.keyChecksums fm
                   ∪ keyChecksumsRemoved (_fetchAndUploadE2eeFolderMetadataJob j);
                 sub_folderToken := folderToken (_fetchAndUploadE2eeFolderMetadataJob j) |}).
Proof.
  intros Hfm Hvalid Hjobs Hobjects. unfold scheduleSubJobs. rewrite Hfm, Hvalid. simpl.
  rewrite Hobjects, map_size_empty.
  destruct (foldl_scheduleSubJob fm (filesBelowPath (_journalDb j)) 0 j)
    as (_ & Hin & Hsub & _).
  split; [apply log_foldl_scheduleSubJob|]. split.
  - intros i. rewrite Hin, Hjobs. split.
    + intros [?|(n & name & -> & Hn)]; [set_solver|]. eauto.
    + intros [name Hn]. right. exists i, name. done.
  - intros i name Hn. by apply (Hsub i name).
Qed.

End WithPlatform.
End UpdateE2eeFolderUsersMetadataJobMoreFacts.

(** ** On the jobs for the shared folder *)

Module UpdateE2eeFolderUsersMetadataJobMoreSamples.
Import UpdateE2eeFolderUsersMetadataJob UpdateE2eeFolderUsersMetadataJobNotions.
Import UpdateE2eeFolderUsersMetadataJobFacts UpdateE2eeFolderUsersMetadataJobMoreFacts.
Import Sample FolderMetadataSamples.

Lemma addition_without_certificate :
  _log (run [Start; CertificateFetchedFromKeychain ""; CertificatesFetchedFromServer ∅]
          addition)
  = [FetchCertificateFromKeyChain "carol"; GetUsersPublicKeyFromServer "carol";
     EmitFinished 404 "Could not fetch publicKey for user carol"].
Proof.
  apply (add_without_certificate_ends_with_404 addition "" ∅); reflexivity.
Defined.


Lemma removal_fetches_with_root_record :
  rootE2eFolderRecordValid (_journalDb removal) = true
  ∧ (_operation removal = Add →
     certificateIsNull (_folderUserCertificate (deliver Start removal)) = false).
Proof.
  apply (metadata_fetched_only_with_root_record Start removal [FetchMetadata]).
  - reflexivity.
  - constructor.
Defined.

Lemma removal_uploads_after_removeUser :
  ∃ random message fm,
    FetchFinished "fedcba9876543210" 200 "" = FetchFinished random 200 message
    ∧ folderMetadata (_fetchAndUploadE2eeFolderMetadataJob removal) = Some fm
    ∧ FolderMetadata.removeUser random "bob" fm
      = (true, default fm
                 (folderMetadata
                    (_fetchAndUploadE2eeFolderMetadataJob
                       (deliver (FetchFinished "fedcba9876543210" 200 "") removal)))).
Proof.
  apply (metadata_uploaded_only_after_user_operation
           (FetchFinished "fedcba9876543210" 200 "") removal [UploadMetadata true] true).
  - reflexivity.
  - constructor.
Defined.

Lemma removal_reports_200_after_unlock :
  (∃ folderId, FolderUnlocked "id" 200 = FolderUnlocked folderId 200)
  ∨ (∃ message', FolderUnlocked "id" 200 = UploadFinished 200 message'
                 ∧ _operation removal ≠ Add ∧ _operation removal ≠ Remove).
Proof.
  apply (finished_200_only_after_unlock_or_upload (FolderUnlocked "id" 200) removal
           [EmitFinished 200 ""] "").
  - reflexivity.
  - constructor.
Defined.

Lemma reencryption_passes_500_on :
  let j' := run [Start; FetchFinished "" 200 ""; UploadFinished 500 "locked"] reencryption in
  _log j' = [FetchMetadata; UploadMetadata true;
             EmitFinished 500 "Error updating metadata for a folder /shared/sub1:locked"]
  ∧ folderMetadata (_fetchAndUploadE2eeFolderMetadataJob j')
    = folderMetadata (_fetchAndUploadE2eeFolderMetadataJob reencryption)
  ∧ _subJobs j' = _subJobs reencryption.
Proof.
  apply (reencrypt_passes_upload_code_on reencryption "" "" 500 "locked"); reflexivity.
Defined.

Lemma removal_schedules_two_sub_jobs :
  let j' := scheduleSubJobs removal in
  _log j' = []
  ∧ (∀ i, i ∈ _subJobs j'
          ↔ ∃ name, filesBelowPath (_journalDb removal) !! i = Some (true, name))
  ∧ (∀ i name, filesBelowPath (_journalDb removal) !! i = Some (true, name) →
       subJobObjects j' !! i
       = Some {| sub_path := name;
                 sub_metadataKeyForEncryption :=
                   FolderMetadata.metadataKeyForEncryption FolderMetadataExamples.shared;
                 sub_metadataKeyForDecryption :=
                   FolderMetadata.metadataKeyForDecryption FolderMetadataExamples.shared;
                 sub_keyChecksums :=
                   FolderMetadata.keyChecksums FolderMetadataExamples.shared ∪ ∅;
                 sub_folderToken := "token" |}).
Proof.
  apply (scheduleSubJobs_one_job_per_directory removal FolderMetadataExamples.shared);
    reflexivity.
Defined.

Lemma removal_runs_sub_jobs_one_at_a_time :
  let events := [SubJobFinished (Some 0%nat) 200 ""] in
  let j' := run (UploadFinished 200 "" :: events) removal in
  NoDup (started j')
  ∧ (base.size (running events j') ≤ 1)%nat
  ∧ (¬ Forall succeeded events → running events j' = ∅).
Proof.
  apply (subJobs_run_one_at_a_time removal 200 "" [SubJobFinished (Some 0%nat) 200 ""]).
  - right. reflexivity.
  - reflexivity.
  - apply (phase_signal _ [] _ 0%nat 200 ""); [apply phase_begin|]. by_compute.
Defined.

End UpdateE2eeFolderUsersMetadataJobMoreSamples.

(** * Further properties of the local jobs *)

Module PropagatorJobsMoreFacts.
Import PropagatorJobs PropagatorJobsNotions PropagatorJobsFacts.

Section InWorld.
Variable world : World.

(** ** PropagateLocalMkdir *)

(** X18: [PropagateLocalMkdir] calls [done] exactly once unless the sync
    is being aborted.  When it ends with Success, or with Conflict, which it
    does exactly for an item of the conflict instruction, the journal has
    gained the record of the directory with the etag _invalid_ and is
    otherwise as before; when it ends with an error the journal is as
    before. *)
Theorem PropagateLocalMkdir_records_directory helpers deleteExistingFile conflict item p :
  _abortRequested world = false → _renameTarget item = "" →
  let p' := PropagateLocalMkdir_start world helpers deleteExistingFile conflict item p in
  ∃ status errorString,
    _done p' = _done p ++ [(status, errorString)]
    ∧ _renamedDirectories p' = _renamedDirectories p
    ∧ match status with
      | Success | Conflict =>
          (status = Conflict ↔ conflict = true)
          ∧ _journal p'
            = <[_file item := {| col_isDirectory := isDirectory item;
                                 col_etag := "_invalid_";
                                 col_checksumHeader := _checksumHeader item |}]>
                (_journal p)
      | _ => _journal p' = _journal p
      end.
Proof.
  intros Habort Htarget p'. unfold p', PropagateLocalMkdir_start, startLocalMkdir.
  rewrite Habort. clear p'.
  unfold updateMetadata, setFileRecord, toSyncJournalFileRecord, destination. simpl.
  rewrite Htarget. simpl.
  repeat case_match; simplify_eq/=; eexists _, _; (split; [reflexivity|]); (split; [done|]);
    try done.
  all: destruct conflict; simpl; split; done.
Qed.

(** ** PropagateLocalRemove *)

Lemma lookup_deleteFileRecord path recursively p k :
  journalUsable world = true →
  _journal (deleteFileRecord world path recursively p).2 !! k
  = if bool_decide (k = path) || (recursively && isBelow path k) then None
    else _journal p !! k.
Proof.
  intros Husable. unfold deleteFileRecord. rewrite Husable. simpl.
  case_bool_decide as Hk; simpl.
  - subst k. destruct recursively; [|by rewrite lookup_delete_eq].
    apply map_lookup_filter_None. left. by rewrite lookup_delete_eq.
  - destruct recursively; simpl; [|by rewrite lookup_delete_ne].
    destruct (isBelow path k) eqn:Hbelow.
    + apply map_lookup_filter_None. right. intros c _. simpl. congruence.
    + apply option_eq. intros c. rewrite map_lookup_filter_Some. simpl.
      rewrite lookup_delete_ne by done. naive_solver.
Qed.

(** X19: when [PropagateLocalRemove] ends with Success, the journal has
    lost the record of the item and, for a directory, every record below
    it, and has kept every other record. *)
Theorem PropagateLocalRemove_success_prunes item p k :
  journalUsable world = true → _done p = [] →
  _done (PropagateLocalRemove_start world item p) = [(Success, "")] →
  _journal (PropagateLocalRemove_start world item p) !! k
  = if bool_decide (k = _originalFile item)
       || (isDirectory item && isBelow (_originalFile item) k)
    then None else _journal p !! k.
Proof.
  intros Husable Hnone. unfold PropagateLocalRemove_start.
  destruct (_abortRequested world); [by rewrite Hnone|].
  destruct (localFileNameClash world _); [by intros [? _]%done_success|].
  assert (∀ q, _journal q = _journal p →
            _journal (done Success ""
                        (deleteFileRecord world (_originalFile item) (isDirectory item) q).2)
            !! k
            = if bool_decide (k = _originalFile item)
                 || (isDirectory item && isBelow (_originalFile item) k)
              then None else _journal p !! k) as Hfinish.
  { intros q Hq. simpl. rewrite lookup_deleteFileRecord by done. by rewrite Hq. }
  destruct (_moveFilesToTrash world).
  { destruct (isDirectoryOnDisk world _ || fileExists world _);
      [destruct (moveToTrash world _); [by intros [? _]%done_success|]|];
      intros _; by apply Hfinish. }
  destruct (isDirectory item) eqn:Hdir.
  - destruct (isDirectoryOnDisk world _); [|intros _; by apply Hfinish].
    unfold removeRecursively.
    destruct (FileSystem_removeRecursively world _) as [[success reported] errors].
    destruct success; simpl.
    + intros _. by apply (Hfinish p).
    + destruct (foldl _ _ _). by intros [? _]%done_success.
  - destruct (fileExists world _);
      [destruct (FileSystem_remove world _); [by intros [? _]%done_success|]|];
      intros _; by apply Hfinish.
Qed.

(** ** PropagateLocalRename of a file *)

(** X20: when [PropagateLocalRename] of a file ends with Success, the
    virtual file system did not report the target as in use, the records
    under the old names are gone, and the journal holds the record of the
    item under the rename target, with the checksum header of the old
    record when there was one; every other record and the renamed
    directories are as before. *)
Theorem PropagateLocalRename_file_keeps_checksum item p :
  isDirectory item = false → _renameTarget item ≠ "" → _done p = [] →
  let p' := PropagateLocalRename_start world item p in
  let previous := adjustRenamedPath world (_renamedDirectories p) (_file item) in
  let moved := negb (fileExists world (fullLocalPath world (_originalFile item))) in
  let old := _journal p !! (if moved then previous else _originalFile item) in
  _done p' = [(Success, "")] →
  convertToPlaceholder world (fullLocalPath world (_renameTarget item)) = Ok
  ∧ _journal p'
    = <[_renameTarget item :=
          {| col_isDirectory := false; col_etag := _etag item;
             col_checksumHeader :=
               match old with
               | Some columns => col_checksumHeader columns
               | None => _checksumHeader item
               end |}]>
        (delete (_originalFile item)
           (if moved then delete previous (_journal p) else _journal p))
  ∧ _renamedDirectories p' = _renamedDirectories p.
Proof.
  intros Hdir Htarget Hnone p' previous moved old. unfold p', PropagateLocalRename_start.
  clear p'. fold previous. fold moved.
  destruct (_abortRequested world); [by rewrite Hnone|].
  rewrite Hdir.
  destruct (negb (bool_decide _));
    [destruct (_ && _);
       [simpl; by intros [? _]%done_success
       |destruct (fileSystemRename _ _ _); [simpl; by intros [? _]%done_success|]]|].
  all: unfold getFileRecord; destruct (journalUsable world) eqn:Husable;
    [|simpl; by intros [? _]%done_success].
  all: fold old.
  all: clearbody old; clearbody moved; clearbody previous.
  all: assert (isEmpty (_renameTarget item) = false) as Hempty
         by (by apply bool_decide_eq_false_2).
  all: destruct moved; simpl; rewrite ?(deleteOldDbRecord_usable _ _ _ Husable); simpl.
  all: unfold updateMetadata, setFileRecord, toSyncJournalFileRecord, destination.
  all: destruct old as [columns|]; simpl; rewrite Hempty, Husable, ?Hdir.
  all: destruct (convertToPlaceholder world _) eqn:Hconvert; simpl;
    try (by intros [? _]%done_success).
  all: destruct (pinState world _);
    [destruct (_ && _); [simpl; by intros [? _]%done_success|]|].
  all: intros _; simpl; done.
Qed.



(** ** PropagateLocalRename of a directory *)

Lemma walk_frame oldFile renameTarget l p k :
  (∀ s t, oldFile +:+ "/" +:+ s ≠ renameTarget +:+ "/" +:+ t) →
  journalUsable world = true →
  Forall (below oldFile) l →
  _done (foldl (renameRecord world oldFile renameTarget) p l) = _done p →
  (∀ s, k ≠ oldFile +:+ "/" +:+ s) → (∀ t, k ≠ renameTarget +:+ "/" +:+ t) →
  _journal (foldl (renameRecord world oldFile renameTarget) p l) !! k = _journal p !! k.
Proof.
  intros Hapart Husable Hbelow Hquiet Hold Hnew. revert p Hquiet.
  induction Hbelow as [|r l [rest Hpath] Hbelow IH]; intros p Hquiet; [done|].
  apply (quiet_walk_cons world oldFile renameTarget Husable) in Hquiet as [Hstep Hrest].
  simpl. rewrite IH by done.
  destruct (journal_renameRecord world oldFile renameTarget Hapart Husable p r rest
              Hpath Hstep) as [[_ ->]|[_ [c ->]]].
  - by rewrite lookup_delete_ne.
  - rewrite lookup_insert_ne by done. by rewrite lookup_delete_ne.
Qed.

(** X21: when the rename of a directory ends with Success, the record of
    the directory itself is gone and none is written for it under the new
    name by this job, and every record that lies neither below the old nor
    below the new directory is as before. *)
Theorem rename_directory_frame item p k :
  isDirectory item = true → _originalFile item = _file item →
  (∀ s t, _file item +:+ "/" +:+ s ≠ _renameTarget item +:+ "/" +:+ t) →
  adjustRenamedPath world (_renamedDirectories p) (_file item) = _file item →
  _done p = [] →
  _done (PropagateLocalRename_start world item p) = [(Success, "")] →
  (∀ s, k ≠ _file item +:+ "/" +:+ s) → (∀ t, k ≠ _renameTarget item +:+ "/" +:+ t) →
  _journal (PropagateLocalRename_start world item p) !! k
  = if bool_decide (k = _file item) then None else _journal p !! k.
Proof.
  intros Hdir Horiginal Hapart Hprevious Hnone.
  unfold PropagateLocalRename_start.
  destruct (_abortRequested world); [by rewrite Hnone|].
  rewrite Hprevious, Horiginal, Hdir.
  destruct (negb (bool_decide _));
    [destruct (_ && _);
       [simpl; by intros [? _]%done_success
       |destruct (fileSystemRename _ _ _); [simpl; by intros [? _]%done_success|]]|].
  all: destruct (negb (fileExists _ _)).
  all: unfold getFileRecord; destruct (journalUsable world) eqn:Husable;
    [|simpl; by intros [? _]%done_success].
  all: rewrite ?(deleteOldDbRecord_usable _ _ _ Husable); simpl.
  all: rewrite ?(deleteOldDbRecord_usable _ _ _ Husable); simpl.
  all: unfold getFilesBelowPath; rewrite Husable; simpl.
  all: match goal with
       | |- context [foldl _ ?q _] => set (p1 := q)
       end.
  all: assert (_done p1 = []) as Hp1 by done.
  all: assert (_journal p1 !! k = if bool_decide (k = _file item) then None
                                  else _journal p !! k) as Hk1
         by (subst p1; simpl; case_bool_decide as Hk;
             [subst k; by rewrite !lookup_delete_eq|by rewrite !lookup_delete_ne]).
  all: clearbody p1.
  all: destruct (negb (adjustSelectiveSync _ _ _)); [simpl; by intros [? _]%done_success|].
  all: destruct (pinState _ _); [destruct (_ && _); [simpl; by intros [? _]%done_success|]|].
  all: intros [_ Hquiet]%done_success Hold Hnew; simpl in *.
  all: rewrite <- Hk1.
  all: apply walk_frame; try done; [apply filesBelowPath_below|by rewrite Hquiet, Hp1].
Qed.

End InWorld.
End PropagatorJobsMoreFacts.

(** ** On concrete directories *)

Module PropagatorJobsMoreSamples.
Import PropagatorJobs PropagatorJobsNotions PropagatorJobsFacts PropagatorJobsMoreFacts.

Lemma mkdir_C_records_directory :
  let p' := PropagateLocalMkdir_start (worldOf treeAx) helpersOk false false mkdirC journalAx in
  ∃ status errorString,
    _done p' = [] ++ [(status, errorString)]
    ∧ _renamedDirectories p' = ∅
    ∧ match status with
      | Success | Conflict =>
          (status = Conflict ↔ false = true)
          ∧ _journal p'
            = <["C" := {| col_isDirectory := true; col_etag := "_invalid_";
                          col_checksumHeader := "" |}]> (_journal journalAx)
      | _ => _journal p' = _journal journalAx
      end.
Proof.
  apply (PropagateLocalMkdir_records_directory (worldOf treeAx) helpersOk false false
           mkdirC journalAx); reflexivity.
Defined.

Lemma remove_A_prunes_child :
  _journal (PropagateLocalRemove_start (worldOf treeAx) itemA journalAx) !! "A/x.txt" = None.
Proof.
  apply (PropagateLocalRemove_success_prunes (worldOf treeAx) itemA journalAx "A/x.txt");
    reflexivity.
Defined.

Lemma rename_x_to_y_keeps_checksum :
  let p' := PropagateLocalRename_start (worldOf treeAx) renameXY journalWithChecksum in
  convertToPlaceholder (worldOf treeAx) (fullLocalPath (worldOf treeAx) "A/y.txt") = Ok
  ∧ _journal p'
    = <["A/y.txt" := {| col_isDirectory := false; col_etag := "etag2";
                        col_checksumHeader := "SHA1:abc" |}]>
        (delete "A/x.txt" (delete "A/x.txt" (_journal journalWithChecksum)))
  ∧ _renamedDirectories p' = ∅.
Proof.
  apply (PropagateLocalRename_file_keeps_checksum (worldOf treeAx) renameXY
           journalWithChecksum); try reflexivity.
  vm_compute. discriminate.
Defined.

Lemma rename_A_to_B_drops_own_record :
  _journal (PropagateLocalRename_start (worldOf treeAx) renameAB journalAx) !! "A" = None.
Proof.
  apply (rename_directory_frame (worldOf treeAx) renameAB journalAx "A"); try reflexivity.
  - intros s t Heq. vm_compute in Heq. discriminate.
  - intros s Heq. vm_compute in Heq. discriminate.
  - intros t Heq. vm_compute in Heq. discriminate.
Defined.

Lemma remove_A_keeps_record_of_z :
  _journal (removeRecursively (worldOf treeA) itemA "" journalA).2 !! "A/z"
  = _journal journalA !! "A/z".
Proof.
  apply (removeRecursively_keeps_other_records (worldOf treeA) itemA "" journalA "A/z").
  vm_compute. repeat constructor; discriminate.
Defined.

End PropagatorJobsMoreSamples.

(** * Properties of UpdateE2eeFolderMetadataJob *)

Module UpdateE2eeFolderMetadataJobFacts.
Import PropagatorJobs UpdateE2eeFolderMetadataJob UpdateE2eeFolderMetadataJobNotions.

Section WithPlatform.
Context {platform : Platform}.
Variable environment : Environment.

Lemma fileDrop_log_act a j : _log (act a j) = _log j ++ [a].
Proof. reflexivity. Qed.

Lemma unlockFolder_false_permitted e j j' :
  unlockFolder environment false j = Some j' →
  ∃ extra, _log j' = _log j ++ extra ∧ Forall (permitted environment e j') extra.
Proof.
  unfold unlockFolder. destruct (_fetchAndUploadE2eeFolderMetadataJob j) as [handler|] eqn:Hh;
    [|done].
  destruct (isUnlockRunning handler) eqn:Hrunning.
  { intros [= <-]. exists []. split; [by rewrite app_nil_r|constructor]. }
  simpl. destruct (isFolderLocked handler) eqn:Hlocked; simpl; intros [= <-].
  - eexists. split; [reflexivity|]. constructor; [|constructor]. simpl.
    split; [done|]. split; [done|]. eauto.
  - eexists. split; [reflexivity|]. constructor; [|constructor]. simpl. done.
Qed.

Lemma fileDrop_deliver_permitted e j j' :
  deliver environment e j = Some j' →
  ∃ extra, _log j' = _log j ++ extra ∧ Forall (permitted environment e j') extra.
Proof.
  destruct e as [created|handler code message|handler code message|handler folderId status];
    simpl.
  - unfold scheduleSelfOrChild, start. destruct (_state j); simpl.
    + destruct (rootE2eFolderRecordValid environment); simpl.
      * intros [= <-]. eexists. split; [reflexivity|]. constructor; [|constructor].
        simpl. eauto.
      * destruct (unlockFolder environment false (set_state Running j)) as [j1|] eqn:Hunlock;
          [|done].
        simpl. intros [= <-]. by apply (unlockFolder_false_permitted _ _ _ Hunlock).
    + intros [= <-]. exists []. split; [by rewrite app_nil_r|constructor].
    + intros [= <-]. exists []. split; [by rewrite app_nil_r|constructor].
  - unfold slotFetchMetadataJobFinished. case_bool_decide as Hcode.
    { intros [= <-]. eexists. split; [reflexivity|]. constructor; [|constructor]. done. }
    destruct (rootE2eFolderRecordValid environment) eqn:Hroot; simpl.
    2: { intros Hunlock. by apply (unlockFolder_false_permitted _ _ _ Hunlock). }
    destruct (folderMetadata handler) as [fm|] eqn:Hfm.
    2: { intros Hunlock. by apply (unlockFolder_false_permitted _ _ _ Hunlock). }
    destruct (isValid handler) eqn:Hvalid; simpl.
    2: { intros Hunlock. by apply (unlockFolder_false_permitted _ _ _ Hunlock). }
    destruct (negb _ && negb _) eqn:Hnothing.
    { intros Hunlock.
      destruct (unlockFolder_false_permitted (FetchFinished handler code message) _ _ Hunlock)
        as (extra & Hlog & Hall).
      by exists extra. }
    intros [= <-]. eexists. split; [simpl; by rewrite <- app_assoc|].
    assert (code = 200) as -> by (destruct (decide (code = 200)); done).
    assert (permitted environment (FetchFinished handler 200 message)
              (act UploadMetadata
                 (act FileDropMetadataParsedAndAdjusted
                    (set_handler
                       (Some (set_folderMetadata (FolderMetadata.moveFromFileDropToFiles fm).2
                                handler))
                       (set_handler (Some handler) j))))
              UploadMetadata) as Hupload.
    { simpl. split; [done|]. exists handler, message, fm.
      split; [done|]. split; [done|]. split; [done|]. split.
      - apply andb_false_iff in Hnothing as [Hmoved|Hneeded].
        + left. by apply negb_false_iff.
        + right. apply negb_false_iff in Hneeded.
          unfold FolderMetadata.moveFromFileDropToFiles in Hneeded.
          by destruct (_ || _ || _).
      - split; [done|].
        unfold FolderMetadata.moveFromFileDropToFiles.
        by destruct (_ || _ || _). }
    constructor; [exact Hupload|]. constructor; [exact Hupload|constructor].
  - unfold slotUpdateMetadataFinished. case_bool_decide as Hcode; intros [= <-].
    { eexists. split; [reflexivity|]. constructor; [|constructor]. done. }
    eexists. split; [reflexivity|]. constructor; [|constructor]. simpl.
    intros _. left. exists handler, message.
    assert (code = 200) as -> by (destruct (decide (code = 200)); done). done.
  - unfold slotFolderUnlocked. simpl. case_bool_decide as Hstatus.
    { intros [= <-]. eexists. split; [reflexivity|]. constructor; [|constructor]. done. }
    assert (status = 200) as -> by (destruct (decide (status = 200)); done).
    destruct (folderMetadata handler) as [fm|] eqn:Hfm; simpl.
    2: { intros [= <-]. eexists. split; [reflexivity|]. constructor; [|constructor]. done. }
    rewrite ?(bool_decide_eq_true_2 (is_Some (Some fm))) by eauto. simpl.
    destruct (isValid handler) eqn:Hvalid; simpl; intros [= <-].
    + eexists. split; [reflexivity|]. constructor; [|constructor]. simpl.
      intros _. right. exists handler, folderId, fm. done.
    + eexists. split; [reflexivity|]. constructor; [|constructor]. done.
Qed.

Lemma fileDrop_permitted_in e j j' extra a :
  deliver environment e j = Some j' → _log j' = _log j ++ extra → a ∈ extra →
  permitted environment e j' a.
Proof.
  intros Hdeliver Hlog Hin.
  destruct (fileDrop_deliver_permitted e j j' Hdeliver) as (extra' & Hlog' & Hall).
  rewrite Hlog in Hlog'. apply app_inv_head in Hlog' as <-.
  by apply (proj1 (Forall_forall _ _) Hall).
Qed.

(** X25: whatever the signal, the job uploads the metadata only in the slot
    of a fetch that ended with 200, for a folder with a root encrypted
    folder record and valid metadata whose file drop could be moved to the
    files or that need the migration; the metadata it uploads are those that
    [moveFromFileDropToFiles] left, without a file drop when one was
    moved. *)
Theorem metadata_uploaded_only_for_file_drop_or_migration e j j' extra :
  deliver environment e j = Some j' → _log j' = _log j ++ extra → UploadMetadata ∈ extra →
  rootE2eFolderRecordValid environment = true
  ∧ ∃ handler message fm,
      e = FetchFinished handler 200 message
      ∧ folderMetadata handler = Some fm ∧ isValid handler = true
      ∧ ((FolderMetadata.moveFromFileDropToFiles fm).1 = true
         ∨ FolderMetadata.encryptedMetadataNeedUpdate fm = true)
      ∧ _fetchAndUploadE2eeFolderMetadataJob j'
        = Some (set_folderMetadata (FolderMetadata.moveFromFileDropToFiles fm).2 handler)
      ∧ ((FolderMetadata.moveFromFileDropToFiles fm).1 = true →
         FolderMetadata.isFileDropPresent (FolderMetadata.moveFromFileDropToFiles fm).2
         = false).
Proof. intros Hdeliver Hlog Hin. exact (fileDrop_permitted_in _ _ _ _ _ Hdeliver Hlog Hin). Qed.

(** X26: whatever the signal, the job emits [finished] with Success only
    in the slot of an upload that ended with 200, where it also sets the
    status of the item to Success, and in the slot of an unlock request that
    ended with 200 on valid metadata, where it takes the encryption status
    of the item from the metadata. *)
Theorem finished_Success_only_after_upload_or_unlock e j j' extra :
  deliver environment e j = Some j' → _log j' = _log j ++ extra →
  EmitFinished Success ∈ extra →
  (∃ handler message, e = UploadFinished handler 200 message
                      ∧ _status (_item j') = Some Success)
  ∨ (∃ handler folderId fm,
       e = FolderUnlocked handler folderId 200
       ∧ folderMetadata handler = Some fm ∧ isValid handler = true
       ∧ _e2eEncryptionStatus (_item j') = encryptedMetadataEncryptionStatus handler
       ∧ _e2eEncryptionStatusRemote (_item j') = encryptedMetadataEncryptionStatus handler).
Proof.
  intros Hdeliver Hlog Hin. exact (fileDrop_permitted_in _ _ _ _ _ Hdeliver Hlog Hin eq_refl).
Qed.

(** X27: whatever the signal, the job asks the handler to unlock the
    folder only without success, for a handler that holds the lock and has
    no unlock request running, and it has then set the error of the item to
    [Failed to update folder metadata.] *)
Theorem folder_unlocked_only_without_success e j j' extra success :
  deliver environment e j = Some j' → _log j' = _log j ++ extra →
  UnlockFolder success ∈ extra →
  success = false
  ∧ _errorString (_item j') = "Failed to update folder metadata."
  ∧ ∃ handler, _fetchAndUploadE2eeFolderMetadataJob j' = Some handler
               ∧ isFolderLocked handler = true ∧ isUnlockRunning handler = false.
Proof. intros Hdeliver Hlog Hin. exact (fileDrop_permitted_in _ _ _ _ _ Hdeliver Hlog Hin). Qed.

End WithPlatform.

(** ** On the job of a folder of alice *)

Import Sample.

Lemma file_drop_is_moved_and_uploaded :
  deliver recordFound (FetchFinished handlerWithFileDrop 200 "") startedJob = Some uploadingJob
  ∧ permitted recordFound (FetchFinished handlerWithFileDrop 200 "") uploadingJob
      UploadMetadata.
Proof.
  split; [reflexivity|].
  apply (metadata_uploaded_only_for_file_drop_or_migration recordFound
           (FetchFinished handlerWithFileDrop 200 "") startedJob uploadingJob
           [FileDropMetadataParsedAndAdjusted; UploadMetadata]).
  - reflexivity.
  - reflexivity.
  - right. left.
Defined.

Lemma upload_200_finishes_with_Success :
  ∃ j', deliver recordFound (UploadFinished handlerWithFileDrop 200 "") uploadingJob = Some j'
    ∧ _log j' = _log uploadingJob ++ [EmitFinished Success]
    ∧ permitted recordFound (UploadFinished handlerWithFileDrop 200 "") j'
        (EmitFinished Success).
Proof.
  eexists. split; [reflexivity|]. split; [reflexivity|]. intros _.
  apply (finished_Success_only_after_upload_or_unlock recordFound
           (UploadFinished handlerWithFileDrop 200 "") uploadingJob _ [EmitFinished Success]).
  - reflexivity.
  - reflexivity.
  - left.
Defined.

Lemma nothing_to_update_unlocks_without_success :
  ∃ j', deliver recordFound (FetchFinished handlerUpToDate 200 "") startedJob = Some j'
    ∧ _log j' = [FetchMetadata; UnlockFolder false]
    ∧ permitted recordFound (FetchFinished handlerUpToDate 200 "") j' (UnlockFolder false).
Proof.
  eexists. split; [reflexivity|]. split; [reflexivity|].
  apply (folder_unlocked_only_without_success recordFound
           (FetchFinished handlerUpToDate 200 "") startedJob _ [UnlockFolder false] false).
  - reflexivity.
  - reflexivity.
  - left.
Defined.

End UpdateE2eeFolderMetadataJobFacts.
